(** * pixano-elements: interaction state machines of the 2D polygon editor
      and of the 3D cuboid editor

    Shallow embedding of
    - [packages/graphics-3d/src/pxn-cuboid.ts]   (class [CuboidEditor]),
    - [packages/graphics-3d/src/cuboid-manager.ts] (class [ModeManager]),
    - [packages/graphics-3d/src/create-controller.ts]
      (class [CreateModeController]),
    - [packages/graphics-2d/src/pxn-polygon.ts]
      (classes [Polygon] and [PolygonsManager]).

    JavaScript objects have an identity: annotation records live in a heap
    indexed by references, and the observable sets hold references.  JavaScript
    numbers are modelled as exact rationals; [Math.PI] is the exact value of
    the double-precision constant.  Rounding is outside the properties stated
    here. *)

From Stdlib Require Import QArith Qround Qabs Qminmax Lqa ZArith Lia.
From stdpp Require Import gmap strings list pretty.

Open Scope Q_scope.

(** ** Numbers, sets with identity, results *)

Module JS.

(** [Math.PI], the double 0x400921FB54442D18. *)
Definition Math_PI : Q := 884279719003555 # 281474976710656.

Definition Qlt_bool (x y : Q) : bool := negb (Qle_bool y x).

(** References to heap-allocated objects. *)
Definition ref := positive.

(** A JavaScript [Set] keyed by object identity, in insertion order. *)
Definition set_has (x : ref) (s : list ref) : bool := bool_decide (x ∈ s).

Definition set_add (x : ref) (s : list ref) : list ref :=
  if set_has x s then s else s ++ [x].

Definition set_delete (x : ref) (s : list ref) : list ref :=
  filter (λ y, y ≠ x) s.

(** [observable(o)]: the record becomes a new object of the heap. *)
Definition observable {A} (o : A) (h : gmap ref A) : ref * gmap ref A :=
  let r := fresh (dom h) in (r, <[r := o]> h).

(** Outcome of a call: normal completion or a thrown [Error]. *)
Inductive result (A : Type) : Type :=
| Ok (a : A)
| Throw (msg : string).
Arguments Ok {A} a.
Arguments Throw {A} msg.

(** Handlers run in a state monad over the fields of their object; a thrown
    error keeps the fields assigned before the throw. *)
Definition M (St A : Type) : Type := St → St * result A.

Definition ret {St A} (a : A) : M St A := λ s, (s, Ok a).

Definition bind {St A B} (m : M St A) (k : A → M St B) : M St B :=
  λ s, match m s with
       | (s', Ok a) => k a s'
       | (s', Throw msg) => (s', Throw msg)
       end.

Definition throw {St A} (msg : string) : M St A := λ s, (s, Throw msg).

Definition gets {St A} (f : St → A) : M St A := λ s, (s, Ok (f s)).

Definition modify {St} (f : St → St) : M St unit := λ s, (f s, Ok tt).

Definition when {St} (b : bool) (m : M St unit) : M St unit :=
  if b then m else ret tt.

Definition exec {St A} (m : M St A) (s : St) : St := fst (m s).

(** [for (const x of l) f(x)] and [l.forEach((x, idx) => f(idx, x))]. *)
Fixpoint forEach {St A} (f : A → M St unit) (l : list A) : M St unit :=
  match l with
  | [] => ret tt
  | x :: l' => bind (f x) (λ _, forEach f l')
  end.

Fixpoint forEachFrom {St A} (idx : nat) (f : nat → A → M St unit) (l : list A)
    : M St unit :=
  match l with
  | [] => ret tt
  | x :: l' => bind (f idx x) (λ _, forEachFrom (S idx) f l')
  end.

Fixpoint mapM {St A B} (f : A → M St B) (l : list A) : M St (list B) :=
  match l with
  | [] => ret []
  | x :: l' => bind (f x) (λ y, bind (mapM f l') (λ ys, ret (y :: ys)))
  end.

(** [l.reduce(f, acc)] for a step that may throw. *)
Fixpoint reduce {A B} (f : B → A → result B) (l : list A) (acc : B) : result B :=
  match l with
  | [] => Ok acc
  | x :: l' =>
      match f acc x with
      | Ok acc' => reduce f l' acc'
      | Throw msg => Throw msg
      end
  end.

Declare Scope js_scope.
Delimit Scope js_scope with js.
Notation "'let*' x ':=' m 'in' k" := (bind m (λ x, k))
  (at level 10, x name, m at level 100, k at level 200) : js_scope.
Notation "m ';;' k" := (bind m (λ _, k))
  (at level 100, k at level 200, right associativity) : js_scope.

End JS.

Import JS.

(** ** The 3D cuboid editor *)

Module Cuboid3D.

Definition Vec3 : Type := Q * Q * Q.

(** [types.ts], [Cuboid]. *)
Record Cuboid := {
  id : string;
  position : Vec3;
  size : Vec3;
  heading : Q;
  color : option string
}.

(** Modelled from the spec: [normalizeAngle] of [utils.ts] is not among the
    sources.  It maps an angle to its representative in (-pi, pi]. *)
Definition normalizeAngle (a : Q) : Q :=
  a - inject_Z (Qceiling ((a - Math_PI) / (2 * Math_PI))) * (2 * Math_PI).

(** The canonical range (-pi, pi]. *)
Definition normalized (a : Q) : bool :=
  Qlt_bool (- Math_PI) a && Qle_bool a Math_PI.

(** Any half-open interval of length 2 pi, open or closed at its lower end
    [lo]. *)
Definition in_interval (lo : Q) (closed_below : bool) (a : Q) : bool :=
  if closed_below
  then Qle_bool lo a && Qlt_bool a (lo + 2 * Math_PI)
  else Qlt_bool lo a && Qle_bool a (lo + 2 * Math_PI).

(** The result of [fitBoxWithAutoZ]: a box pose. *)
Record Box := {
  box_position : Vec3;
  box_size : Vec3;
  box_heading : Q
}.

(** The plots a [CreateModeController] owns. *)
Record GroundDisc := { disc_position : Vec3 }.

Record GroundRectangle := {
  rect_position : Vec3;
  rect_scale : Q * Q;        (* scale.x, scale.y *)
  rect_rotation_z : Q
}.

Record CreateModeController := {
  groundCursor : option GroundDisc;
  groundRect : option GroundRectangle
}.

Inductive CreateState := pre | selecting | done.

(** [CreateModeController.state] *)
Definition state (c : CreateModeController) : CreateState :=
  match groundCursor c, groundRect c with
  | Some _, _ => pre
  | None, Some _ => selecting
  | None, None => done
  end.

(** An [EditModeController] is bound to its target at construction. *)
Record EditModeController := { ec_target : ref }.

Record OrbitControls := {
  object : nat;              (* the camera the controls drive *)
  enabled : bool
}.

Record MouseEvent := { clientX : Q; clientY : Q }.

(** Lifecycle events received by the host. *)
Inductive CustomEvent :=
| Update (detail : option ref)
| Selection (detail : list ref)
| Create (detail : ref)
| Delete (detail : ref).

(** What a handler does besides changing fields, in order. *)
Inductive Effect :=
| Dispatch (e : CustomEvent)       (* eventTarget.dispatchEvent *)
| EditDestroy                      (* editMode.destroy() *)
| EditToggle                       (* editMode.toggleMode() *)
| CreateDestroy                    (* createMode.destroy() *)
| Render.                          (* viewer.render() *)

(** Code that is not among the sources and that the handlers call. *)
Class Collaborators := {
  (* utils.ts: fitBoxWithAutoZ(points, center, size2D, heading) *)
  fitBoxWithAutoZ : list Q → Vec3 → Q * Q → Q → Box;
  (* scene-view.ts: viewer.raycast(x, y, groundPlot)[1], for a camera *)
  raycastGround : nat → MouseEvent → option Vec3
}.

(** The [CuboidEditor] together with its [ModeManager]. *)
Record Editor := {
  heap : gmap ref Cuboid;
  editableCuboids : list ref;
  editMode : option EditModeController;
  createMode : option CreateModeController;
  editing : bool;
  updatePending : bool;
  navigating : bool;
  editTarget : option ref;
  orbitControls : OrbitControls;
  camera : nat;                    (* viewer.camera *)
  lastMouseMouseEvt : MouseEvent;
  pcl : list Q;                    (* pclPlot.positionBuffer *)
  log : list Effect
}.

(** Field assignments. *)

Definition set_heap (v : gmap ref Cuboid) (e : Editor) : Editor :=
  Build_Editor v (editableCuboids e) (editMode e) (createMode e) (editing e)
    (updatePending e) (navigating e) (editTarget e) (orbitControls e)
    (camera e) (lastMouseMouseEvt e) (pcl e) (log e).

Definition set_editableCuboids (v : list ref) (e : Editor) : Editor :=
  Build_Editor (heap e) v (editMode e) (createMode e) (editing e)
    (updatePending e) (navigating e) (editTarget e) (orbitControls e)
    (camera e) (lastMouseMouseEvt e) (pcl e) (log e).

Definition set_editMode (v : option EditModeController) (e : Editor)
    : Editor :=
  Build_Editor (heap e) (editableCuboids e) v (createMode e) (editing e)
    (updatePending e) (navigating e) (editTarget e) (orbitControls e)
    (camera e) (lastMouseMouseEvt e) (pcl e) (log e).

Definition set_createMode (v : option CreateModeController) (e : Editor)
    : Editor :=
  Build_Editor (heap e) (editableCuboids e) (editMode e) v (editing e)
    (updatePending e) (navigating e) (editTarget e) (orbitControls e)
    (camera e) (lastMouseMouseEvt e) (pcl e) (log e).

Definition set_editing (v : bool) (e : Editor) : Editor :=
  Build_Editor (heap e) (editableCuboids e) (editMode e) (createMode e) v
    (updatePending e) (navigating e) (editTarget e) (orbitControls e)
    (camera e) (lastMouseMouseEvt e) (pcl e) (log e).

Definition set_updatePending (v : bool) (e : Editor) : Editor :=
  Build_Editor (heap e) (editableCuboids e) (editMode e) (createMode e)
    (editing e) v (navigating e) (editTarget e) (orbitControls e) (camera e)
    (lastMouseMouseEvt e) (pcl e) (log e).

Definition set_navigating (v : bool) (e : Editor) : Editor :=
  Build_Editor (heap e) (editableCuboids e) (editMode e) (createMode e)
    (editing e) (updatePending e) v (editTarget e) (orbitControls e)
    (camera e) (lastMouseMouseEvt e) (pcl e) (log e).

Definition set_editTarget (v : option ref) (e : Editor) : Editor :=
  Build_Editor (heap e) (editableCuboids e) (editMode e) (createMode e)
    (editing e) (updatePending e) (navigating e) v (orbitControls e)
    (camera e) (lastMouseMouseEvt e) (pcl e) (log e).

Definition set_orbitControls (v : OrbitControls) (e : Editor) : Editor :=
  Build_Editor (heap e) (editableCuboids e) (editMode e) (createMode e)
    (editing e) (updatePending e) (navigating e) (editTarget e) v (camera e)
    (lastMouseMouseEvt e) (pcl e) (log e).

Definition set_log (v : list Effect) (e : Editor) : Editor :=
  Build_Editor (heap e) (editableCuboids e) (editMode e) (createMode e)
    (editing e) (updatePending e) (navigating e) (editTarget e)
    (orbitControls e) (camera e) (lastMouseMouseEvt e) (pcl e) v.

Definition M (A : Type) : Type := JS.M Editor A.

Open Scope js_scope.

Definition effect (x : Effect) : M unit :=
  modify (λ e, set_log (log e ++ [x]) e).

Definition dispatchEvent (ev : CustomEvent) : M unit := effect (Dispatch ev).

Definition render : M unit := effect Render.

(** [this.orbitControls.enabled = b] *)
Definition set_enabled (b : bool) : M unit :=
  modify (λ e, set_orbitControls
                 {| object := object (orbitControls e); enabled := b |} e).

(** Writes to the fields of a cuboid.  The manager observes every cuboid of
    the set and renders when its size or heading changes. *)
Definition with_heading (f : Q → Q) (c : Cuboid) : Cuboid :=
  {| id := id c; position := position c; size := size c;
     heading := f (heading c); color := color c |}.

Definition with_size (f : Vec3 → Vec3) (c : Cuboid) : Cuboid :=
  {| id := id c; position := position c; size := f (size c);
     heading := heading c; color := color c |}.

Definition write (f : Cuboid → Cuboid) (r : ref) : M unit :=
  modify (λ e, set_heap (alter f r (heap e)) e);;
  let* observed := gets (λ e, set_has r (editableCuboids e)) in
  when observed render.

(** *** [ModeManager] *)

(** [CreateModeController.destroy], on the controller held in [createMode]:
    its plots are removed, its listeners too, and the scene is rendered. *)
Definition CreateModeController_destroy : M unit :=
  modify (λ e, set_createMode
                 ((λ _, {| groundCursor := None; groundRect := None |})
                    <$> createMode e) e);;
  effect CreateDestroy;;
  render.

(** The constructor of [CreateModeController]: a ground cursor, placed where
    the last mouse position hits the ground if it does. *)
Definition new_CreateModeController `{Collaborators}
    (cam : nat) (mousePos : MouseEvent) : CreateModeController :=
  {| groundCursor :=
       Some {| disc_position :=
                 default (0, 0, 0) (raycastGround cam mousePos) |};
     groundRect := None |}.

(** [ModeManager.mode] *)
Definition mode (e : Editor) : option string :=
  if editMode e is Some _ then Some "edit"%string
  else if createMode e is Some _ then Some "create"%string
  else None.

(** [ModeManager.setMode], first half: "Restore default state". *)
Definition restoreDefaultState : M unit :=
  let* em := gets editMode in
  when (bool_decide (is_Some em))
    (effect EditDestroy;;
     modify (set_editMode None);;
     let* pending := gets updatePending in
     when pending
       ((* commit pending update *)
        let* t := gets editTarget in
        dispatchEvent (Update t);;
        modify (set_updatePending false));;
     dispatchEvent (Selection []));;
  let* cm := gets createMode in
  when (bool_decide (is_Some cm))
    (CreateModeController_destroy;;
     modify (set_createMode None));;
  let* oc := gets orbitControls in
  let* cam := gets camera in
  when (negb (Nat.eqb (object oc) cam))
    (modify (set_orbitControls {| object := cam; enabled := true |}));;
  set_enabled true;;
  modify (set_navigating false);;
  modify (set_editing false).

(** [ModeManager.setMode] *)
Definition setMode `{Collaborators} (mode : option string) : M unit :=
  restoreDefaultState;;
  (if bool_decide (mode = Some "edit"%string) then
     let* target := gets editTarget in
     match target with
     | None => throw "cannot go into edit mode without a target"
     | Some t =>
         (* Set up edit mode *)
         modify (set_editMode (Some {| ec_target := t |}));;
         (* notify about switch to editing mode *)
         dispatchEvent (Selection [t])
     end
   else if bool_decide (mode = Some "create"%string) then
     (* Activate creation *)
     set_enabled false;;
     let* cam := gets camera in
     let* evt := gets lastMouseMouseEvt in
     modify (set_createMode (Some (new_CreateModeController cam evt)))
   else ret tt);;
  render.

(** The listeners [setMode("edit")] attaches to the edit controller. *)
Definition onEditStart : M unit :=
  set_enabled false;;
  modify (set_editing true).

Definition onEditChange : M unit :=
  modify (set_updatePending true).

Definition onEditStop : M unit :=
  set_enabled true;;
  let* pending := gets updatePending in
  when pending
    (let* t := gets editTarget in dispatchEvent (Update t));;
  modify (set_updatePending false).

(** The listener [setMode("create")] attaches to the create controller. *)
Definition onCreate `{Collaborators} (detail : ref) : M unit :=
  modify (set_editTarget (Some detail));;
  setMode (Some "edit"%string);;
  dispatchEvent (Create detail).

(** [ModeManager.mouseUpListener]; [target] is the annotation of the plot the
    ray through the pointer hits, if any. *)
Definition mouseUpListener `{Collaborators} (target : option ref) : M unit :=
  let* nav := gets navigating in
  let* ed := gets editing in
  if nav || ed then
    modify (set_navigating false);;
    modify (set_editing false)
  else
    let* em := gets editMode in
    let* current := gets editTarget in
    match em, target with
    | Some _, None =>
        setMode None;;
        modify (set_editTarget None)
    | Some _, Some t =>
        if bool_decide (Some t = current) then
          effect EditToggle;;
          render
        else
          setMode None;;
          modify (set_editTarget (Some t));;
          setMode (Some "edit"%string)
    | None, Some t =>
        modify (set_editTarget (Some t));;
        setMode (Some "edit"%string)
    | None, None => ret tt
    end.

(** Modelled from the spec: [ObservableSet] of [@pixano/core] is not among
    the sources.  Membership is by identity and observers run synchronously
    after the mutation.  The manager's observers render on every structural
    change and, on a deletion, leave the current mode and drop the target. *)
Definition annotations_add (r : ref) : M unit :=
  let* present := gets (λ e, set_has r (editableCuboids e)) in
  when (negb present)
    (modify (λ e, set_editableCuboids (set_add r (editableCuboids e)) e);;
     render).

Definition annotations_delete `{Collaborators} (r : ref) : M unit :=
  let* present := gets (λ e, set_has r (editableCuboids e)) in
  when present
    (modify (λ e, set_editableCuboids (set_delete r (editableCuboids e)) e);;
     setMode None;;
     modify (set_editTarget None);;
     render).

(** *** [CreateModeController] *)

(** [CreateModeController.onMouseUp]; [rnd] is the string drawn from
    [Math.random()] for the id. *)
Definition onMouseUp `{Collaborators} (rnd : string) : M unit :=
  let* cm := gets createMode in
  match cm with
  | Some c =>
      match state c, groundRect c with
      | selecting, Some rect =>
          (* Create new object based on the drawn region *)
          let l := Qabs (snd (rect_scale rect)) in
          let w := Qabs (fst (rect_scale rect)) in
          let heading := rect_rotation_z rect - Math_PI / 2 in
          let* points := gets pcl in
          let box := fitBoxWithAutoZ points (rect_position rect) (l, w) heading in
          let* h := gets heap in
          let '(cuboid, h') :=
            observable {| id := rnd; position := box_position box;
                          size := box_size box; heading := box_heading box;
                          color := None |} h in
          modify (set_heap h');;
          (* Cleanup creation mode *)
          CreateModeController_destroy;;
          (* Add new object to the list of annotations *)
          annotations_add cuboid;;
          (* Notify listeners *)
          onCreate cuboid
      | _, _ => ret tt
      end
  | None => ret tt
  end.

(** *** [CuboidEditor] *)

(** [set mode(mode)] *)
Definition CuboidEditor_set_mode `{Collaborators} (m : option string) : M unit :=
  setMode m.

(** [swap()] *)
Definition swap : M (option ref) :=
  let* sel := gets editTarget in
  match sel with
  | Some r =>
      write (with_size (λ '(l, w, h), (w, l, h))) r;;
      write (with_heading (λ a, normalizeAngle (a - Math_PI / 2))) r;;
      ret sel
  | None => ret sel
  end.

(** [rotate()] *)
Definition rotate : M (option ref) :=
  let* sel := gets editTarget in
  match sel with
  | Some r =>
      write (with_heading (λ a, normalizeAngle (a - Math_PI / 2))) r;;
      ret sel
  | None => ret sel
  end.

(** [set editTarget(cuboid)] *)
Definition CuboidEditor_set_editTarget `{Collaborators}
    (cuboid : option ref) : M unit :=
  match cuboid with
  | Some r =>
      let* known := gets (λ e, set_has r (editableCuboids e)) in
      if negb known then throw "target is not an existing annotation"
      else
        modify (set_editTarget (Some r));;
        CuboidEditor_set_mode (Some "edit"%string)
  | None => modify (set_editTarget None)
  end.

(** [addAnnotation(annotation)] *)
Definition addAnnotation (annotation : Cuboid) : M ref :=
  let* h := gets heap in
  let '(newObj, h') := observable annotation h in
  modify (set_heap h');;
  annotations_add newObj;;
  ret newObj.

(** [defaultOnKeyDown(e)], on [e.key] *)
Definition defaultOnKeyDown `{Collaborators} (key : string) : M unit :=
  let* target := gets editTarget in
  if bool_decide (key = " "%string) && bool_decide (is_Some target) then
    from_option
      (λ r, write (with_heading (λ a, a - Math_PI / 2)) r;;
            dispatchEvent (Update (Some r)))
      (ret tt) target
  else if bool_decide (key = "Escape"%string) then
    CuboidEditor_set_mode None;;
    CuboidEditor_set_editTarget None
  else if bool_decide (key = "Delete"%string) && bool_decide (is_Some target) then
    from_option
      (λ annotation, annotations_delete annotation;;
                     dispatchEvent (Delete annotation))
      (ret tt) target
  else if bool_decide (key = "c"%string) then
    CuboidEditor_set_mode (Some "create"%string)
  else ret tt.

(** *** What the host observes, and the properties of interest *)

(** The same handler run [n] times in a row. *)
Fixpoint times (n : nat) (m : M unit) : M unit :=
  match n with
  | O => ret tt
  | S n' => m;; times n' m
  end.

(** The lifecycle events among the effects, in order. *)
Definition dispatched (l : list Effect) : list CustomEvent :=
  omap (λ x, match x with Dispatch ev => Some ev | _ => None end) l.

(** The effects of the teardown that [setMode] starts with, read off the
    fields on entry. *)
Definition teardown_effects (e : Editor) : list Effect :=
  (if editMode e is Some _ then
     [EditDestroy]
     ++ (if updatePending e then [Dispatch (Update (editTarget e))] else [])
     ++ [Dispatch (Selection [])]
   else [])
  ++ (if createMode e is Some _ then [CreateDestroy; Render] else []).

(** Every cuboid of the set has its heading in the canonical range. *)
Definition headings_normalized (e : Editor) : bool :=
  forallb (λ r, from_option (λ c, normalized (heading c)) true (heap e !! r))
          (editableCuboids e).

(** *** A scenario *)

Definition exampleCollaborators : Collaborators :=
  {| fitBoxWithAutoZ := λ _ center size2D h,
       {| box_position := center;
          box_size := (fst size2D, snd size2D, 1);
          box_heading := h |};
     raycastGround := λ _ evt, Some (clientX evt, clientY evt, 0) |}.

Definition initial : Editor :=
  {| heap := ∅; editableCuboids := []; editMode := None; createMode := None;
     editing := false; updatePending := false; navigating := false;
     editTarget := None;
     orbitControls := {| object := 0%nat; enabled := true |};
     camera := 0%nat;
     lastMouseMouseEvt := {| clientX := 0; clientY := 0 |};
     pcl := []; log := [] |}.

Definition cuboidA : Cuboid :=
  {| id := "A"; position := (0, 0, 0); size := (4, 2, 3 # 2);
     heading := -3; color := None |}.

(** The host adds cuboid A, which becomes object 1. *)
Definition withA : Editor := exec (addAnnotation cuboidA) initial.

(** The user clicks on A. *)
Definition selectedA : Editor :=
  exec (mouseUpListener (H := exampleCollaborators) (Some 1%positive)) withA.

(** The user drags a handle of A: the edit controller reports [start] and
    [change], and the update is still pending. *)
Definition draggingA : Editor :=
  exec (onEditStart;; onEditChange) selectedA.

(** The user presses [c], then draws a ground rectangle from (0,0,0) to
    (2,3,0) and still holds the button. *)
Definition drawingRect : Editor :=
  set_createMode
    (Some {| groundCursor := None;
             groundRect := Some {| rect_position := (1, 3 # 2, 0);
                                   rect_scale := (3, 2);
                                   rect_rotation_z := 0 |} |})
    (exec (defaultOnKeyDown (H := exampleCollaborators) "c") withA).

(** *** More of [CuboidEditor], [ModeManager] and [CreateModeController] *)

Definition set_camera (v : nat) (e : Editor) : Editor :=
  Build_Editor (heap e) (editableCuboids e) (editMode e) (createMode e)
    (editing e) (updatePending e) (navigating e) (editTarget e)
    (orbitControls e) v (lastMouseMouseEvt e) (pcl e) (log e).

Definition set_lastMouseMouseEvt (v : MouseEvent) (e : Editor) : Editor :=
  Build_Editor (heap e) (editableCuboids e) (editMode e) (createMode e)
    (editing e) (updatePending e) (navigating e) (editTarget e)
    (orbitControls e) (camera e) v (pcl e) (log e).

Definition set_pcl (v : list Q) (e : Editor) : Editor :=
  Build_Editor (heap e) (editableCuboids e) (editMode e) (createMode e)
    (editing e) (updatePending e) (navigating e) (editTarget e)
    (orbitControls e) (camera e) (lastMouseMouseEvt e) v (log e).

(** [ModeManager.mouseMoveListener] *)
Definition mouseMoveListener (evt : MouseEvent) : M unit :=
  modify (set_lastMouseMouseEvt evt).

(** The listener of the orbit controls' [change] event. *)
Definition onOrbitChange : M unit :=
  modify (set_navigating true);;
  render.

(** Plots that are not among the sources: the constructor of
    [GroundRectangle] from two corners and a heading, and the rotation of a
    camera about the vertical axis. *)
Class Plots := {
  newGroundRectangle : Vec3 → Vec3 → Q → GroundRectangle;
  rotation_z : nat → Q
}.

(** [CreateModeController.onMouseDown] *)
Definition onMouseDown `{Plots} : M unit :=
  let* cm := gets createMode in
  match cm with
  | Some c =>
      match groundCursor c with
      | Some cursor =>
          (* Draw selection rectangle, erase ground cursor *)
          let* cam := gets camera in
          modify (set_createMode
                    (Some {| groundCursor := None;
                             groundRect :=
                               Some (newGroundRectangle
                                       (disc_position cursor)
                                       (disc_position cursor)
                                       (rotation_z cam - Math_PI)) |}));;
          render
      | None => ret tt
      end
  | None => ret tt
  end.

(** A [mouseup] on the viewer's element: the listener of the manager was
    added first and runs first; the listener of the create controller runs
    if the controller has not been destroyed meanwhile.  [target] is the
    annotation under the pointer, if any. *)
Definition domElement_mouseup `{Collaborators}
    (target : option ref) (rnd : string) : M unit :=
  mouseUpListener target;;
  onMouseUp rnd.

(** Modelled from the spec: [ObservableSet.clear] of [@pixano/core] is not
    among the sources.  As [add] and [delete], it notifies the observers
    when it changes the set, that is when the set held something.  The
    observers of the manager then leave the edit mode, drop the target and
    render the scene. *)
Definition annotations_clear `{Collaborators} : M unit :=
  let* empty := gets (λ e, bool_decide (editableCuboids e = [])) in
  when (negb empty)
    (modify (set_editableCuboids []);;
     let* em := gets editMode in
     when (bool_decide (is_Some em)) (setMode None);;
     modify (set_editTarget None);;
     render).

(** [set editableCuboids(value)]; [None] is a null value. *)
Definition CuboidEditor_set_editableCuboids `{Collaborators}
    (value : option (list Cuboid)) : M unit :=
  annotations_clear;;
  forEach (λ v, addAnnotation v;; ret tt) (default [] value).

(** [set pcl(value)] *)
Definition CuboidEditor_set_pcl (value : list Q) : M unit :=
  modify (set_pcl value);;
  render.

(** [set cameraMode(value)]; [cam] is the camera the viewer uses once its
    camera mode is [value]. *)
Definition CuboidEditor_set_cameraMode `{Collaborators} (cam : nat) : M unit :=
  let* m := gets mode in
  CuboidEditor_set_mode None;;
  modify (set_camera cam);;
  CuboidEditor_set_mode m;;
  render.

(** What the user and the host can do to the editor. *)
Inductive Action :=
| KeyDown (key : string)
| MouseDown
| MouseUp (target : option ref) (rnd : string)
| MouseMove (evt : MouseEvent)
| OrbitChange
| EditStart
| EditChange
| EditStop
| SetMode (m : option string)
| SetEditTarget (cuboid : option ref)
| SetEditableCuboids (value : option (list Cuboid))
| AddAnnotation (annotation : Cuboid)
| SetPcl (value : list Q)
| SetCameraMode (cam : nat)
| Rotate
| Swap.

(** The edit controller reports [start], [change] and [stop] only while it
    exists. *)
Definition perform `{Collaborators} `{Plots} (a : Action) : M unit :=
  match a with
  | KeyDown key => defaultOnKeyDown key
  | MouseDown => onMouseDown
  | MouseUp target rnd => domElement_mouseup target rnd
  | MouseMove evt => mouseMoveListener evt
  | OrbitChange => onOrbitChange
  | EditStart =>
      let* em := gets editMode in when (bool_decide (is_Some em)) onEditStart
  | EditChange =>
      let* em := gets editMode in when (bool_decide (is_Some em)) onEditChange
  | EditStop =>
      let* em := gets editMode in when (bool_decide (is_Some em)) onEditStop
  | SetMode m => CuboidEditor_set_mode m
  | SetEditTarget cuboid => CuboidEditor_set_editTarget cuboid
  | SetEditableCuboids value => CuboidEditor_set_editableCuboids value
  | AddAnnotation annotation => addAnnotation annotation;; ret tt
  | SetPcl value => CuboidEditor_set_pcl value
  | SetCameraMode cam => CuboidEditor_set_cameraMode cam
  | Rotate => rotate;; ret tt
  | Swap => swap;; ret tt
  end.

(** The pointer can only be over a cuboid of the set. *)
Definition possible (e : Editor) (a : Action) : Prop :=
  match a with
  | MouseUp (Some t) _ => t ∈ editableCuboids e
  | _ => True
  end.

(** What the handlers keep: at most one sub-controller exists; an update is
    pending only in edit mode; the orbit controls are disabled in create
    mode; the target is a cuboid of the set; the set holds live objects,
    each once. *)
Definition consistent (e : Editor) : Prop :=
  (editMode e = None ∨ createMode e = None)
  ∧ (updatePending e = true → is_Some (editMode e))
  ∧ (is_Some (createMode e) → enabled (orbitControls e) = false)
  ∧ (∀ r, editTarget e = Some r → r ∈ editableCuboids e)
  ∧ NoDup (editableCuboids e)
  ∧ (∀ r, r ∈ editableCuboids e → is_Some (heap e !! r)).

(** A handler keeps the invariant, whether it returns or throws. *)
Definition keeps {A} (m : M A) : Prop :=
  ∀ e, consistent e → consistent (exec m e).

(** The fields the teardown of [setMode] leaves. *)
Definition torn_down (e : Editor) : Editor :=
  {| heap := heap e; editableCuboids := editableCuboids e;
     editMode := None; createMode := None; editing := false;
     updatePending := (if editMode e is Some _ then false else updatePending e);
     navigating := false; editTarget := editTarget e;
     orbitControls := {| object := camera e; enabled := true |};
     camera := camera e; lastMouseMouseEvt := lastMouseMouseEvt e;
     pcl := pcl e; log := log e ++ teardown_effects e |}.

(** The records behind a list of references. *)
Definition cuboids (e : Editor) (l : list ref) : list Cuboid :=
  omap (λ r, heap e !! r) l.

Definition examplePlots : Plots :=
  {| newGroundRectangle := λ p q h,
       {| rect_position := p; rect_scale := (0, 0); rect_rotation_z := h |};
     rotation_z := λ _, 0 |}.

End Cuboid3D.

(** ** The 2D polygon editor *)

Module Polygon2D.

(** [types.ts], [Geometry] and [ShapeData]; [mvertices] is optional. *)
Record Geometry := {
  vertices : list Q;
  mvertices : option (list (list Q));
  type : string
}.

Record ShapeData := {
  id : string;
  geometry : Geometry;
  color : string
}.

Definition with_vertices (vs : list Q) (d : ShapeData) : ShapeData :=
  {| id := id d;
     geometry := {| vertices := vs; mvertices := mvertices (geometry d);
                    type := type (geometry d) |};
     color := color d |}.

Definition with_id (i : string) (d : ShapeData) : ShapeData :=
  {| id := i; geometry := geometry d; color := color d |}.

(** A [PolygonShape] draws the record [data], scaled to the image;
    [lastX] and [lastY] are the position of the last click, in pixels. *)
Record PolygonShape := {
  data : ref;
  scaleX : Q;
  scaleY : Q;
  lastX : Q;
  lastY : Q
}.

(** What the handlers read of a pointer event: the position local to the
    stage, [originalEvent.buttons] and, on a node, [nodeIdx]. *)
Record PointerEvent := {
  local_x : Q;
  local_y : Q;
  buttons : Z;
  nodeIdx : Z
}.

(** What a handler does besides changing fields, in order. *)
Inductive Effect :=
| Emit (name : string) (ids : list string)     (* this.emit(name, ids) *)
| Warn (msg : string)                          (* console.warn *)
| AddChild (shape : ref)
| RemoveChild (shape : ref)
| Destroy (shape : ref)                        (* shape.destroy() *)
| Draw (shape : ref)
| Listen (target event : string)               (* on / addEventListener *)
| RemoveAllListeners (node : Z) (event : string).

(** The [Polygon] element together with its [PolygonsManager]. *)
Record State := {
  heap : gmap ref ShapeData;
  shapes : list ref;                 (* this.shapes, the annotation set *)
  targetShapes : list ref;           (* the selection *)
  mode : string;
  tmpShape : option PolygonShape;    (* the shape under construction *)
  cachedShape : option ShapeData;    (* copy taken when a drag starts *)
  isCreating : bool;
  updated : bool;
  isNodeTranslating : bool;
  isMidNodeTranslating : bool;
  isDbClick : Z;                     (* id of the double-click timer, or -1 *)
  activeNodeIdx : Z;
  mouseX : Q;
  mouseY : Q;
  imageWidth : Q;                    (* renderer.imageWidth *)
  imageHeight : Q;                   (* renderer.imageHeight *)
  timers : list (Z * Z);             (* pending timers: id, delay in ms *)
  nextTimer : Z;                     (* the id setTimeout returns next *)
  log : list Effect
}.

(** Field assignments. *)

Definition set_heap (v : gmap ref ShapeData) (s : State) : State :=
  Build_State v (shapes s) (targetShapes s) (mode s) (tmpShape s)
    (cachedShape s) (isCreating s) (updated s) (isNodeTranslating s)
    (isMidNodeTranslating s) (isDbClick s) (activeNodeIdx s) (mouseX s)
    (mouseY s) (imageWidth s) (imageHeight s) (timers s) (nextTimer s)
    (log s).

Definition set_shapes (v : list ref) (s : State) : State :=
  Build_State (heap s) v (targetShapes s) (mode s) (tmpShape s)
    (cachedShape s) (isCreating s) (updated s) (isNodeTranslating s)
    (isMidNodeTranslating s) (isDbClick s) (activeNodeIdx s) (mouseX s)
    (mouseY s) (imageWidth s) (imageHeight s) (timers s) (nextTimer s)
    (log s).

Definition set_targetShapes (v : list ref) (s : State) : State :=
  Build_State (heap s) (shapes s) v (mode s) (tmpShape s) (cachedShape s)
    (isCreating s) (updated s) (isNodeTranslating s)
    (isMidNodeTranslating s) (isDbClick s) (activeNodeIdx s) (mouseX s)
    (mouseY s) (imageWidth s) (imageHeight s) (timers s) (nextTimer s)
    (log s).

Definition set_mode (v : string) (s : State) : State :=
  Build_State (heap s) (shapes s) (targetShapes s) v (tmpShape s)
    (cachedShape s) (isCreating s) (updated s) (isNodeTranslating s)
    (isMidNodeTranslating s) (isDbClick s) (activeNodeIdx s) (mouseX s)
    (mouseY s) (imageWidth s) (imageHeight s) (timers s) (nextTimer s)
    (log s).

Definition set_tmpShape (v : option PolygonShape) (s : State) : State :=
  Build_State (heap s) (shapes s) (targetShapes s) (mode s) v
    (cachedShape s) (isCreating s) (updated s) (isNodeTranslating s)
    (isMidNodeTranslating s) (isDbClick s) (activeNodeIdx s) (mouseX s)
    (mouseY s) (imageWidth s) (imageHeight s) (timers s) (nextTimer s)
    (log s).

Definition set_cachedShape (v : option ShapeData) (s : State) : State :=
  Build_State (heap s) (shapes s) (targetShapes s) (mode s) (tmpShape s) v
    (isCreating s) (updated s) (isNodeTranslating s)
    (isMidNodeTranslating s) (isDbClick s) (activeNodeIdx s) (mouseX s)
    (mouseY s) (imageWidth s) (imageHeight s) (timers s) (nextTimer s)
    (log s).

Definition set_isCreating (v : bool) (s : State) : State :=
  Build_State (heap s) (shapes s) (targetShapes s) (mode s) (tmpShape s)
    (cachedShape s) v (updated s) (isNodeTranslating s)
    (isMidNodeTranslating s) (isDbClick s) (activeNodeIdx s) (mouseX s)
    (mouseY s) (imageWidth s) (imageHeight s) (timers s) (nextTimer s)
    (log s).

Definition set_updated (v : bool) (s : State) : State :=
  Build_State (heap s) (shapes s) (targetShapes s) (mode s) (tmpShape s)
    (cachedShape s) (isCreating s) v (isNodeTranslating s)
    (isMidNodeTranslating s) (isDbClick s) (activeNodeIdx s) (mouseX s)
    (mouseY s) (imageWidth s) (imageHeight s) (timers s) (nextTimer s)
    (log s).

Definition set_isNodeTranslating (v : bool) (s : State) : State :=
  Build_State (heap s) (shapes s) (targetShapes s) (mode s) (tmpShape s)
    (cachedShape s) (isCreating s) (updated s) v (isMidNodeTranslating s)
    (isDbClick s) (activeNodeIdx s) (mouseX s) (mouseY s) (imageWidth s)
    (imageHeight s) (timers s) (nextTimer s) (log s).

Definition set_isMidNodeTranslating (v : bool) (s : State) : State :=
  Build_State (heap s) (shapes s) (targetShapes s) (mode s) (tmpShape s)
    (cachedShape s) (isCreating s) (updated s) (isNodeTranslating s) v
    (isDbClick s) (activeNodeIdx s) (mouseX s) (mouseY s) (imageWidth s)
    (imageHeight s) (timers s) (nextTimer s) (log s).

Definition set_isDbClick (v : Z) (s : State) : State :=
  Build_State (heap s) (shapes s) (targetShapes s) (mode s) (tmpShape s)
    (cachedShape s) (isCreating s) (updated s) (isNodeTranslating s)
    (isMidNodeTranslating s) v (activeNodeIdx s) (mouseX s) (mouseY s)
    (imageWidth s) (imageHeight s) (timers s) (nextTimer s) (log s).

Definition set_activeNodeIdx (v : Z) (s : State) : State :=
  Build_State (heap s) (shapes s) (targetShapes s) (mode s) (tmpShape s)
    (cachedShape s) (isCreating s) (updated s) (isNodeTranslating s)
    (isMidNodeTranslating s) (isDbClick s) v (mouseX s) (mouseY s)
    (imageWidth s) (imageHeight s) (timers s) (nextTimer s) (log s).

Definition set_mouseX (v : Q) (s : State) : State :=
  Build_State (heap s) (shapes s) (targetShapes s) (mode s) (tmpShape s)
    (cachedShape s) (isCreating s) (updated s) (isNodeTranslating s)
    (isMidNodeTranslating s) (isDbClick s) (activeNodeIdx s) v (mouseY s)
    (imageWidth s) (imageHeight s) (timers s) (nextTimer s) (log s).

Definition set_mouseY (v : Q) (s : State) : State :=
  Build_State (heap s) (shapes s) (targetShapes s) (mode s) (tmpShape s)
    (cachedShape s) (isCreating s) (updated s) (isNodeTranslating s)
    (isMidNodeTranslating s) (isDbClick s) (activeNodeIdx s) (mouseX s) v
    (imageWidth s) (imageHeight s) (timers s) (nextTimer s) (log s).

Definition set_timers (v : list (Z * Z)) (s : State) : State :=
  Build_State (heap s) (shapes s) (targetShapes s) (mode s) (tmpShape s)
    (cachedShape s) (isCreating s) (updated s) (isNodeTranslating s)
    (isMidNodeTranslating s) (isDbClick s) (activeNodeIdx s) (mouseX s)
    (mouseY s) (imageWidth s) (imageHeight s) v (nextTimer s) (log s).

Definition set_nextTimer (v : Z) (s : State) : State :=
  Build_State (heap s) (shapes s) (targetShapes s) (mode s) (tmpShape s)
    (cachedShape s) (isCreating s) (updated s) (isNodeTranslating s)
    (isMidNodeTranslating s) (isDbClick s) (activeNodeIdx s) (mouseX s)
    (mouseY s) (imageWidth s) (imageHeight s) (timers s) v (log s).

Definition set_log (v : list Effect) (s : State) : State :=
  Build_State (heap s) (shapes s) (targetShapes s) (mode s) (tmpShape s)
    (cachedShape s) (isCreating s) (updated s) (isNodeTranslating s)
    (isMidNodeTranslating s) (isDbClick s) (activeNodeIdx s) (mouseX s)
    (mouseY s) (imageWidth s) (imageHeight s) (timers s) (nextTimer s) v.

Definition M (A : Type) : Type := JS.M State A.

Open Scope js_scope.

(** Code that is not among the sources: the validity check of
    [PolygonShape], which the spec leaves to the implementation, and the
    handlers of the base class [ShapesManager]. *)
Class Base := {
  isValid : list Q → bool;
  super_onRootDown : PointerEvent → State → State;
  super_onRootUp : State → State
}.

Definition effect (x : Effect) : M unit :=
  modify (λ s, set_log (log s ++ [x]) s).

(** Reading a record through a reference; a reference without an object
    reads as [undefined], whose fields cannot be read. *)
Definition deref (r : ref) : M ShapeData :=
  λ s, match heap s !! r with
       | Some d => (s, Ok d)
       | None => (s, Throw "TypeError")
       end.

Definition new_observable (d : ShapeData) : M ref :=
  let* h := gets heap in
  let '(r, h') := observable d h in
  modify (set_heap h');;
  ret r.

(** Modelled from the spec: [ObservableSet] of [@pixano/core] is not among
    the sources.  Membership is by identity. *)
Definition shapes_add (r : ref) : M unit :=
  modify (λ s, set_shapes (set_add r (shapes s)) s).

Definition shapes_delete (r : ref) : M unit :=
  modify (λ s, set_shapes (set_delete r (shapes s)) s).

(** *** [Polygon] *)

(** [getFlattenVertices(s)] *)
Definition getFlattenVertices (s : Geometry) : result (list (list Q)) :=
  if bool_decide (type s = "multi_polygon"%string) then
    match mvertices s with
    | Some rings => Ok rings
    | None => Throw "TypeError"
    end
  else Ok [vertices s].

(** The callback and the initial value of the [reduce] of [merge]. *)
Definition mergeStep (prev curr : ShapeData) : result ShapeData :=
  match getFlattenVertices (geometry curr) with
  | Ok currVertices =>
      match mvertices (geometry prev) with
      | Some acc =>
          Ok {| id := id prev +:+ id curr;
                geometry := {| vertices := vertices (geometry prev);
                               mvertices := Some (acc ++ currVertices);
                               type := type (geometry prev) |};
                color := color prev |}
      | None => Throw "TypeError"
      end
  | Throw msg => Throw msg
  end.

Definition mergeInit (first : ShapeData) : ShapeData :=
  {| id := id first;
     geometry := {| vertices := []; mvertices := Some [];
                    type := "multi_polygon" |};
     color := color first |}.

(** [merge()] *)
Definition merge : M unit :=
  let* targets := gets targetShapes in
  if bool_decide (1 < length targets)%nat then
    let* shapes := mapM deref targets in
    match shapes with
    | first :: _ =>
        match reduce mergeStep shapes (mergeInit first) with
        | Ok newAnn =>
            let* r := new_observable newAnn in
            shapes_add r;;
            forEach shapes_delete targets
        | Throw msg => throw msg
        end
    | [] => ret tt
    end
  else ret tt.

(** The callback of the [forEach] of [split]: ring [v], of index [idx] in
    the multi-polygon [shape], becomes a polygon. *)
Definition ringRecord (shape : ShapeData) (idx : nat) (v : list Q) : ShapeData :=
  {| id := id shape +:+ pretty idx;
     geometry := {| vertices := v; mvertices := Some []; type := "polygon" |};
     color := color shape |}.

Definition addRing (shape : ShapeData) (idx : nat) (v : list Q) : M unit :=
  let* r := new_observable (ringRecord shape idx v) in
  shapes_add r.

(** [split()] *)
Definition split : M unit :=
  let* targets := gets targetShapes in
  if bool_decide (length targets = 1%nat) then
    match targets with
    | shape :: _ =>
        let* d := deref shape in
        if bool_decide (type (geometry d) = "multi_polygon"%string) then
          match mvertices (geometry d) with
          | Some rings =>
              forEachFrom 0 (addRing d) rings;;
              shapes_delete shape
          | None => throw "TypeError"
          end
        else ret tt
    | [] => ret tt
    end
  else ret tt.

(** *** [PolygonShape] *)

Definition write (f : ShapeData → ShapeData) (r : ref) : M unit :=
  modify (λ s, set_heap (alter f r (heap s)) s).

(** Modelled from the spec: [PolygonShape] of [shapes-2d.ts] is not among the
    sources.  [pushNode] appends a vertex and keeps its position in pixels as
    the last click; [popNode] removes the last vertex. *)
Definition pushNode (x y : Q) (shape : PolygonShape) : M unit :=
  write (λ d, with_vertices (vertices (geometry d) ++ [x; y]) d) (data shape);;
  modify (set_tmpShape
            (Some {| data := data shape;
                     scaleX := scaleX shape; scaleY := scaleY shape;
                     lastX := x * scaleX shape; lastY := y * scaleY shape |})).

Definition popNode (shape : PolygonShape) : M unit :=
  write (λ d, with_vertices
                (take (length (vertices (geometry d)) - 2)
                      (vertices (geometry d))) d)
        (data shape).

(** Modelled from the spec: [getFirstTargetObject] of [ShapesManager] is not
    among the sources.  It is the shape of the first selected record. *)
Definition getFirstTargetObject : M (option ref) :=
  gets (λ s, head (targetShapes s)).

(** *** [PolygonsManager] *)

(** [window.setTimeout(() => { this.isDbClick = -1; }, delay)] *)
Definition setTimeout (delay : Z) : M Z :=
  let* t := gets nextTimer in
  modify (λ s, set_timers (timers s ++ [(t, delay)]) s);;
  modify (set_nextTimer (t + 1)%Z);;
  ret t.

Definition clearTimeout (t : Z) : M unit :=
  modify (λ s, set_timers (filter (λ p, p.1 ≠ t) (timers s)) s).

(** The pending timer [t] expires: its callback runs. *)
Definition timeout (t : Z) : M unit :=
  let* pending := gets (λ s, bool_decide (t ∈ (timers s).*1)) in
  when pending
    (clearTimeout t;;
     modify (set_isDbClick (-1)%Z)).

(** [createPolygon()]; [rnd] is [Math.random().toString(36)]. *)
Definition createPolygon `{Base} (rnd : string) : M unit :=
  let* tmp := gets tmpShape in
  match tmp with
  | Some shape =>
      popNode shape;;
      let* d := deref (data shape) in
      if negb (isValid (vertices (geometry d))) then
        effect (RemoveChild (data shape));;
        effect (Destroy (data shape));;
        modify (set_tmpShape None)
      else
        write (with_id rnd) (data shape);;
        shapes_add (data shape);;
        effect (RemoveChild (data shape));;
        effect (Destroy (data shape));;
        modify (set_tmpShape None)
  | None => throw "TypeError"
  end.

(** The double-click test of [onRootDown]: a timer is pending and the
    squared distance to the last click is below 2. *)
Definition isDoubleClick (timer : Z) (evt : PointerEvent)
    (shape : PolygonShape) : bool :=
  (0 <=? timer)%Z
  && Qlt_bool ((local_x evt - lastX shape) * (local_x evt - lastX shape)
               + (local_y evt - lastY shape) * (local_y evt - lastY shape)) 2.

(** [onRootDown(evt)] *)
Definition onRootDown `{Base} (evt : PointerEvent) (rnd : string) : M unit :=
  modify (super_onRootDown evt);;
  let* m := gets mode in
  if bool_decide (m = "create"%string) && negb (buttons evt =? 2)%Z then
    modify (set_isCreating true);;
    modify (λ s, set_mouseX (local_x evt / imageWidth s) s);;
    modify (λ s, set_mouseY (local_y evt / imageHeight s) s);;
    modify (λ s, set_mouseX (Qmax (Qmin (mouseX s) 1) 0) s);;
    modify (λ s, set_mouseY (Qmax (Qmin (mouseY s) 1) 0) s);;
    let* x := gets mouseX in
    let* y := gets mouseY in
    let* tmp := gets tmpShape in
    match tmp with
    | Some shape =>
        let* timer := gets isDbClick in
        if isDoubleClick timer evt shape then
          modify (set_updated false);;
          createPolygon rnd
        else
          clearTimeout timer;;
          pushNode x y shape;;
          (* time for double click detection *)
          let* t := setTimeout 180 in
          modify (set_isDbClick t)
    | None =>
        (* start new polygon *)
        effect (Emit "creating-polygon" []);;
        let* r := new_observable
          {| id := "tmp";
             geometry := {| vertices := [x; y; x; y]; mvertices := None;
                            type := "polygon" |};
             color := "red" |} in
        (* the new shape; its scale is assigned below, before it is drawn *)
        let* w := gets imageWidth in
        let* h := gets imageHeight in
        modify (set_tmpShape
                  (Some {| data := r; scaleX := w; scaleY := h;
                           lastX := x * w; lastY := y * h |}));;
        effect (Listen "window" "keydown");;
        effect (AddChild r);;
        effect (Draw r);;
        effect (Listen "stage" "pointerupoutside")
    end
  else ret tt.

(** The end of a drag that changed the geometry, common to [onRootUp] and
    [onNodeUp]: an invalid polygon gets the cached vertices back. *)
Definition cancelUpdate (obj : ref) : M unit :=
  effect (Warn "Invalid polygon. Node creation cancelled.");;
  let* cached := gets cachedShape in
  match cached with
  | Some c => write (with_vertices (vertices (geometry c))) obj
  | None => throw "TypeError"
  end.

(** [onRootUp()] *)
Definition onRootUp `{Base} : M unit :=
  modify super_onRootUp;;
  let* translating := gets isMidNodeTranslating in
  when translating
    (modify (set_isMidNodeTranslating false);;
     let* changed := gets updated in
     when changed
       (let* obj := getFirstTargetObject in
        match obj with
        | Some r =>
            let* d := deref r in
            if negb (isValid (vertices (geometry d))) then
              (* cancel update *)
              cancelUpdate r
            else effect (Emit "update" [id d])
        | None => ret tt
        end;;
        modify (set_updated false))).

(** [onNodeUp()]; the shape has one node per vertex. *)
Definition onNodeUp `{Base} : M unit :=
  let* obj := getFirstTargetObject in
  match obj with
  | Some r =>
      let* d := deref r in
      let* idx := gets activeNodeIdx in
      if (0 <=? idx)%Z && (2 * idx <? Z.of_nat (length (vertices (geometry d))))%Z
      then
        effect (RemoveAllListeners idx "pointermove");;
        effect (RemoveAllListeners idx "pointerupoutside");;
        modify (set_isNodeTranslating false);;
        let* changed := gets updated in
        when changed
          (let* d := deref r in
           (if negb (isValid (vertices (geometry d))) then
              (* cancel update *)
              cancelUpdate r
            else effect (Emit "update" [id d]));;
           modify (set_updated false))
      else throw "TypeError"
  | None => throw "TypeError"
  end.

(** *** Well-formed states and what the host observes *)

(** The selection is part of the annotation set, the set holds live objects
    without repetition, and a record of type [multi_polygon] has its
    [mvertices] (the data model of the spec). *)
Definition wf (s : State) : bool :=
  bool_decide (NoDup (shapes s))
  && bool_decide (NoDup (targetShapes s))
  && forallb (λ r, set_has r (shapes s)) (targetShapes s)
  && forallb
       (λ r, match heap s !! r with
             | Some d =>
                 if bool_decide (type (geometry d) = "multi_polygon"%string)
                 then bool_decide (is_Some (mvertices (geometry d)))
                 else true
             | None => false
             end)
       (shapes s).

(** What the manager emitted and what it logged as warnings, in order. *)
Definition emitted (l : list Effect) : list (string * list string) :=
  omap (λ x, match x with Emit name ids => Some (name, ids) | _ => None end) l.

Definition warnings (l : list Effect) : list string :=
  omap (λ x, match x with Warn msg => Some msg | _ => None end) l.

(** A drag has changed the geometry of the first selected record [r], now
    [d]; [cached] is the copy taken before the drag. *)
Definition dragged (s : State) (r : ref) (d cached : ShapeData) : Prop :=
  updated s = true
  ∧ head (targetShapes s) = Some r
  ∧ heap s !! r = Some d
  ∧ cachedShape s = Some cached.

(** The outcome of the release that takes [s] to [s']: a valid polygon is
    kept and one [update] with its id is emitted; an invalid one gets the
    cached vertices back, with a warning and no event. *)
Definition released `{Base} (s s' : State) (r : ref) (d cached : ShapeData) : Prop :=
  updated s' = false
  ∧ shapes s' = shapes s
  ∧ if isValid (vertices (geometry d)) then
      heap s' = heap s
      ∧ emitted (log s') = emitted (log s) ++ [("update"%string, [id d])]
      ∧ warnings (log s') = warnings (log s)
    else
      heap s' = <[r := with_vertices (vertices (geometry cached)) d]> (heap s)
      ∧ emitted (log s') = emitted (log s)
      ∧ warnings (log s')
        = warnings (log s) ++ ["Invalid polygon. Node creation cancelled."%string].

(** The records behind a list of references. *)
Definition records (s : State) (l : list ref) : list ShapeData :=
  omap (λ r, heap s !! r) l.

(** The rings of a record: its own ring, or the rings of a multi-polygon. *)
Definition rings (d : ShapeData) : list (list Q) :=
  if bool_decide (type (geometry d) = "multi_polygon"%string)
  then default [] (mvertices (geometry d))
  else [vertices (geometry d)].

(** [a + b + ...] on strings. *)
Definition concat_ids (l : list ShapeData) : string :=
  foldr (λ d acc, id d +:+ acc) ""%string l.

(** *** A scenario *)

(** Twice the signed area of a ring given as x0, y0, x1, y1, ... *)
Fixpoint shoelace (x0 y0 : Q) (vs : list Q) : Q :=
  match vs with
  | x :: y :: rest =>
      match rest with
      | x' :: y' :: _ => x * y' - x' * y + shoelace x0 y0 rest
      | _ => x * y0 - x0 * y
      end
  | _ => 0
  end.

Definition exampleBase : Base :=
  {| isValid := λ vs,
       bool_decide (6 ≤ length vs)%nat
       && match vs with
          | x0 :: y0 :: _ => negb (Qeq_bool (shoelace x0 y0 vs) 0)
          | _ => false
          end;
     super_onRootDown := λ _ s, s;
     super_onRootUp := λ s, s |}.

Definition initial : State :=
  {| heap := ∅; shapes := []; targetShapes := []; mode := "update";
     tmpShape := None; cachedShape := None; isCreating := false;
     updated := false; isNodeTranslating := false;
     isMidNodeTranslating := false; isDbClick := (-1)%Z;
     activeNodeIdx := (-1)%Z; mouseX := 0; mouseY := 0;
     imageWidth := 200; imageHeight := 100; timers := []; nextTimer := 1%Z;
     log := [] |}.

Definition triangle : ShapeData :=
  {| id := "t";
     geometry := {| vertices := [1 # 10; 1 # 10; 9 # 10; 1 # 10; 1 # 2; 9 # 10];
                    mvertices := None; type := "polygon" |};
     color := "blue" |}.

Definition square : ShapeData :=
  {| id := "s";
     geometry := {| vertices := [0; 0; 1 # 4; 0; 1 # 4; 1 # 4; 0; 1 # 4];
                    mvertices := None; type := "polygon" |};
     color := "green" |}.

(** The host adds the triangle and the square, objects 1 and 2, and the user
    selects both. *)
Definition bothSelected : State :=
  set_targetShapes [1%positive; 2%positive]
    (exec (let* t := new_observable triangle in shapes_add t;;
           let* q := new_observable square in shapes_add q) initial).

(** Only the triangle is selected. *)
Definition triangleSelected : State :=
  set_targetShapes [1%positive] bothSelected.

(** After a merge, the user selects the multi-polygon, object 3. *)
Definition mergedSelected : State :=
  set_targetShapes [3%positive] (exec merge bothSelected).

(** The user has pressed on the third node of the triangle and dragged it
    onto the line through the two others; the copy taken at the start of the
    drag is the triangle as it was. *)
Definition nodeDragged : State :=
  set_updated true
    (set_isNodeTranslating true
       (set_activeNodeIdx 2%Z
          (set_cachedShape (Some triangle)
             (exec (write (with_vertices
                             [1 # 10; 1 # 10; 9 # 10; 1 # 10; 1 # 2; 1 # 10])
                          1%positive)
                   triangleSelected)))).

(** The same drag started from the middle of an edge. *)
Definition midNodeDragged : State :=
  set_isNodeTranslating false (set_isMidNodeTranslating true nodeDragged).

(** In create mode the user has tapped at (20, 10), (100, 10), (60, 80) and
    (150, 90), pixels of a 200 x 100 image; the timer of the last tap is
    pending. *)
Definition click (x y : Q) (b : Z) : PointerEvent :=
  {| local_x := x; local_y := y; buttons := b; nodeIdx := (-1)%Z |}.

Definition drawing : State :=
  exec (onRootDown (H := exampleBase) (click 20 10 1) "r1";;
        onRootDown (H := exampleBase) (click 100 10 1) "r2";;
        onRootDown (H := exampleBase) (click 60 80 1) "r3";;
        onRootDown (H := exampleBase) (click 150 90 1) "r4")
       (set_mode "create" initial).

(** The same once the timer has expired. *)
Definition drawingLater : State := exec (timeout 3) drawing.

(** *** More of [PolygonsManager] *)

(** [setMode] of the base class [ShapesManager], not among the sources. *)
Class BaseMode := {
  super_setMode : string → State → State
}.

(** [PolygonsManager.setMode]; in create mode the display objects stop
    listening to the pointer, which leaves the fields as they are. *)
Definition setMode `{BaseMode} (mode : string) : M unit :=
  modify (super_setMode mode);;
  if bool_decide (mode = "create"%string) then ret tt
  else
    let* tmp := gets tmpShape in
    match tmp with
    | Some shape =>
        effect (RemoveChild (data shape));;
        effect (Destroy (data shape));;
        modify (set_tmpShape None)
    | None => ret tt
    end.

(** [onKeyDownCreate(event)], on [event.key].  The listener is removed with
    a function bound anew, that is, it stays. *)
Definition onKeyDownCreate `{Base} (key rnd : string) : M unit :=
  if bool_decide (key = "Enter"%string) then
    (* close path and create object *)
    modify (set_isCreating false);;
    let* changed := gets updated in
    when changed
      (modify (set_updated false);;
       createPolygon rnd)
  else if bool_decide (key = "Escape"%string) then
    (* abort creation of the shape *)
    modify (set_isCreating false);;
    let* changed := gets updated in
    let* tmp := gets tmpShape in
    match tmp with
    | Some shape =>
        when changed
          (modify (set_updated false);;
           effect (RemoveChild (data shape));;
           effect (Destroy (data shape));;
           modify (set_tmpShape None))
    | None => ret tt
    end
  else if bool_decide (key = "Backspace"%string) then
    (* delete last node *)
    let* tmp := gets tmpShape in
    match tmp with
    | Some obj =>
        let* d := deref (data obj) in
        when (bool_decide (6 < length (vertices (geometry d)))%nat)
          (popNode obj)
    | None => throw "TypeError"
    end
  else ret tt.

(** Modelled from the spec: [removeNode] of [PolygonShape] deletes the vertex
    of the given index. *)
Definition removeNode (idx : Z) (obj : ref) : M unit :=
  write (λ d, with_vertices
                (if (0 <=? idx)%Z
                 then take (2 * Z.to_nat idx) (vertices (geometry d))
                      ++ drop (2 * Z.to_nat idx + 2) (vertices (geometry d))
                 else vertices (geometry d)) d)
        obj.

(** [onNodeDown(evt)]; the shape has one node per vertex. *)
Definition onNodeDown (evt : PointerEvent) : M unit :=
  let* obj := getFirstTargetObject in
  if negb (buttons evt =? 2)%Z then
    modify (set_activeNodeIdx (nodeIdx evt));;
    modify (set_isNodeTranslating true);;
    match obj with
    | Some r =>
        let* d := deref r in
        modify (set_updated false);;
        if (0 <=? nodeIdx evt)%Z
           && (2 * nodeIdx evt <? Z.of_nat (length (vertices (geometry d))))%Z
        then
          effect (RemoveAllListeners (nodeIdx evt) "pointermove");;
          effect (RemoveAllListeners (nodeIdx evt) "pointerupoutside");;
          effect (Listen "node" "pointermove");;
          effect (Listen "node" "pointerupoutside")
        else throw "TypeError"
    | None => throw "TypeError"
    end
  else
    (* remove node *)
    match obj with
    | Some r =>
        let* d := deref r in
        when (bool_decide (6 < length (vertices (geometry d)))%nat)
          (removeNode (nodeIdx evt) r;;
           effect (Emit "update" [id d]))
    | None => throw "TypeError"
    end.

(** Every coordinate is in [0, 1]. *)
Definition in_frame (vs : list Q) : Prop :=
  Forall (λ v, 0 <= v ∧ v <= 1) vs.

(** What the user does while drawing, besides moving the pointer. *)
Inductive Action :=
| RootDown (evt : PointerEvent) (rnd : string)
| KeyDownCreate (key rnd : string)
| Timeout (t : Z)
| SetMode (mode : string).

Definition perform `{Base} `{BaseMode} (a : Action) : M unit :=
  match a with
  | RootDown evt rnd => onRootDown evt rnd
  | KeyDownCreate key rnd => onKeyDownCreate key rnd
  | Timeout t => timeout t
  | SetMode mode => setMode mode
  end.

(** What the drawing keeps.  The timer ids are positive and [isDbClick] is
    -1 unless its timer, the only one, is pending.  The image has a size.
    The set holds live objects.  The polygon under construction is not in
    the set; it has at least two vertices, all of them in the image. *)
Definition drawing_ok (s : State) : Prop :=
  (0 < nextTimer s)%Z
  ∧ ((isDbClick s = (-1)%Z ∧ timers s = [])
     ∨ ((0 < isDbClick s)%Z ∧ timers s = [(isDbClick s, 180%Z)]))
  ∧ (¬ imageWidth s == 0 ∧ ¬ imageHeight s == 0)
  ∧ (∀ r, r ∈ shapes s → is_Some (heap s !! r))
  ∧ (∀ shape, tmpShape s = Some shape →
       (data shape ∉ shapes s)
       ∧ ∃ d, heap s !! data shape = Some d
           ∧ in_frame (vertices (geometry d))
           ∧ (4 ≤ length (vertices (geometry d)))%nat
           ∧ Nat.Even (length (vertices (geometry d)))).

(** A handler of the base class that leaves the drawing alone. *)
Definition leaves_drawing (f : State → State) : Prop :=
  ∀ s, heap (f s) = heap s ∧ shapes (f s) = shapes s
       ∧ tmpShape (f s) = tmpShape s ∧ timers (f s) = timers s
       ∧ isDbClick (f s) = isDbClick s ∧ nextTimer (f s) = nextTimer s
       ∧ imageWidth (f s) = imageWidth s ∧ imageHeight (f s) = imageHeight s.

(** The random id an action draws, if any. *)
Definition drawn_id (a : Action) : option string :=
  match a with
  | RootDown _ rnd | KeyDownCreate _ rnd => Some rnd
  | Timeout _ | SetMode _ => None
  end.

(** What a handler may do to the annotation set while drawing: keep what is
    in it, records included, and add the polygon under construction, valid,
    within the image and under the drawn id. *)
Definition adds_finished `{Base} (rnd : option string) (s s' : State) : Prop :=
  (∀ r, r ∈ shapes s → r ∈ shapes s' ∧ heap s' !! r = heap s !! r)
  ∧ (∀ r, r ∈ shapes s' → r ∉ shapes s →
       tmpShape s' = None
       ∧ (∃ shape, tmpShape s = Some shape ∧ data shape = r)
       ∧ ∃ d, heap s' !! r = Some d
           ∧ Some (id d) = rnd
           ∧ isValid (vertices (geometry d)) = true
           ∧ in_frame (vertices (geometry d))).

Definition exampleBaseMode : BaseMode :=
  {| super_setMode := λ m s, set_mode m s |}.

End Polygon2D.

(** * Properties *)

(** ** Sets with identity *)

Module JSFacts.

Lemma elem_of_set_delete (x y : ref) (s : list ref) :
  y ∈ set_delete x s ↔ y ∈ s ∧ y ≠ x.
Proof. unfold set_delete. rewrite list_elem_of_filter. tauto. Qed.

Lemma NoDup_set_delete (x : ref) (s : list ref) :
  NoDup s → NoDup (set_delete x s).
Proof. apply NoDup_filter. Qed.

Lemma set_delete_notin (x : ref) (s : list ref) :
  x ∉ s → set_delete x s = s.
Proof.
  intros Hnot. unfold set_delete. induction s as [|y s IH]; [done |].
  rewrite filter_cons. apply not_elem_of_cons in Hnot as [Hne Hnot].
  rewrite decide_True by done. f_equal. by apply IH.
Qed.

Lemma set_delete_length (x : ref) (s : list ref) :
  NoDup s → x ∈ s → (length (set_delete x s) + 1 = length s)%nat.
Proof.
  unfold set_delete. induction 1 as [|y s Hy Hnd IH]; intros Hin.
  - by apply elem_of_nil in Hin.
  - rewrite filter_cons. destruct (decide (y ≠ x)) as [Hne|Heq].
    + cbn. apply elem_of_cons in Hin as [->|Hin]; [done |].
      specialize (IH Hin). lia.
    + apply dec_stable in Heq. subst y.
      fold (set_delete x s). rewrite set_delete_notin by done. cbn. lia.
Qed.

Lemma set_delete_app (x : ref) (s1 s2 : list ref) :
  set_delete x (s1 ++ s2) = set_delete x s1 ++ set_delete x s2.
Proof. apply filter_app. Qed.

Lemma set_add_new (x : ref) (s : list ref) : x ∉ s → set_add x s = s ++ [x].
Proof.
  intros Hnot. unfold set_add, set_has. by rewrite bool_decide_eq_false_2.
Qed.

(** Deleting the elements of [l] one after the other. *)
Lemma foldl_set_delete_elem (l : list ref) (s : list ref) (y : ref) :
  y ∈ foldl (λ acc r, set_delete r acc) s l ↔ y ∈ s ∧ y ∉ l.
Proof.
  revert s. induction l as [|x l IH]; intros s; cbn.
  - rewrite elem_of_nil. tauto.
  - rewrite IH, elem_of_set_delete, not_elem_of_cons. tauto.
Qed.

Lemma foldl_set_delete_NoDup (l : list ref) (s : list ref) :
  NoDup s → NoDup (foldl (λ acc r, set_delete r acc) s l).
Proof.
  revert s. induction l as [|x l IH]; intros s Hnd; cbn; [done |].
  apply IH, NoDup_set_delete, Hnd.
Qed.

Lemma foldl_set_delete_length (l : list ref) (s : list ref) :
  NoDup s → NoDup l → (∀ x, x ∈ l → x ∈ s) →
  (length (foldl (λ acc r, set_delete r acc) s l) + length l = length s)%nat.
Proof.
  revert s. induction l as [|x l IH]; intros s Hs Hl Hsub; cbn; [lia |].
  apply NoDup_cons in Hl as [Hx Hl].
  rewrite <- (set_delete_length x s Hs) by (apply Hsub; left).
  rewrite <- (IH (set_delete x s)); [lia | by apply NoDup_set_delete | done |].
  intros y Hy. apply elem_of_set_delete. split; [apply Hsub; by right |].
  intros ->. done.
Qed.

End JSFacts.

(** ** Facts about the 3D cuboid editor *)

Module Cuboid3DFacts.
Import Cuboid3D.

Ltac unfold_monad :=
  unfold dispatchEvent, render, set_enabled, effect, when, modify, gets,
    throw, bind, ret in *.

Lemma Math_PI_pos : 0 < Math_PI.
Proof. reflexivity. Qed.

Lemma Qlt_bool_iff (x y : Q) : Qlt_bool x y = true ↔ x < y.
Proof.
  unfold Qlt_bool. rewrite negb_true_iff, <- not_true_iff_false, Qle_bool_iff.
  split; [apply Qnot_le_lt | apply Qlt_not_le].
Qed.

Lemma normalized_iff (a : Q) :
  normalized a = true ↔ - Math_PI < a ∧ a <= Math_PI.
Proof.
  unfold normalized. rewrite andb_true_iff, Qlt_bool_iff, Qle_bool_iff. tauto.
Qed.

(** [normalizeAngle] meets its specification: the result is in (-pi, pi]. *)
Lemma normalizeAngle_range (a : Q) : normalized (normalizeAngle a) = true.
Proof.
  apply normalized_iff. unfold normalizeAngle.
  set (x := (a - Math_PI) / (2 * Math_PI)).
  pose proof (Qle_ceiling x) as Hle.
  pose proof (Qceiling_lt x) as Hlt.
  pose proof Math_PI_pos as Hpi.
  assert (Hx : x * (2 * Math_PI) == a - Math_PI).
  { unfold x. field. intros E. rewrite E in Hpi. discriminate. }
  set (k := inject_Z (Qceiling x)) in *.
  assert (Hk1 : inject_Z (Qceiling x - 1) == k - 1).
  { unfold k, Z.sub. rewrite inject_Z_plus. reflexivity. }
  rewrite Hk1 in Hlt.
  assert (H1 : x * (2 * Math_PI) <= k * (2 * Math_PI)).
  { apply Qmult_le_compat_r; [exact Hle | lra]. }
  assert (H2 : (k - 1) * (2 * Math_PI) < x * (2 * Math_PI)).
  { apply Qmult_lt_compat_r; [lra | exact Hlt]. }
  rewrite Hx in H1, H2. split; lra.
Qed.

(** On the canonical range [normalizeAngle] is the identity. *)
Lemma normalizeAngle_normalized (a : Q) :
  normalized a = true → normalizeAngle a == a.
Proof.
  intros [Hlo Hhi]%normalized_iff. unfold normalizeAngle.
  pose proof Math_PI_pos as Hpi.
  assert (Hc : Qceiling ((a - Math_PI) / (2 * Math_PI)) = 0%Z).
  { set (x := (a - Math_PI) / (2 * Math_PI)).
    assert (Hx : x * (2 * Math_PI) == a - Math_PI).
    { unfold x. field. intros E. rewrite E in Hpi. discriminate. }
    assert (Hx0 : x <= 0).
    { apply Qnot_lt_le. intros Hpos.
      assert (0 * (2 * Math_PI) < x * (2 * Math_PI))
        by (apply Qmult_lt_compat_r; lra). lra. }
    assert (Hx1 : -1 < x).
    { apply Qnot_le_lt. intros Hneg.
      assert (x * (2 * Math_PI) <= (-1) * (2 * Math_PI))
        by (apply Qmult_le_compat_r; lra). lra. }
    pose proof (Qle_ceiling x) as Hle. pose proof (Qceiling_lt x) as Hlt.
    assert (inject_Z (Qceiling x - 1) < 0) by lra.
    assert (-1 < inject_Z (Qceiling x)) by lra.
    rewrite <- (Zlt_Qlt _ 0) in *. change (-1) with (inject_Z (-1)) in *.
    rewrite <- Zlt_Qlt in *. lia. }
  rewrite Hc. change (inject_Z 0) with 0. lra.
Qed.

Lemma normalizeAngle_idempotent (a : Q) :
  normalizeAngle (normalizeAngle a) == normalizeAngle a.
Proof. apply normalizeAngle_normalized, normalizeAngle_range. Qed.

(** *** Mode switching *)

Lemma restoreDefaultState_spec (e : Editor) :
  ∃ e1, restoreDefaultState e = (e1, Ok tt)
    ∧ editMode e1 = None ∧ createMode e1 = None
    ∧ enabled (orbitControls e1) = true
    ∧ navigating e1 = false ∧ editing e1 = false
    ∧ log e1 = log e ++ teardown_effects e
    ∧ heap e1 = heap e ∧ editableCuboids e1 = editableCuboids e
    ∧ editTarget e1 = editTarget e.
Proof.
  destruct e as [h s em cm ed up nav tg [obj en] cam ev pts lg].
  unfold restoreDefaultState, CreateModeController_destroy, teardown_effects.
  unfold_monad.
  destruct em, cm, up, (Nat.eqb obj cam) eqn:E; cbn; rewrite ?E; cbn;
    eexists; (split; [reflexivity |]); cbn;
    rewrite <- ?app_assoc, ?app_nil_r; cbn; repeat split; reflexivity.
Qed.

(** What [setMode] returns, in terms of the state [e1] the teardown leaves. *)
Lemma setMode_after_teardown `{Collaborators} (m : option string) (e e1 : Editor) :
  restoreDefaultState e = (e1, Ok tt) →
  setMode m e =
    if bool_decide (m = Some "edit"%string) then
      match editTarget e1 with
      | None => (e1, Throw "cannot go into edit mode without a target"%string)
      | Some t =>
          (set_log (log e1 ++ [Dispatch (Selection [t]); Render])
             (set_editMode (Some {| ec_target := t |}) e1), Ok tt)
      end
    else if bool_decide (m = Some "create"%string) then
      (set_log (log e1 ++ [Render])
         (set_createMode
            (Some (new_CreateModeController (camera e1) (lastMouseMouseEvt e1)))
            (set_orbitControls
               {| object := object (orbitControls e1); enabled := false |} e1)),
       Ok tt)
    else (set_log (log e1 ++ [Render]) e1, Ok tt).
Proof.
  intros Hrestore. unfold setMode. unfold bind at 1. rewrite Hrestore.
  destruct e1 as [h s em cm ed up nav tg oc cam ev pts lg].
  repeat case_bool_decide; unfold_monad; cbn.
  - destruct tg; cbn; [| reflexivity].
    rewrite <- app_assoc. reflexivity.
  - reflexivity.
  - reflexivity.
Qed.

(** C7.  Every call of [setMode] first runs the teardown, whatever the mode
    asked for: an active edit controller is destroyed, a pending update is
    dispatched as an [update] event right after, an active create controller
    is destroyed and the orbit controls are enabled.  Establishing the new
    mode comes after; it fails only for ["edit"] without a target, and the
    error is thrown in the state the teardown left. *)
Theorem setMode_teardown_unconditional `{Collaborators}
    (m : option string) (e : Editor) :
  ∃ e1 e' r,
    restoreDefaultState e = (e1, Ok tt) ∧ setMode m e = (e', r)
    ∧ editMode e1 = None ∧ createMode e1 = None
    ∧ enabled (orbitControls e1) = true
    ∧ log e1 = log e ++ teardown_effects e
    ∧ (∃ rest, log e' = log e1 ++ rest)
    ∧ (r = Ok tt
       ∨ r = Throw "cannot go into edit mode without a target"%string
         ∧ e' = e1)
    ∧ (r ≠ Ok tt ↔ m = Some "edit"%string ∧ editTarget e = None).
Proof.
  destruct (restoreDefaultState_spec e)
    as (e1 & Hrun & Hem & Hcm & Hen & _ & _ & Hlog & _ & _ & Htg).
  exists e1. rewrite (setMode_after_teardown m e e1 Hrun). rewrite Htg.
  case_bool_decide as Hedit; [destruct (editTarget e) as [t|] |
    case_bool_decide as Hcreate];
    eexists _, _; (split; [exact Hrun |]); (split; [reflexivity |]);
    (split; [exact Hem |]); (split; [exact Hcm |]); (split; [exact Hen |]);
    (split; [exact Hlog |]).
  - split; [eexists; reflexivity |]. split; [by left |].
    split; [done | intros [_ [=]]].
  - split; [exists []; by rewrite app_nil_r |]. split; [by right |].
    split; [done | intros _; discriminate].
  - split; [eexists; reflexivity |]. split; [by left |].
    split; [done | intros [-> _]; discriminate].
  - split; [eexists; reflexivity |]. split; [by left |].
    split; [done | intros [? _]; done].
Qed.

(** On the scenario: the host drops the target while the update of a drag is
    pending and then asks for the edit mode.  The edit controller is
    destroyed, the pending update and the empty selection are dispatched, the
    orbit controls are enabled, and then the error is thrown. *)
Example setMode_edit_without_target :
  let e := exec (CuboidEditor_set_editTarget (H := exampleCollaborators) None)
                draggingA in
  mode e = Some "edit"%string
  ∧ updatePending e = true
  ∧ enabled (orbitControls e) = false
  ∧ ∃ e', setMode (H := exampleCollaborators) (Some "edit"%string) e
          = (e', Throw "cannot go into edit mode without a target"%string)
      ∧ log e' = log e ++ [EditDestroy; Dispatch (Update None);
                           Dispatch (Selection [])]
      ∧ mode e' = None
      ∧ updatePending e' = false
      ∧ enabled (orbitControls e') = true.
Proof.
  cbv zeta. split_and!; try (vm_compute; reflexivity).
  eexists. split; [vm_compute; reflexivity |].
  split_and!; vm_compute; reflexivity.
Qed.

(** C6.  Assigning [editTarget] a cuboid that is not in [editableCuboids]
    throws at once, before anything is changed; [setMode("edit")] without a
    target throws. *)
Theorem programmer_errors_throw `{Collaborators}
    (e : Editor) (cuboid : ref) (e0 : Editor) :
  cuboid ∉ editableCuboids e →
  editTarget e0 = None →
  CuboidEditor_set_editTarget (Some cuboid) e
    = (e, Throw "target is not an existing annotation"%string)
  ∧ ∃ e', setMode (Some "edit"%string) e0
          = (e', Throw "cannot go into edit mode without a target"%string).
Proof.
  intros Hnot Hnone. split.
  - unfold CuboidEditor_set_editTarget, set_has. unfold_monad.
    rewrite bool_decide_eq_false_2 by exact Hnot. reflexivity.
  - destruct (restoreDefaultState_spec e0)
      as (e1 & Hrun & _ & _ & _ & _ & _ & _ & _ & _ & Htg).
    exists e1. rewrite (setMode_after_teardown _ e0 e1 Hrun).
    rewrite bool_decide_eq_true_2 by reflexivity.
    rewrite Htg, Hnone. reflexivity.
Qed.

Lemma programmer_errors_throw_witness :
  CuboidEditor_set_editTarget (H := exampleCollaborators) (Some 7%positive) withA
    = (withA, Throw "target is not an existing annotation"%string)
  ∧ ∃ e', setMode (H := exampleCollaborators) (Some "edit"%string) withA
          = (e', Throw "cannot go into edit mode without a target"%string).
Proof.
  apply (programmer_errors_throw (H := exampleCollaborators) withA 7%positive withA).
  - apply (bool_decide_eq_false_1 (7%positive ∈ editableCuboids withA)).
    vm_compute. reflexivity.
  - reflexivity.
Defined.

(** *** Creation *)

Lemma dispatched_app (l1 l2 : list Effect) :
  dispatched (l1 ++ l2) = dispatched l1 ++ dispatched l2.
Proof. apply omap_app. Qed.

Lemma onCreate_spec `{Collaborators} (r : ref) (e : Editor) :
  editMode e = None →
  ∃ e', onCreate r e = (e', Ok tt)
    ∧ editTarget e' = Some r
    ∧ editMode e' = Some {| ec_target := r |}
    ∧ dispatched (log e') = dispatched (log e) ++ [Selection [r]; Create r]
    ∧ heap e' = heap e ∧ editableCuboids e' = editableCuboids e.
Proof.
  intros Hem. unfold onCreate. unfold bind at 1. unfold modify at 1.
  destruct (restoreDefaultState_spec (set_editTarget (Some r) e))
    as (e1 & Hrun & _ & _ & _ & _ & _ & Hlog & Hheap & Hset & Htg).
  unfold bind at 1.
  rewrite (setMode_after_teardown _ _ e1 Hrun).
  rewrite bool_decide_eq_true_2 by reflexivity. rewrite Htg. cbn.
  eexists. split; [reflexivity |]. cbn.
  repeat split; try assumption.
  rewrite Hlog. unfold teardown_effects. cbn. rewrite Hem.
  rewrite !dispatched_app, <- !app_assoc. f_equal.
  by destruct (createMode e).
Qed.

(** C9.  When the pointer is released while a ground rectangle is being
    drawn, the new cuboid is put in the heap and in the set, becomes the edit
    target, the mode becomes ["edit"], and the host receives [selection] with
    exactly the new cuboid and then [create] with it. *)
Theorem create_commit_selects_new_cuboid `{Collaborators}
    (rnd : string) (e : Editor) (c : CreateModeController)
    (rect : GroundRectangle) :
  mode e = Some "create"%string →
  createMode e = Some c →
  groundCursor c = None →
  groundRect c = Some rect →
  let r := fresh (dom (heap e)) in
  let box :=
    fitBoxWithAutoZ (pcl e) (rect_position rect)
      (Qabs (snd (rect_scale rect)), Qabs (fst (rect_scale rect)))
      (rect_rotation_z rect - Math_PI / 2) in
  ∃ e', onMouseUp rnd e = (e', Ok tt)
    ∧ heap e' !! r = Some {| id := rnd; position := box_position box;
                             size := box_size box; heading := box_heading box;
                             color := None |}
    ∧ r ∈ editableCuboids e'
    ∧ editTarget e' = Some r
    ∧ mode e' = Some "edit"%string
    ∧ dispatched (log e') = dispatched (log e) ++ [Selection [r]; Create r].
Proof.
  intros Hmode Hcm Hcur Hrect r box.
  assert (Hem : editMode e = None).
  { unfold mode in Hmode. by destruct (editMode e). }
  destruct c as [cur rc]. cbn in Hcur, Hrect. subst cur rc.
  unfold onMouseUp. unfold bind at 1. unfold gets at 1. rewrite Hcm. cbn.
  fold r. fold box.
  set (cub := {| id := rnd; position := _ |}).
  set (e2 := set_heap _ e).
  set (e3 := set_log _ _).
  assert (Hem3 : editMode e3 = None) by exact Hem.
  assert (Hlog3 : dispatched (log e3) = dispatched (log e)).
  { cbn. by rewrite !dispatched_app, !app_nil_r. }
  unfold bind at 1.
  destruct (annotations_add r e3) as [e4 res4] eqn:Ha.
  assert (Ha' : res4 = Ok tt ∧ editMode e4 = None ∧ heap e4 = heap e2
                ∧ r ∈ editableCuboids e4
                ∧ dispatched (log e4) = dispatched (log e)).
  { unfold annotations_add, set_add, set_has in Ha. unfold_monad.
    case_bool_decide as Hin; cbn in Ha.
    - injection Ha as <- <-. done.
    - injection Ha as <- <-. cbn. rewrite bool_decide_eq_false_2 by done.
      rewrite dispatched_app, app_nil_r. split_and!; try done.
      set_solver. }
  destruct Ha' as (-> & Hem4 & Hheap4 & Hin4 & Hlog4).
  destruct (onCreate_spec r e4 Hem4)
    as (e' & Hrun & Htg & Hem' & Hlog' & Hheap' & Hset').
  exists e'. split; [exact Hrun |].
  split; [| split; [| split; [| split]]].
  - rewrite Hheap', Hheap4. subst e2. cbn. apply lookup_insert_eq.
  - by rewrite Hset'.
  - exact Htg.
  - unfold mode. by rewrite Hem'.
  - by rewrite Hlog', Hlog4.
Qed.

Lemma create_commit_selects_new_cuboid_witness :
  ∃ e', onMouseUp (H := exampleCollaborators) "k3x" drawingRect = (e', Ok tt)
    ∧ heap e' !! 2%positive
      = Some {| id := "k3x"; position := (1, 3 # 2, 0);
                size := (Qabs 2, Qabs 3, 1); heading := 0 - Math_PI / 2;
                color := None |}
    ∧ 2%positive ∈ editableCuboids e'
    ∧ editTarget e' = Some 2%positive
    ∧ mode e' = Some "edit"%string
    ∧ dispatched (log e')
      = dispatched (log drawingRect)
        ++ [Selection [2%positive]; Create 2%positive].
Proof.
  exact (create_commit_selects_new_cuboid (H := exampleCollaborators)
           "k3x" drawingRect _ _ eq_refl eq_refl eq_refl eq_refl).
Defined.

(** *** Headings *)

Lemma write_spec (f : Cuboid → Cuboid) (r : ref) (e : Editor) :
  ∃ e', write f r e = (e', Ok tt)
    ∧ heap e' = alter f r (heap e)
    ∧ editableCuboids e' = editableCuboids e
    ∧ editTarget e' = editTarget e
    ∧ dispatched (log e') = dispatched (log e).
Proof.
  unfold write. unfold_monad. cbn.
  destruct (set_has r (editableCuboids e)); eexists; (split; [reflexivity |]);
    cbn; rewrite ?dispatched_app, ?app_nil_r; done.
Qed.

(** What the Space key does when there is a target: the heading of the
    target loses pi/2, as computed, and one [update] event is dispatched. *)
Lemma space_key_spec `{Collaborators} (e : Editor) (r : ref) :
  editTarget e = Some r →
  ∃ e', defaultOnKeyDown " " e = (e', Ok tt)
    ∧ heap e' = alter (with_heading (λ a, a - Math_PI / 2)) r (heap e)
    ∧ editableCuboids e' = editableCuboids e
    ∧ editTarget e' = Some r
    ∧ dispatched (log e') = dispatched (log e) ++ [Update (Some r)].
Proof.
  intros Htg. unfold defaultOnKeyDown. unfold bind at 1. unfold gets at 1.
  rewrite Htg. rewrite !bool_decide_eq_true_2 by eauto.
  cbv beta iota delta [andb from_option].
  destruct (write_spec (with_heading (λ a, a - Math_PI / 2)) r e)
    as (e1 & Hrun & Hheap & Hset & Htg1 & Hlog).
  unfold bind at 1. rewrite Hrun. unfold dispatchEvent, effect, modify. cbn.
  eexists. split; [reflexivity |]. cbn.
  rewrite dispatched_app, Hlog, Htg1, Htg. done.
Qed.

Lemma headings_normalized_alter (f : Q → Q) (r : ref) (h : gmap ref Cuboid)
    (s : list ref) :
  (∀ a, normalized (f a) = true) →
  forallb (λ r', from_option (λ c, normalized (heading c)) true (h !! r')) s = true →
  forallb (λ r', from_option (λ c, normalized (heading c)) true
                   (alter (with_heading f) r h !! r')) s = true.
Proof.
  intros Hf. rewrite !forallb_forall. intros Hall r' Hin.
  specialize (Hall r' Hin). rewrite lookup_alter. case_decide as Heq.
  - subst r'. destruct (h !! r); cbn; [apply Hf | done].
  - exact Hall.
Qed.

Lemma headings_normalized_size (f : Vec3 → Vec3) (r : ref)
    (h : gmap ref Cuboid) (s : list ref) :
  forallb (λ r', from_option (λ c, normalized (heading c)) true (h !! r')) s = true →
  forallb (λ r', from_option (λ c, normalized (heading c)) true
                   (alter (with_size f) r h !! r')) s = true.
Proof.
  rewrite !forallb_forall. intros Hall r' Hin.
  specialize (Hall r' Hin). rewrite lookup_alter. case_decide as Heq.
  - subst r'. by destruct (h !! r).
  - exact Hall.
Qed.

(** [rotate()] keeps every heading of the set in the canonical range. *)
Lemma rotate_headings_normalized (e : Editor) :
  headings_normalized e = true → headings_normalized (exec rotate e) = true.
Proof.
  intros Hinv. unfold exec, rotate. unfold bind at 1. unfold gets at 1.
  destruct (editTarget e) as [r|]; [| exact Hinv].
  destruct (write_spec (with_heading (λ a, normalizeAngle (a - Math_PI / 2))) r e)
    as (e1 & Hrun & Hheap & Hset & _).
  unfold bind. rewrite Hrun. cbn. unfold headings_normalized.
  rewrite Hheap, Hset. apply headings_normalized_alter; [| exact Hinv].
  intros a. apply normalizeAngle_range.
Qed.

(** [swap()] keeps every heading of the set in the canonical range. *)
Lemma swap_headings_normalized (e : Editor) :
  headings_normalized e = true → headings_normalized (exec swap e) = true.
Proof.
  intros Hinv. unfold exec, swap. unfold bind at 1. unfold gets at 1.
  destruct (editTarget e) as [r|]; [| exact Hinv].
  destruct (write_spec (with_size (λ '(l, w, h), (w, l, h))) r e)
    as (e1 & Hrun1 & Hheap1 & Hset1 & _).
  destruct (write_spec (with_heading (λ a, normalizeAngle (a - Math_PI / 2))) r e1)
    as (e2 & Hrun2 & Hheap2 & Hset2 & _).
  unfold bind. rewrite Hrun1, Hrun2. cbn. unfold headings_normalized.
  rewrite Hheap2, Hset2, Hheap1, Hset1.
  apply headings_normalized_alter; [intros a; apply normalizeAngle_range |].
  apply headings_normalized_size, Hinv.
Qed.

(** C1.  Cuboid A, of heading -3, is selected and Space is pressed: the host
    receives exactly one more event, [update] with A; the heading of A is
    -3 - pi/2 as computed, which is below -pi, whereas [rotate()] on the same
    state stores the normalized angle. *)
Theorem space_key_skips_normalization :
  let e' := exec (defaultOnKeyDown (H := exampleCollaborators) " ") selectedA in
  editTarget selectedA = Some 1%positive
  ∧ heading <$> heap selectedA !! 1%positive = Some (-3)
  ∧ normalized (-3) = true
  ∧ dispatched (log e') = dispatched (log selectedA) ++ [Update (Some 1%positive)]
  ∧ heading <$> heap e' !! 1%positive = Some (-3 - Math_PI / 2)
  ∧ normalized (-3 - Math_PI / 2) = false
  ∧ heading <$> heap (exec rotate selectedA) !! 1%positive
    = Some (normalizeAngle (-3 - Math_PI / 2))
  ∧ ¬ (-3 - Math_PI / 2 == normalizeAngle (-3 - Math_PI / 2)).
Proof.
  cbv zeta. split_and!; try (vm_compute; reflexivity).
  intros Heq. vm_compute in Heq. discriminate Heq.
Qed.

Lemma in_interval_iff (lo : Q) (closed_below : bool) (a : Q) :
  in_interval lo closed_below a = true ↔
  if closed_below then lo <= a ∧ a < lo + 2 * Math_PI
  else lo < a ∧ a <= lo + 2 * Math_PI.
Proof.
  unfold in_interval. destruct closed_below;
    rewrite andb_true_iff, Qlt_bool_iff, Qle_bool_iff; tauto.
Qed.

(** C2.  Whatever half-open interval of length 2 pi is taken as the canonical
    range, a target whose heading is in it has its heading outside after four
    presses of the Space key. *)
Theorem space_key_leaves_every_interval `{Collaborators}
    (lo : Q) (closed_below : bool) (e : Editor) (r : ref) (c : Cuboid) :
  editTarget e = Some r →
  heap e !! r = Some c →
  in_interval lo closed_below (heading c) = true →
  ∃ c', heap (exec (times 4 (defaultOnKeyDown " ")) e) !! r = Some c'
    ∧ in_interval lo closed_below (heading c') = false.
Proof.
  intros Htg Hc Hin.
  destruct (space_key_spec e r Htg) as (e1 & Hr1 & Hh1 & _ & Htg1 & _).
  destruct (space_key_spec e1 r Htg1) as (e2 & Hr2 & Hh2 & _ & Htg2 & _).
  destruct (space_key_spec e2 r Htg2) as (e3 & Hr3 & Hh3 & _ & Htg3 & _).
  destruct (space_key_spec e3 r Htg3) as (e4 & Hr4 & Hh4 & _ & _ & _).
  unfold exec, times, bind. rewrite Hr1, Hr2, Hr3, Hr4. cbn.
  rewrite Hh4, Hh3, Hh2, Hh1. rewrite !lookup_alter_eq, Hc. cbn.
  eexists. split; [reflexivity |]. cbn.
  apply not_true_iff_false. rewrite in_interval_iff.
  apply in_interval_iff in Hin. pose proof Math_PI_pos.
  assert (Hhalf : Math_PI / 2 == Math_PI * (1 # 2)) by reflexivity.
  destruct closed_below; intros [H1 H2]; destruct Hin as [H3 H4];
    rewrite Hhalf in H1, H2; lra.
Qed.

Lemma space_key_leaves_every_interval_witness :
  ∃ c', heap (exec (times 4 (defaultOnKeyDown (H := exampleCollaborators) " "))
                selectedA) !! 1%positive
        = Some c'
    ∧ in_interval (- Math_PI) false (heading c') = false.
Proof.
  exact (space_key_leaves_every_interval (H := exampleCollaborators)
           (- Math_PI) false selectedA 1%positive cuboidA
           eq_refl eq_refl eq_refl).
Defined.

(** The same on the scenario: the set starts with normalized headings,
    [rotate()] and [swap()] keep them so, one press of Space does not. *)
Example space_key_breaks_invariant :
  headings_normalized selectedA = true
  ∧ headings_normalized (exec rotate selectedA) = true
  ∧ headings_normalized (exec swap selectedA) = true
  ∧ headings_normalized
      (exec (defaultOnKeyDown (H := exampleCollaborators) " ") selectedA)
    = false.
Proof. split_and!; vm_compute; reflexivity. Qed.

End Cuboid3DFacts.

(** ** Facts about the 2D polygon editor *)

Module Polygon2DFacts.
Import Polygon2D JSFacts.

Ltac unfold_monad :=
  unfold effect, shapes_add, shapes_delete, write, getFirstTargetObject,
    when, modify, gets, throw, bind, ret in *.

Lemma emitted_app (l1 l2 : list Effect) :
  emitted (l1 ++ l2) = emitted l1 ++ emitted l2.
Proof. apply omap_app. Qed.

Lemma warnings_app (l1 l2 : list Effect) :
  warnings (l1 ++ l2) = warnings l1 ++ warnings l2.
Proof. apply omap_app. Qed.

(** *** Release of a drag *)

(** C5.  When a node drag or a mid-node drag that changed the geometry is
    released, an invalid polygon gets the cached vertices back, a warning is
    logged and nothing is emitted; a valid polygon is kept and exactly one
    [update] with the id of the record is emitted. *)
Theorem drag_release_commits_or_reverts `{Base}
    (s s0 : State) (r r0 : ref) (d d0 cached cached0 : ShapeData) :
  dragged s r d cached →
  (0 ≤ activeNodeIdx s)%Z →
  (2 * activeNodeIdx s < Z.of_nat (length (vertices (geometry d))))%Z →
  isMidNodeTranslating (super_onRootUp s0) = true →
  dragged (super_onRootUp s0) r0 d0 cached0 →
  (∃ s', onNodeUp s = (s', Ok tt)
     ∧ isNodeTranslating s' = false
     ∧ released s s' r d cached)
  ∧ (∃ s', onRootUp s0 = (s', Ok tt)
       ∧ isMidNodeTranslating s' = false
       ∧ released (super_onRootUp s0) s' r0 d0 cached0).
Proof.
  intros (Hup & Hhd & Hd & Hc) Hidx0 Hidx1 Hmid (Hup0 & Hhd0 & Hd0 & Hc0).
  split.
  - unfold onNodeUp, released, cancelUpdate, deref. unfold_monad.
    destruct s as [h sh tg md tmp ch cr up nt mt db idx mx my w ht tm nx lg].
    cbn in *. subst up ch. rewrite Hhd. cbn. rewrite Hd. cbn.
    rewrite (proj2 (Z.leb_le _ _) Hidx0), (proj2 (Z.ltb_lt _ _) Hidx1). cbn.
    rewrite Hd.
    destruct (isValid (vertices (geometry d))) eqn:Hv; cbn;
      (eexists; split; [reflexivity |]); cbn;
      rewrite <- !app_assoc, emitted_app, warnings_app; cbn;
      rewrite !app_nil_r; split_and!; try done.
    apply map_eq. intros x. rewrite lookup_alter, lookup_insert.
    case_decide; [subst x; by rewrite Hd | done].
  - unfold onRootUp, released, cancelUpdate, deref. unfold_monad.
    destruct (super_onRootUp s0)
      as [h sh tg md tmp ch cr up nt mt db idx mx my w ht tm nx lg].
    cbn in *. subst up ch mt. cbn. rewrite Hhd0. cbn. rewrite Hd0. cbn.
    destruct (isValid (vertices (geometry d0))) eqn:Hv; cbn;
      (eexists; split; [reflexivity |]); cbn;
      rewrite emitted_app, warnings_app; cbn;
      rewrite !app_nil_r; split_and!; try done.
    apply map_eq. intros x. rewrite lookup_alter, lookup_insert.
    case_decide; [subst x; by rewrite Hd0 | done].
Qed.

Lemma drag_release_commits_or_reverts_witness :
  (∃ s', onNodeUp (H := exampleBase) nodeDragged = (s', Ok tt)
     ∧ isNodeTranslating s' = false
     ∧ released (H := exampleBase) nodeDragged s' 1%positive
         (with_vertices [1 # 10; 1 # 10; 9 # 10; 1 # 10; 1 # 2; 1 # 10] triangle)
         triangle)
  ∧ (∃ s', onRootUp (H := exampleBase) midNodeDragged = (s', Ok tt)
       ∧ isMidNodeTranslating s' = false
       ∧ released (H := exampleBase) midNodeDragged s' 1%positive
           (with_vertices [1 # 10; 1 # 10; 9 # 10; 1 # 10; 1 # 2; 1 # 10] triangle)
           triangle).
Proof.
  apply (drag_release_commits_or_reverts (H := exampleBase)
           nodeDragged midNodeDragged).
  - repeat split.
  - vm_compute. discriminate.
  - vm_compute. reflexivity.
  - reflexivity.
  - repeat split.
Defined.

(** *** Merge and split without effect *)

(** C10.  [merge()] with at most one selected shape and [split()] with a
    selection that is not exactly one multi-polygon leave the state, hence
    the annotation set and every record, as they are. *)
Theorem merge_split_noop (s1 s2 : State) :
  (length (targetShapes s1) ≤ 1)%nat →
  (length (targetShapes s2) ≠ 1%nat
   ∨ ∃ shape d, targetShapes s2 = [shape] ∧ heap s2 !! shape = Some d
       ∧ type (geometry d) ≠ "multi_polygon"%string) →
  merge s1 = (s1, Ok tt) ∧ split s2 = (s2, Ok tt).
Proof.
  intros Hle Hsel. split.
  - unfold merge. unfold_monad. cbn.
    rewrite bool_decide_eq_false_2 by lia. reflexivity.
  - unfold split, deref. unfold_monad.
    destruct s2 as [h sh tg md tmp ch cr up nt mt db idx mx my w ht tm nx lg].
    cbn in *.
    destruct Hsel as [Hne | (shape & d & Hsel & Hd & Hty)].
    + by rewrite bool_decide_eq_false_2.
    + subst tg. cbn. rewrite bool_decide_eq_true_2 by done. cbn.
      rewrite Hd. cbn. by rewrite bool_decide_eq_false_2.
Qed.

Lemma merge_split_noop_witness :
  merge triangleSelected = (triangleSelected, Ok tt)
  ∧ split triangleSelected = (triangleSelected, Ok tt).
Proof.
  apply merge_split_noop.
  - vm_compute. lia.
  - right. exists 1%positive, triangle. split_and!; [reflexivity .. |].
    vm_compute. discriminate.
Defined.

(** *** Merge *)

Lemma wf_elim (s : State) :
  wf s = true →
  NoDup (shapes s) ∧ NoDup (targetShapes s)
  ∧ (∀ r, r ∈ targetShapes s → r ∈ shapes s)
  ∧ (∀ r, r ∈ shapes s →
       ∃ d, heap s !! r = Some d
         ∧ (type (geometry d) = "multi_polygon"%string →
            is_Some (mvertices (geometry d)))).
Proof.
  unfold wf. rewrite !andb_true_iff, !bool_decide_eq_true, !forallb_forall.
  intros [[[Hs Ht] Hsub] Hlive]. split_and!; [done | done | |].
  - intros r Hr. apply list_elem_of_In, Hsub in Hr.
    by apply bool_decide_eq_true in Hr.
  - intros r Hr. apply list_elem_of_In, Hlive in Hr.
    destruct (heap s !! r) as [d|]; [| done]. exists d. split; [done |].
    intros Hty. rewrite bool_decide_eq_true_2 in Hr by done.
    by apply bool_decide_eq_true in Hr.
Qed.

Lemma mapM_deref (s : State) (l : list ref) :
  (∀ r, r ∈ l → is_Some (heap s !! r)) →
  mapM deref l s = (s, Ok (records s l))
  ∧ length (records s l) = length l.
Proof.
  induction l as [|r l IH]; intros Hlive; [done |].
  destruct (Hlive r) as [d Hd]; [left |].
  destruct IH as [IH1 IH2]; [intros; apply Hlive; by right |].
  cbn. unfold records in *. cbn. unfold bind at 1. unfold deref at 1.
  rewrite Hd. unfold bind at 1. rewrite IH1. cbn. by rewrite IH2.
Qed.

Lemma getFlattenVertices_rings (d : ShapeData) :
  (type (geometry d) = "multi_polygon"%string →
   is_Some (mvertices (geometry d))) →
  getFlattenVertices (geometry d) = Ok (rings d).
Proof.
  intros Hm. unfold getFlattenVertices, rings. case_bool_decide as Hty; [| done].
  by destruct (Hm Hty) as [rs ->].
Qed.

Lemma append_empty_r (a : string) : a +:+ "" = a.
Proof.
  induction a as [|c a IH]; [done |].
  change (String c (a +:+ "") = String c a). by f_equal.
Qed.

Lemma append_assoc (a b c : string) : (a +:+ b) +:+ c = a +:+ (b +:+ c).
Proof.
  induction a as [|x a IH]; [done |].
  change (String x ((a +:+ b) +:+ c) = String x (a +:+ (b +:+ c))).
  by f_equal.
Qed.

Lemma reduce_mergeStep (sel : list ShapeData) :
  Forall (λ d, getFlattenVertices (geometry d) = Ok (rings d)) sel →
  ∀ (acc : ShapeData) (a : list (list Q)),
    mvertices (geometry acc) = Some a →
    reduce mergeStep sel acc
    = Ok {| id := id acc +:+ concat_ids sel;
            geometry := {| vertices := vertices (geometry acc);
                           mvertices := Some (a ++ concat (rings <$> sel));
                           type := type (geometry acc) |};
            color := color acc |}.
Proof.
  induction 1 as [|d sel Hd _ IH]; intros acc a Ha.
  - cbn. rewrite append_empty_r, app_nil_r.
    destruct acc as [i [vs mv ty] c]. cbn in *. by subst mv.
  - cbn. unfold mergeStep at 1. rewrite Hd, Ha.
    rewrite (IH _ (a ++ rings d)) by reflexivity. cbn.
    by rewrite append_assoc, app_assoc.
Qed.

Lemma set_shapes_id (s : State) : set_shapes (shapes s) s = s.
Proof. by destruct s. Qed.

Lemma forEach_shapes_delete (l : list ref) (st : State) :
  forEach shapes_delete l st
  = (set_shapes (foldl (λ acc r, set_delete r acc) (shapes st) l) st, Ok tt).
Proof.
  revert st. induction l as [|x l IH]; intros st; cbn.
  - by rewrite set_shapes_id.
  - unfold bind, shapes_delete at 1, modify. rewrite IH. by destruct st.
Qed.

Lemma plain_rings_length (l : list ShapeData) :
  Forall (λ d, type (geometry d) ≠ "multi_polygon"%string) l →
  length (concat (rings <$> l)) = length l.
Proof.
  induction 1 as [|d l Hd _ IH]; [done |].
  cbn. rewrite length_app, IH. unfold rings.
  by rewrite bool_decide_eq_false_2.
Qed.

(** C3.  With k >= 2 shapes selected, [merge()] adds one new record of type
    [multi_polygon] whose [mvertices] are the rings of the selected shapes in
    order, multi-polygons contributing each of their rings (k rings when all
    are plain polygons), and whose id is built from the ids of the selected
    shapes; it deletes the k selected records, so that the set has k - 1
    elements less. *)
Theorem merge_spec (s : State) :
  wf s = true →
  (2 ≤ length (targetShapes s))%nat →
  let sel := records s (targetShapes s) in
  let r := fresh (dom (heap s)) in
  ∃ first s',
    head sel = Some first
    ∧ length sel = length (targetShapes s)
    ∧ merge s = (s', Ok tt)
    ∧ (r ∉ shapes s)
    ∧ heap s' = <[r := {| id := id first +:+ concat_ids sel;
                         geometry := {| vertices := [];
                                        mvertices := Some (concat (rings <$> sel));
                                        type := "multi_polygon" |};
                         color := color first |}]> (heap s)
    ∧ (∀ x, x ∈ shapes s' ↔ x = r ∨ (x ∈ shapes s ∧ x ∉ targetShapes s))
    ∧ NoDup (shapes s')
    ∧ (length (shapes s') + length (targetShapes s) = length (shapes s) + 1)%nat
    ∧ (Forall (λ d, type (geometry d) ≠ "multi_polygon"%string) sel →
       length (concat (rings <$> sel)) = length (targetShapes s)).
Proof.
  intros Hwf Hk sel r.
  destruct (wf_elim s Hwf) as (Hnd & Hndt & Hsub & Hlive).
  assert (Hlive' : ∀ x, x ∈ targetShapes s → is_Some (heap s !! x)).
  { intros x Hx. destruct (Hlive x (Hsub x Hx)) as (d & -> & _). by eexists. }
  destruct (mapM_deref s (targetShapes s) Hlive') as [Hmap Hlen].
  fold sel in Hmap, Hlen.
  assert (Hflat : Forall (λ d, getFlattenVertices (geometry d) = Ok (rings d)) sel).
  { apply Forall_forall. intros d Hd. apply getFlattenVertices_rings.
    unfold sel, records in Hd. apply list_elem_of_omap in Hd as (x & Hx & Hxd).
    destruct (Hlive x (Hsub x Hx)) as (d' & Hd' & Hm).
    rewrite Hxd in Hd'. injection Hd' as <-. exact Hm. }
  assert (Hfresh : r ∉ shapes s).
  { intros Hin. destruct (Hlive r Hin) as (d & Hd & _).
    apply (is_fresh (dom (heap s))). fold r. apply elem_of_dom. by eexists. }
  destruct sel as [|first sel'] eqn:Hsel; [cbn in Hlen; lia |].
  exists first. eexists. split; [done |]. split; [done |].
  split.
  { unfold merge. unfold bind at 1. unfold gets at 1.
    rewrite bool_decide_eq_true_2 by lia.
    unfold bind at 1. rewrite Hmap.
    rewrite (reduce_mergeStep _ Hflat (mergeInit first) []) by reflexivity.
    unfold new_observable, observable. fold r.
    unfold bind at 1. unfold bind at 1. unfold gets at 1.
    unfold bind at 1. unfold modify at 1. unfold ret at 1.
    unfold bind at 1. unfold shapes_add at 1. unfold modify at 1.
    rewrite forEach_shapes_delete. reflexivity. }
  cbn. rewrite set_add_new by done.
  split; [done |]. split; [reflexivity |]. split; [| split; [| split]].
  - intros x. rewrite foldl_set_delete_elem, elem_of_app, list_elem_of_singleton.
    split.
    + intros [[Hx | ->] Hnt]; [right; done | by left].
    + intros [-> | [Hx Hnt]]; [| by split; [left |]].
      split; [by right |]. intros Hin. by apply Hfresh, Hsub.
  - apply foldl_set_delete_NoDup. apply NoDup_app. split_and!; [done | |].
    + intros x Hx ->%list_elem_of_singleton. done.
    + apply NoDup_singleton.
  - rewrite foldl_set_delete_length; [rewrite length_app; cbn; lia | | done |].
    + apply NoDup_app. split_and!; [done | | apply NoDup_singleton].
      intros x Hx ->%list_elem_of_singleton. done.
    + intros x Hx. apply elem_of_app. left. by apply Hsub.
  - intros Hplain. rewrite <- Hlen.
    exact (plain_rings_length (first :: sel') Hplain).
Qed.

Lemma merge_spec_witness :
  ∃ first s',
    head (records bothSelected (targetShapes bothSelected)) = Some first
    ∧ length (records bothSelected (targetShapes bothSelected))
      = length (targetShapes bothSelected)
    ∧ merge bothSelected = (s', Ok tt)
    ∧ (fresh (dom (heap bothSelected)) ∉ shapes bothSelected)
    ∧ heap s'
      = <[fresh (dom (heap bothSelected)) :=
            {| id := id first
                     +:+ concat_ids (records bothSelected (targetShapes bothSelected));
               geometry :=
                 {| vertices := [];
                    mvertices :=
                      Some (concat (rings <$> records bothSelected
                                                 (targetShapes bothSelected)));
                    type := "multi_polygon" |};
               color := color first |}]> (heap bothSelected)
    ∧ (∀ x, x ∈ shapes s' ↔
            x = fresh (dom (heap bothSelected))
            ∨ (x ∈ shapes bothSelected ∧ x ∉ targetShapes bothSelected))
    ∧ NoDup (shapes s')
    ∧ (length (shapes s') + length (targetShapes bothSelected)
       = length (shapes bothSelected) + 1)%nat
    ∧ (Forall (λ d, type (geometry d) ≠ "multi_polygon"%string)
         (records bothSelected (targetShapes bothSelected)) →
       length (concat (rings <$> records bothSelected (targetShapes bothSelected)))
       = length (targetShapes bothSelected)).
Proof.
  apply (merge_spec bothSelected).
  - vm_compute. reflexivity.
  - vm_compute. lia.
Defined.

(** *** Split *)

(** The loop of [split]: one new object per ring, appended to the set. *)
Lemma split_loop (d : ShapeData) (rs : list (list Q)) :
  ∀ (i : nat) (st : State),
    (∀ x, x ∈ shapes st → is_Some (heap st !! x)) →
    ∃ st' news,
      forEachFrom i (addRing d) rs st = (st', Ok tt)
      ∧ length news = length rs
      ∧ NoDup news
      ∧ (∀ n, n ∈ news → heap st !! n = None)
      ∧ shapes st' = shapes st ++ news
      ∧ (∀ x, is_Some (heap st !! x) → heap st' !! x = heap st !! x)
      ∧ (∀ j v, rs !! j = Some v →
           ∃ n, news !! j = Some n
             ∧ heap st' !! n = Some (ringRecord d (i + j) v)).
Proof.
  induction rs as [|v rs IH]; intros i st Hlive.
  - exists st, []. cbn. rewrite app_nil_r. split_and!; try done.
    + apply NoDup_nil_2.
    + intros n Hn. by apply elem_of_nil in Hn.
  - set (r := fresh (dom (heap st))).
    assert (Hr : heap st !! r = None).
    { apply not_elem_of_dom. apply is_fresh. }
    assert (Hnew : r ∉ shapes st).
    { intros Hin. apply Hlive in Hin as [? Hin]. congruence. }
    set (st1 := set_shapes (shapes st ++ [r])
                  (set_heap (<[r := ringRecord d i v]> (heap st)) st)).
    assert (Hstep : addRing d i v st = (st1, Ok tt)).
    { unfold addRing, new_observable, observable. fold r. unfold_monad.
      cbn. by rewrite set_add_new. }
    destruct (IH (S i) st1) as (st' & news & Hrun & Hlen & Hnd & Hfr & Hsh & Hold & Hrec).
    { intros x. subst st1. cbn. rewrite elem_of_app, list_elem_of_singleton.
      intros [Hx | ->].
      - destruct (Hlive x Hx) as [y Hy]. exists y.
        rewrite lookup_insert_ne; [done | congruence].
      - rewrite lookup_insert_eq. by eexists. }
    assert (Hrnews : r ∉ news).
    { intros Hin. apply Hfr in Hin. subst st1. cbn in Hin.
      by rewrite lookup_insert_eq in Hin. }
    exists st', (r :: news). split_and!.
    + change (forEachFrom i (addRing d) (v :: rs) st)
        with (bind (addRing d i v)
                (λ _, forEachFrom (S i) (addRing d) rs) st).
      unfold bind. by rewrite Hstep.
    + cbn. by rewrite Hlen.
    + by apply NoDup_cons.
    + intros n [-> | Hn]%elem_of_cons; [done |].
      apply Hfr in Hn. subst st1. cbn in Hn.
      apply lookup_insert_None in Hn. tauto.
    + rewrite Hsh. subst st1. cbn. by rewrite <- app_assoc.
    + intros x Hx. rewrite Hold.
      * subst st1. cbn. apply lookup_insert_ne. intros ->.
        destruct Hx as [? Hx]. congruence.
      * subst st1. cbn. rewrite lookup_insert_ne; [done |]. intros ->.
        destruct Hx as [? Hx]. congruence.
    + intros [|j] w Hj; cbn in Hj.
      * injection Hj as <-. exists r. split; [done |].
        rewrite Hold; subst st1; cbn; rewrite lookup_insert_eq;
          [by rewrite Nat.add_0_r | by eexists].
      * destruct (Hrec j w Hj) as (n & Hn & Hhn). exists n. split; [done |].
        by rewrite <- Nat.add_succ_comm.
Qed.

(** C4.  With exactly one shape selected, a multi-polygon of m rings,
    [split()] adds m new records of type [polygon], the i-th with the id of
    the original followed by i and with the i-th ring as vertices, and
    deletes the original: the set has m - 1 elements more. *)
Theorem split_spec (s : State) (shape : ref) (d : ShapeData)
    (rs : list (list Q)) :
  wf s = true →
  targetShapes s = [shape] →
  heap s !! shape = Some d →
  type (geometry d) = "multi_polygon"%string →
  mvertices (geometry d) = Some rs →
  ∃ s' news,
    split s = (s', Ok tt)
    ∧ length news = length rs
    ∧ NoDup news
    ∧ (∀ n, n ∈ news → heap s !! n = None)
    ∧ (∀ i v, rs !! i = Some v →
         ∃ n, news !! i = Some n
           ∧ heap s' !! n
             = Some {| id := id d +:+ pretty i;
                       geometry := {| vertices := v; mvertices := Some [];
                                      type := "polygon" |};
                       color := color d |})
    ∧ shapes s' = set_delete shape (shapes s) ++ news
    ∧ (shape ∉ shapes s')
    ∧ (length (shapes s') + 1 = length (shapes s) + length rs)%nat
    ∧ (∀ x, is_Some (heap s !! x) → heap s' !! x = heap s !! x).
Proof.
  intros Hwf Hsel Hd Hty Hrs.
  destruct (wf_elim s Hwf) as (Hnd & _ & Hsub & Hlive).
  assert (Hin : shape ∈ shapes s).
  { apply Hsub. rewrite Hsel. by left. }
  destruct (split_loop d rs 0 s)
    as (st' & news & Hrun & Hlen & Hndn & Hfr & Hsh & Hold & Hrec).
  { intros x Hx. destruct (Hlive x Hx) as (y & -> & _). by eexists. }
  assert (Hnot : shape ∉ news).
  { intros Hn. apply Hfr in Hn. congruence. }
  exists (set_shapes (set_delete shape (shapes st')) st'), news.
  split.
  { unfold split. unfold bind at 1. unfold gets at 1. rewrite Hsel.
    rewrite bool_decide_eq_true_2 by done.
    unfold bind at 1. unfold deref at 1. rewrite Hd.
    rewrite bool_decide_eq_true_2 by done. rewrite Hrs.
    unfold bind. rewrite Hrun. reflexivity. }
  cbn. rewrite Hsh, set_delete_app, (set_delete_notin shape news) by done.
  split_and!; try done.
  - intros [Hx | Hx]%elem_of_app; [| done].
    apply elem_of_set_delete in Hx. tauto.
  - rewrite length_app. pose proof (set_delete_length shape (shapes s) Hnd Hin).
    lia.
Qed.

Lemma split_spec_witness :
  ∃ s' news,
    split mergedSelected = (s', Ok tt)
    ∧ length news = 2%nat
    ∧ NoDup news
    ∧ (∀ n, n ∈ news → heap mergedSelected !! n = None)
    ∧ (∀ i v,
         [vertices (geometry triangle); vertices (geometry square)] !! i = Some v →
         ∃ n, news !! i = Some n
           ∧ heap s' !! n
             = Some {| id := "tts" +:+ pretty i;
                       geometry := {| vertices := v; mvertices := Some [];
                                      type := "polygon" |};
                       color := "blue" |})
    ∧ shapes s' = set_delete 3%positive (shapes mergedSelected) ++ news
    ∧ (3%positive ∉ shapes s')
    ∧ (length (shapes s') + 1 = length (shapes mergedSelected) + 2)%nat
    ∧ (∀ x, is_Some (heap mergedSelected !! x) →
            heap s' !! x = heap mergedSelected !! x).
Proof.
  refine (split_spec mergedSelected 3%positive
            {| id := "tts";
               geometry := {| vertices := [];
                              mvertices := Some [vertices (geometry triangle);
                                                 vertices (geometry square)];
                              type := "multi_polygon" |};
               color := "blue" |}
            [vertices (geometry triangle); vertices (geometry square)]
            _ _ _ _ _).
  - vm_compute. reflexivity.
  - vm_compute. reflexivity.
  - vm_compute. reflexivity.
  - reflexivity.
  - reflexivity.
Defined.

(** *** Pointer-down while drawing *)

Lemma alter_Some (f : ShapeData → ShapeData) (k : ref)
    (m : gmap ref ShapeData) (d : ShapeData) :
  m !! k = Some d → alter f k m = <[k := f d]> m.
Proof.
  intros Hk. apply map_eq. intros j. rewrite lookup_alter, lookup_insert.
  case_decide; [subst j; by rewrite Hk | done].
Qed.

(** Runs the handlers on a state given by its fields. *)
Ltac run :=
  cbv beta iota zeta delta
    [effect shapes_add shapes_delete write getFirstTargetObject
     when modify gets throw bind ret negb andb from_option fmap option_fmap
     option_map
     set_heap set_shapes set_targetShapes set_mode set_tmpShape
     set_cachedShape set_isCreating set_updated set_isNodeTranslating
     set_isMidNodeTranslating set_isDbClick set_activeNodeIdx set_mouseX
     set_mouseY set_timers set_nextTimer set_log
     heap shapes targetShapes mode tmpShape cachedShape isCreating updated
     isNodeTranslating isMidNodeTranslating isDbClick activeNodeIdx mouseX
     mouseY imageWidth imageHeight timers nextTimer log];
  cbn [with_vertices with_id vertices geometry mvertices type id color].




(** The timer: once it has expired, the same press near the last click
    appends a vertex instead of closing the polygon. *)
Example double_click_needs_pending_timer :
  isDbClick drawingLater = (-1)%Z
  ∧ timers drawingLater = []
  ∧ isDoubleClick (isDbClick drawingLater) (click 151 90 1)
      {| data := 1%positive; scaleX := 200; scaleY := 100;
         lastX := 150 / 200 * 200; lastY := 90 / 100 * 100 |} = false
  ∧ shapes (exec (onRootDown (H := exampleBase) (click 151 90 1) "r5")
                 drawingLater) = [].
Proof. split_and!; vm_compute; reflexivity. Qed.

End Polygon2DFacts.
(** ** More facts about the 3D cuboid editor *)

Module Cuboid3DMore.
Import Cuboid3D JSFacts Cuboid3DFacts.

(** *** Mode switching *)

Lemma restoreDefaultState_eq (e : Editor) :
  restoreDefaultState e = (torn_down e, Ok tt).
Proof.
  destruct e as [h s em cm ed up nav tg [obj en] cam ev pts lg].
  unfold restoreDefaultState, CreateModeController_destroy, torn_down,
    teardown_effects.
  unfold_monad.
  destruct em, cm, up, (Nat.eqb obj cam) eqn:E; cbn; rewrite ?E; cbn;
    rewrite <- ?app_assoc, ?app_nil_r; cbn;
    try (apply Nat.eqb_eq in E; subst obj); reflexivity.
Qed.

Lemma setMode_eq `{Collaborators} (m : option string) (e : Editor) :
  setMode m e =
    let e1 := torn_down e in
    if bool_decide (m = Some "edit"%string) then
      match editTarget e with
      | None => (e1, Throw "cannot go into edit mode without a target"%string)
      | Some t =>
          (set_log (log e1 ++ [Dispatch (Selection [t]); Render])
             (set_editMode (Some {| ec_target := t |}) e1), Ok tt)
      end
    else if bool_decide (m = Some "create"%string) then
      (set_log (log e1 ++ [Render])
         (set_createMode
            (Some (new_CreateModeController (camera e) (lastMouseMouseEvt e)))
            (set_orbitControls {| object := camera e; enabled := false |} e1)),
       Ok tt)
    else (set_log (log e1 ++ [Render]) e1, Ok tt).
Proof.
  rewrite (setMode_after_teardown m e _ (restoreDefaultState_eq e)).
  reflexivity.
Qed.

(** X1.  A completed [setMode] leaves the editor in the mode asked for,
    where any string other than "edit" and "create" counts as null; a failed
    one leaves it idle.  In both cases at most one sub-controller exists and
    the target, the set and the records are untouched. *)
Theorem setMode_establishes_mode `{Collaborators}
    (m : option string) (e : Editor) :
  ∃ e' r, setMode m e = (e', r)
    ∧ mode e' = match r with
                | Ok _ =>
                    if bool_decide (m = Some "edit"%string) then Some "edit"%string
                    else if bool_decide (m = Some "create"%string)
                         then Some "create"%string
                         else None
                | Throw _ => None
                end
    ∧ (editMode e' = None ∨ createMode e' = None)
    ∧ editTarget e' = editTarget e
    ∧ editableCuboids e' = editableCuboids e
    ∧ heap e' = heap e.
Proof.
  rewrite setMode_eq. cbv zeta.
  repeat case_bool_decide; [destruct (editTarget e) as [t|] eqn:Ht | |];
    eexists _, _; (split; [reflexivity |]); cbn; rewrite ?Ht; auto 10.
Qed.

(** *** Keys *)

Ltac decide_keys :=
  repeat
    (match goal with
     | |- context [bool_decide (?a = ?b)] =>
         first [ rewrite (bool_decide_eq_true_2 (a = b)) by reflexivity
               | rewrite (bool_decide_eq_false_2 (a = b)) by discriminate ]
     end;
     cbv beta iota delta [andb]).

(** Equations between lists of dispatched events. *)
Ltac solve_dispatched :=
  unfold teardown_effects; cbn;
  repeat (rewrite ?dispatched_app; cbn; rewrite ?app_nil_r, <- ?app_assoc);
  repeat match goal with
         | |- context [match ?x with _ => _ end] => destruct x; cbn
         end;
  rewrite ?app_nil_r; try reflexivity.

Lemma dispatched_torn_down (e : Editor) :
  dispatched (log (torn_down e))
  = dispatched (log e) ++ dispatched (teardown_effects e).
Proof. apply dispatched_app. Qed.

Lemma key_Escape_eq `{Collaborators} (e : Editor) :
  defaultOnKeyDown "Escape" e
  = (set_editTarget None (set_log (log (torn_down e) ++ [Render]) (torn_down e)),
     Ok tt).
Proof.
  unfold defaultOnKeyDown, CuboidEditor_set_mode, CuboidEditor_set_editTarget.
  unfold bind at 1. unfold gets at 1. decide_keys.
  unfold bind. rewrite setMode_eq. reflexivity.
Qed.

Lemma key_c_eq `{Collaborators} (e : Editor) :
  defaultOnKeyDown "c" e
  = (set_log (log (torn_down e) ++ [Render])
       (set_createMode
          (Some (new_CreateModeController (camera e) (lastMouseMouseEvt e)))
          (set_orbitControls {| object := camera e; enabled := false |}
             (torn_down e))),
     Ok tt).
Proof.
  unfold defaultOnKeyDown, CuboidEditor_set_mode.
  unfold bind at 1. unfold gets at 1. decide_keys.
  rewrite setMode_eq. reflexivity.
Qed.

(** X2.  Escape never fails; it leaves the editor idle and without target,
    after the teardown and its events.  A Space or Delete key pressed next
    changes nothing at all. *)
Theorem escape_clears_mode_and_target `{Collaborators} (e : Editor) :
  ∃ e', defaultOnKeyDown "Escape" e = (e', Ok tt)
    ∧ mode e' = None
    ∧ editTarget e' = None
    ∧ dispatched (log e') = dispatched (log e) ++ dispatched (teardown_effects e)
    ∧ defaultOnKeyDown " " e' = (e', Ok tt)
    ∧ defaultOnKeyDown "Delete" e' = (e', Ok tt).
Proof.
  rewrite key_Escape_eq. eexists. split; [reflexivity |].
  split; [reflexivity |]. split; [reflexivity |]. split.
  - cbn. rewrite !dispatched_app. cbn. by rewrite app_nil_r.
  - split; unfold defaultOnKeyDown; unfold bind at 1; unfold gets at 1;
      cbn [editTarget set_editTarget]; decide_keys; reflexivity.
Qed.

(** X3.  The key [c] enters create mode and keeps the edit target: the Space
    key pressed next, in create mode, still turns the former target and
    dispatches [update] for it. *)
Theorem space_key_acts_in_create_mode `{Collaborators} (e : Editor) (r : ref) :
  editTarget e = Some r →
  ∃ e1 e2, defaultOnKeyDown "c" e = (e1, Ok tt)
    ∧ mode e1 = Some "create"%string
    ∧ editTarget e1 = Some r
    ∧ enabled (orbitControls e1) = false
    ∧ defaultOnKeyDown " " e1 = (e2, Ok tt)
    ∧ mode e2 = Some "create"%string
    ∧ heap e2 = alter (with_heading (λ a, a - Math_PI / 2)) r (heap e)
    ∧ dispatched (log e2)
      = dispatched (log e) ++ dispatched (teardown_effects e)
        ++ [Update (Some r)].
Proof.
  intros Ht. rewrite key_c_eq.
  set (e1 := set_log _ _).
  destruct (write_spec (with_heading (λ a, a - Math_PI / 2)) r e1)
    as (e2 & Hrun & Hheap & Hset & Htg & Hlog).
  exists e1, (set_log (log e2 ++ [Dispatch (Update (Some r))]) e2).
  split; [reflexivity |].
  split; [reflexivity |]. split; [exact Ht |]. split; [reflexivity |].
  split.
  { unfold defaultOnKeyDown. unfold bind at 1. unfold gets at 1.
    replace (editTarget e1) with (Some r) by (symmetry; exact Ht).
    rewrite !bool_decide_eq_true_2 by eauto.
    cbv beta iota delta [andb from_option].
    unfold bind at 1. rewrite Hrun. reflexivity. }
  split.
  - assert (Hmode : editMode e2 = None ∧ is_Some (createMode e2)).
    { unfold write in Hrun. unfold_monad. cbn in Hrun.
      destruct (set_has r (editableCuboids e)); injection Hrun as <-; cbn; eauto. }
    destruct Hmode as [Hem [cm Hcm]]. unfold mode. cbn. by rewrite Hem, Hcm.
  - split; [cbn; exact Hheap |]. cbn.
    rewrite dispatched_app, Hlog. subst e1. cbn.
    rewrite !dispatched_app. cbn. by rewrite app_nil_r, app_assoc.
Qed.

Lemma space_key_acts_in_create_mode_witness :
  ∃ e1 e2, defaultOnKeyDown (H := exampleCollaborators) "c" selectedA = (e1, Ok tt)
    ∧ mode e1 = Some "create"%string
    ∧ editTarget e1 = Some 1%positive
    ∧ enabled (orbitControls e1) = false
    ∧ defaultOnKeyDown (H := exampleCollaborators) " " e1 = (e2, Ok tt)
    ∧ mode e2 = Some "create"%string
    ∧ heap e2
      = alter (with_heading (λ a, a - Math_PI / 2)) 1%positive (heap selectedA)
    ∧ dispatched (log e2)
      = dispatched (log selectedA) ++ dispatched (teardown_effects selectedA)
        ++ [Update (Some 1%positive)].
Proof.
  apply (space_key_acts_in_create_mode (H := exampleCollaborators) selectedA).
  vm_compute. reflexivity.
Defined.

(** X4.  The Delete key with a target that is in the set removes it from the
    set, leaves the editor idle and without target, and dispatches the events
    of the teardown, among them the pending update for the removed cuboid,
    and then [delete] with it.  The record itself is not changed. *)
Theorem delete_key_removes_target `{Collaborators} (e : Editor) (r : ref) :
  editTarget e = Some r →
  r ∈ editableCuboids e →
  ∃ e', defaultOnKeyDown "Delete" e = (e', Ok tt)
    ∧ (∀ x, x ∈ editableCuboids e' ↔ x ∈ editableCuboids e ∧ x ≠ r)
    ∧ editTarget e' = None
    ∧ mode e' = None
    ∧ heap e' = heap e
    ∧ dispatched (log e')
      = dispatched (log e) ++ dispatched (teardown_effects e) ++ [Delete r].
Proof.
  intros Ht Hin.
  unfold defaultOnKeyDown. unfold bind at 1. unfold gets at 1. decide_keys.
  rewrite Ht. rewrite bool_decide_eq_true_2 by eauto.
  cbv beta iota delta [andb from_option].
  unfold annotations_delete. unfold bind at 1. unfold bind at 1.
  unfold gets at 1. unfold set_has. rewrite bool_decide_eq_true_2 by exact Hin.
  cbv beta iota delta [when]. unfold bind at 1. unfold modify at 1.
  unfold bind at 1. rewrite setMode_eq. cbv zeta.
  rewrite bool_decide_eq_false_2 by discriminate.
  rewrite bool_decide_eq_false_2 by discriminate.
  eexists. split; [reflexivity |]. cbn.
  split; [intros x; apply elem_of_set_delete |].
  split; [reflexivity |]. split; [reflexivity |]. split; [reflexivity |].
  solve_dispatched.
Qed.

Lemma delete_key_removes_target_witness :
  ∃ e', defaultOnKeyDown (H := exampleCollaborators) "Delete" draggingA = (e', Ok tt)
    ∧ (∀ x, x ∈ editableCuboids e' ↔ x ∈ editableCuboids draggingA ∧ x ≠ 1%positive)
    ∧ editTarget e' = None
    ∧ mode e' = None
    ∧ heap e' = heap draggingA
    ∧ dispatched (log e')
      = dispatched (log draggingA) ++ dispatched (teardown_effects draggingA)
        ++ [Delete 1%positive].
Proof.
  apply (delete_key_removes_target (H := exampleCollaborators) draggingA).
  - vm_compute. reflexivity.
  - apply (bool_decide_eq_true_1 (1%positive ∈ editableCuboids draggingA)).
    vm_compute. reflexivity.
Defined.

(** *** Pointer *)

(** X5.  A mouse-up never fails.  At the end of a camera drag or of a handle
    drag it only clears the two drag flags.  Otherwise: on a cuboid other
    than the target it makes that cuboid the target, in edit mode, and
    dispatches [selection] with it after the events of the teardown; on the
    target itself it toggles the handles and dispatches nothing; on empty
    space it leaves the edit mode and drops the target. *)
Theorem mouse_up_selects `{Collaborators} (target : option ref) (e : Editor) :
  ∃ e', mouseUpListener target e = (e', Ok tt)
    ∧ heap e' = heap e
    ∧ editableCuboids e' = editableCuboids e
    ∧ if navigating e || editing e then
        e' = set_editing false (set_navigating false e)
      else
        match target with
        | Some t =>
            if bool_decide (is_Some (editMode e) ∧ Some t = editTarget e) then
              e' = set_log (log e ++ [EditToggle; Render]) e
            else
              editTarget e' = Some t
              ∧ mode e' = Some "edit"%string
              ∧ dispatched (log e')
                = dispatched (log e) ++ dispatched (teardown_effects e)
                  ++ [Selection [t]]
        | None =>
            if editMode e is Some _ then
              editTarget e' = None
              ∧ mode e' = None
              ∧ dispatched (log e')
                = dispatched (log e) ++ dispatched (teardown_effects e)
            else e' = e
        end.
Proof.
  unfold mouseUpListener. unfold bind at 1. unfold gets at 1.
  unfold bind at 1. unfold gets at 1.
  destruct (navigating e || editing e) eqn:Hdrag.
  { eexists. split; [reflexivity |]. by destruct e. }
  unfold bind at 1. unfold gets at 1. unfold bind at 1. unfold gets at 1.
  destruct (editMode e) as [em|] eqn:Hem, target as [t|].
  - case_bool_decide as Hsame.
    + rewrite bool_decide_eq_true_2 by (split; [eauto | done]).
      eexists. split; [reflexivity |]. cbn. rewrite <- app_assoc.
      by destruct e.
    + rewrite bool_decide_eq_false_2 by tauto.
      unfold bind at 1. rewrite setMode_eq. cbv zeta.
      rewrite bool_decide_eq_false_2 by discriminate.
      rewrite bool_decide_eq_false_2 by discriminate.
      unfold bind at 1. unfold modify at 1. rewrite setMode_eq. cbv zeta.
      rewrite bool_decide_eq_true_2 by reflexivity.
      cbn [editTarget set_editTarget].
      eexists. split; [reflexivity |]. cbn.
      split_and!; try reflexivity.
      unfold teardown_effects. cbn. rewrite ?Hem. solve_dispatched.
  - unfold bind at 1. rewrite setMode_eq. cbv zeta.
    rewrite bool_decide_eq_false_2 by discriminate.
    rewrite bool_decide_eq_false_2 by discriminate.
    eexists. split; [reflexivity |]. cbn. split_and!; try reflexivity.
    unfold teardown_effects. cbn. rewrite ?Hem. solve_dispatched.
  - rewrite bool_decide_eq_false_2 by (intros [[? [=]] _]).
    unfold bind at 1. unfold modify at 1. rewrite setMode_eq. cbv zeta.
    rewrite bool_decide_eq_true_2 by reflexivity.
    cbn [editTarget set_editTarget].
    eexists. split; [reflexivity |]. cbn. split_and!; try reflexivity.
    unfold teardown_effects. cbn. rewrite ?Hem. solve_dispatched.
  - exists e. split_and!; reflexivity.
Qed.

(** *** The edit target *)

(** X6.  Assigning [editTarget] a cuboid of the set never fails: the cuboid
    becomes the target, the mode becomes "edit" and [selection] with it is
    dispatched after the events of the teardown.  The target is assigned
    before the teardown, so that an update still pending for the previous
    target is dispatched with the new cuboid as detail. *)
Theorem editTarget_setter_selects `{Collaborators} (e : Editor) (cuboid : ref) :
  cuboid ∈ editableCuboids e →
  ∃ e', CuboidEditor_set_editTarget (Some cuboid) e = (e', Ok tt)
    ∧ editTarget e' = Some cuboid
    ∧ mode e' = Some "edit"%string
    ∧ dispatched (log e')
      = dispatched (log e)
        ++ (if editMode e is Some _ then
              (if updatePending e then [Update (Some cuboid)] else [])
              ++ [Selection []]
            else [])
        ++ [Selection [cuboid]].
Proof.
  intros Hin. unfold CuboidEditor_set_editTarget, CuboidEditor_set_mode.
  unfold bind at 1. unfold gets at 1. unfold set_has.
  rewrite bool_decide_eq_true_2 by exact Hin. cbv beta iota delta [negb].
  unfold bind at 1. unfold modify at 1. rewrite setMode_eq. cbv zeta.
  rewrite bool_decide_eq_true_2 by reflexivity.
  cbn [editTarget set_editTarget].
  eexists. split; [reflexivity |]. cbn. split_and!; try reflexivity.
  solve_dispatched.
Qed.

Lemma editTarget_setter_selects_witness :
  ∃ e', CuboidEditor_set_editTarget (H := exampleCollaborators)
          (Some 1%positive) draggingA = (e', Ok tt)
    ∧ editTarget e' = Some 1%positive
    ∧ mode e' = Some "edit"%string
    ∧ dispatched (log e')
      = dispatched (log draggingA)
        ++ (if editMode draggingA is Some _ then
              (if updatePending draggingA then [Update (Some 1%positive)] else [])
              ++ [Selection []]
            else [])
        ++ [Selection [1%positive]].
Proof.
  apply (editTarget_setter_selects (H := exampleCollaborators) draggingA).
  apply (bool_decide_eq_true_1 (1%positive ∈ editableCuboids draggingA)).
  vm_compute. reflexivity.
Defined.

(** *** Drags of the edit controller *)

Lemma times_onEditChange (n : nat) (e : Editor) :
  times n onEditChange e
  = ((if bool_decide (0 < n)%nat then set_updatePending true e else e), Ok tt).
Proof.
  revert e. induction n as [|n IH]; intros e; [reflexivity |].
  cbn [times]. unfold bind, onEditChange at 1, modify. rewrite IH.
  rewrite (bool_decide_eq_true_2 (0 < S n)%nat) by lia.
  case_bool_decide; by destruct e.
Qed.

(** X7.  A drag reported by the edit controller as [start], any number of
    [change] and [stop] dispatches exactly one [update], for the target, if
    there was a change or an update was pending already, and none otherwise;
    afterwards nothing is pending and the orbit controls are enabled. *)
Theorem drag_dispatches_one_update (n : nat) (e : Editor) :
  ∃ e', (onEditStart;; times n onEditChange;; onEditStop) e = (e', Ok tt)
    ∧ dispatched (log e')
      = dispatched (log e)
        ++ (if updatePending e || bool_decide (0 < n)%nat
            then [Update (editTarget e)] else [])
    ∧ updatePending e' = false
    ∧ enabled (orbitControls e') = true
    ∧ editTarget e' = editTarget e
    ∧ heap e' = heap e.
Proof.
  unfold bind at 1. unfold onEditStart at 1. unfold bind at 1.
  unfold set_enabled at 1, modify at 1, modify at 1.
  unfold bind at 1. rewrite times_onEditChange.
  unfold onEditStop. unfold_monad.
  destruct e as [h s em cm ed up nav tg oc cam ev pts lg].
  case_bool_decide; destruct up; cbn;
    (eexists; split; [reflexivity |]); cbn;
    rewrite ?dispatched_app, ?app_nil_r; done.
Qed.

(** *** Adding cuboids *)

Lemma addAnnotation_eq (annotation : Cuboid) (e : Editor) :
  (∀ x, x ∈ editableCuboids e → is_Some (heap e !! x)) →
  let r := fresh (dom (heap e)) in
  addAnnotation annotation e
  = (set_log (log e ++ [Render])
       (set_editableCuboids (editableCuboids e ++ [r])
          (set_heap (<[r := annotation]> (heap e)) e)),
     Ok r)
  ∧ r ∉ editableCuboids e.
Proof.
  intros Hlive r.
  assert (Hnew : r ∉ editableCuboids e).
  { intros Hin. destruct (Hlive r Hin) as [c Hc].
    apply (is_fresh (dom (heap e))). fold r. apply elem_of_dom. by eexists. }
  split; [| exact Hnew].
  unfold addAnnotation, annotations_add, observable. fold r.
  unfold_monad. cbn. unfold set_has.
  rewrite bool_decide_eq_false_2 by exact Hnew. cbn.
  by rewrite set_add_new.
Qed.

(** X8.  [addAnnotation] puts the record in a new object, adds it to the set
    as its last element and returns it; the record can be read back, the
    other objects are untouched, and the returned object is accepted as edit
    target at once. *)
Theorem addAnnotation_then_select `{Collaborators}
    (annotation : Cuboid) (e : Editor) :
  (∀ x, x ∈ editableCuboids e → is_Some (heap e !! x)) →
  ∃ e1 r e2,
    addAnnotation annotation e = (e1, Ok r)
    ∧ (r ∉ editableCuboids e)
    ∧ editableCuboids e1 = editableCuboids e ++ [r]
    ∧ heap e1 !! r = Some annotation
    ∧ (∀ x, x ≠ r → heap e1 !! x = heap e !! x)
    ∧ dispatched (log e1) = dispatched (log e)
    ∧ CuboidEditor_set_editTarget (Some r) e1 = (e2, Ok tt)
    ∧ editTarget e2 = Some r
    ∧ mode e2 = Some "edit"%string.
Proof.
  intros Hlive. destruct (addAnnotation_eq annotation e Hlive) as [Hrun Hnew].
  set (r := fresh (dom (heap e))) in *. cbv zeta in Hrun.
  set (e1 := set_log _ _) in Hrun.
  assert (Hin : r ∈ editableCuboids e1).
  { subst e1. cbn. apply elem_of_app. right. by left. }
  assert (Hsel : ∃ e2, CuboidEditor_set_editTarget (Some r) e1 = (e2, Ok tt)
                   ∧ editTarget e2 = Some r ∧ mode e2 = Some "edit"%string).
  { unfold CuboidEditor_set_editTarget, CuboidEditor_set_mode.
    unfold bind at 1. unfold gets at 1. unfold set_has.
    rewrite bool_decide_eq_true_2 by exact Hin. cbv beta iota delta [negb].
    unfold bind at 1. unfold modify at 1. rewrite setMode_eq. cbv zeta.
    rewrite bool_decide_eq_true_2 by reflexivity.
    cbn [editTarget set_editTarget]. eexists. split; [reflexivity |]. done. }
  destruct Hsel as (e2 & Hsel & Htg & Hmode).
  exists e1, r, e2. split_and!; try done.
  - subst e1. cbn. apply lookup_insert_eq.
  - intros x Hx. subst e1. cbn. by apply lookup_insert_ne.
  - subst e1. cbn. by rewrite dispatched_app, app_nil_r.
Qed.

Lemma addAnnotation_then_select_witness :
  ∃ e1 r e2,
    addAnnotation cuboidA withA = (e1, Ok r)
    ∧ (r ∉ editableCuboids withA)
    ∧ editableCuboids e1 = editableCuboids withA ++ [r]
    ∧ heap e1 !! r = Some cuboidA
    ∧ (∀ x, x ≠ r → heap e1 !! x = heap withA !! x)
    ∧ dispatched (log e1) = dispatched (log withA)
    ∧ CuboidEditor_set_editTarget (H := exampleCollaborators) (Some r) e1
      = (e2, Ok tt)
    ∧ editTarget e2 = Some r
    ∧ mode e2 = Some "edit"%string.
Proof.
  apply (addAnnotation_then_select (H := exampleCollaborators) cuboidA withA).
  intros x Hx.
  assert (x = 1%positive) as ->.
  { change (editableCuboids withA) with [1%positive] in Hx.
    by apply list_elem_of_singleton in Hx. }
  exists cuboidA. vm_compute. reflexivity.
Defined.

(** *** Quarter turns *)

Lemma alter_Some_insert (f : Cuboid → Cuboid) (r : ref) (c : Cuboid)
    (h : gmap ref Cuboid) :
  h !! r = Some c → alter f r h = <[r := f c]> h.
Proof.
  intros Hc. apply map_eq. intros x. rewrite lookup_alter.
  destruct (decide (r = x)) as [<- | Hne].
  - by rewrite lookup_insert_eq, Hc.
  - by rewrite lookup_insert_ne.
Qed.

Lemma rotate_eq (e : Editor) (r : ref) :
  editTarget e = Some r →
  ∃ e', rotate e = (e', Ok (Some r))
    ∧ heap e' = alter (with_heading (λ a, normalizeAngle (a - Math_PI / 2))) r
                      (heap e)
    ∧ editableCuboids e' = editableCuboids e
    ∧ editTarget e' = Some r
    ∧ dispatched (log e') = dispatched (log e).
Proof.
  intros Htg. unfold rotate. unfold bind at 1. unfold gets at 1. rewrite Htg.
  destruct (write_spec (with_heading (λ a, normalizeAngle (a - Math_PI / 2))) r e)
    as (e1 & Hrun & Hheap & Hset & Htg1 & Hev).
  unfold bind, ret. rewrite Hrun. exists e1. split_and!; try done.
  by rewrite Htg1.
Qed.

Lemma swap_eq (e : Editor) (r : ref) :
  editTarget e = Some r →
  ∃ e', swap e = (e', Ok (Some r))
    ∧ heap e' = alter (with_heading (λ a, normalizeAngle (a - Math_PI / 2))) r
                  (alter (with_size (λ '(l, w, h), (w, l, h))) r (heap e))
    ∧ editableCuboids e' = editableCuboids e
    ∧ editTarget e' = Some r
    ∧ dispatched (log e') = dispatched (log e).
Proof.
  intros Htg. unfold swap. unfold bind at 1. unfold gets at 1. rewrite Htg.
  destruct (write_spec (with_size (λ '(l, w, h), (w, l, h))) r e)
    as (e1 & Hrun1 & Hheap1 & Hset1 & Htg1 & Hev1).
  destruct (write_spec (with_heading (λ a, normalizeAngle (a - Math_PI / 2))) r e1)
    as (e2 & Hrun2 & Hheap2 & Hset2 & Htg2 & Hev2).
  unfold bind, ret. rewrite Hrun1, Hrun2. exists e2. split_and!.
  - reflexivity.
  - by rewrite Hheap2, Hheap1.
  - by rewrite Hset2.
  - by rewrite Htg2, Htg1.
  - by rewrite Hev2.
Qed.

Lemma with_heading_id (c : Cuboid) : with_heading (λ a, a) c = c.
Proof. by destruct c. Qed.

(** X9.  [rotate()] stores [normalizeAngle(heading - Math.PI / 2)], as
    computed, in the heading of the edit target and returns the target.  It
    leaves the rest of the record and every other cuboid as they are and,
    unlike the Space key, dispatches no event, however often it is called:
    after [n] calls the heading has gone [n] times through that
    expression. *)
Theorem rotate_turns_silently (n : nat) (e : Editor) (r : ref) (c : Cuboid) :
  editTarget e = Some r →
  heap e !! r = Some c →
  let turn := λ a, normalizeAngle (a - Math_PI / 2) in
  (∃ e', rotate e = (e', Ok (Some r))
     ∧ heap e' = <[r := with_heading turn c]> (heap e)
     ∧ editableCuboids e' = editableCuboids e
     ∧ editTarget e' = Some r
     ∧ dispatched (log e') = dispatched (log e))
  ∧ (∃ e', times n (rotate;; ret tt) e = (e', Ok tt)
       ∧ heap e' = <[r := with_heading (Nat.iter n turn) c]> (heap e)
       ∧ editableCuboids e' = editableCuboids e
       ∧ editTarget e' = Some r
       ∧ dispatched (log e') = dispatched (log e)).
Proof.
  intros Htg Hc turn. split.
  - destruct (rotate_eq e r Htg) as (e1 & Hrun & Hheap & Hset & Htg1 & Hev).
    exists e1. split_and!; try done.
    rewrite Hheap. by apply alter_Some_insert.
  - revert e c Htg Hc. induction n as [|n IH]; intros e c Htg Hc.
    + exists e. cbn [times Nat.iter]. split_and!; try done.
      rewrite with_heading_id. symmetry. by apply insert_id.
    + destruct (rotate_eq e r Htg) as (e1 & Hrun & Hheap & Hset & Htg1 & Hev).
      rewrite (alter_Some_insert _ r c (heap e) Hc) in Hheap.
      destruct (IH e1 (with_heading turn c) Htg1)
        as (e' & Hrun' & Hheap' & Hset' & Htg' & Hev').
      { rewrite Hheap. apply lookup_insert_eq. }
      exists e'. split_and!.
      * cbn [times]. unfold bind at 1. unfold bind at 1. rewrite Hrun.
        unfold ret at 1. exact Hrun'.
      * rewrite Hheap', Hheap, insert_insert_eq. f_equal.
        unfold with_heading. cbn [id position size heading color].
        f_equal. symmetry. apply Nat.iter_succ_r.
      * by rewrite Hset'.
      * exact Htg'.
      * by rewrite Hev'.
Qed.

Lemma rotate_turns_silently_witness :
  let turn := λ a, normalizeAngle (a - Math_PI / 2) in
  (∃ e', rotate selectedA = (e', Ok (Some 1%positive))
     ∧ heap e' = <[1%positive := with_heading turn cuboidA]> (heap selectedA)
     ∧ editableCuboids e' = editableCuboids selectedA
     ∧ editTarget e' = Some 1%positive
     ∧ dispatched (log e') = dispatched (log selectedA))
  ∧ (∃ e', times 4 (rotate;; ret tt) selectedA = (e', Ok tt)
       ∧ heap e'
         = <[1%positive := with_heading (Nat.iter 4 turn) cuboidA]>
             (heap selectedA)
       ∧ editableCuboids e' = editableCuboids selectedA
       ∧ editTarget e' = Some 1%positive
       ∧ dispatched (log e') = dispatched (log selectedA)).
Proof.
  apply (rotate_turns_silently 4 selectedA 1%positive cuboidA).
  - vm_compute. reflexivity.
  - vm_compute. reflexivity.
Defined.

(** X10.  [swap()] exchanges length and width of the edit target, stores
    [normalizeAngle(heading - Math.PI / 2)], as computed, in its heading and
    dispatches no event.  Two calls in a row give back the size; the heading
    has then gone twice through that expression, and id, position and color
    are as before. *)
Theorem swap_twice_restores_size (e : Editor) (r : ref) (c : Cuboid) :
  editTarget e = Some r →
  heap e !! r = Some c →
  let turn := λ a, normalizeAngle (a - Math_PI / 2) in
  ∃ e1 e2 c1 c2,
    swap e = (e1, Ok (Some r)) ∧ swap e1 = (e2, Ok (Some r))
    ∧ heap e1 = <[r := c1]> (heap e) ∧ heap e2 = <[r := c2]> (heap e)
    ∧ size c1 = (let '(l, w, h) := size c in (w, l, h))
    ∧ heading c1 = turn (heading c)
    ∧ size c2 = size c
    ∧ heading c2 = turn (turn (heading c))
    ∧ (id c1, position c1, color c1) = (id c, position c, color c)
    ∧ (id c2, position c2, color c2) = (id c, position c, color c)
    ∧ editableCuboids e2 = editableCuboids e
    ∧ dispatched (log e1) = dispatched (log e)
    ∧ dispatched (log e2) = dispatched (log e).
Proof.
  intros Htg Hc turn.
  destruct (swap_eq e r Htg) as (e1 & Hrun1 & Hheap1 & Hset1 & Htg1 & Hev1).
  destruct (swap_eq e1 r Htg1) as (e2 & Hrun2 & Hheap2 & Hset2 & Htg2 & Hev2).
  set (f := with_heading (λ a, normalizeAngle (a - Math_PI / 2))) in *.
  set (g := with_size (λ '(l, w, h), (w, l, h))) in *.
  exists e1, e2, (f (g c)), (f (g (f (g c)))).
  assert (H1 : heap e1 = <[r := f (g c)]> (heap e)).
  { rewrite Hheap1. rewrite (alter_Some_insert g r c (heap e) Hc).
    by rewrite alter_insert_eq. }
  split_and!; try done.
  - rewrite Hheap2, H1. by rewrite !alter_insert_eq.
  - subst f g. cbn. by destruct (size c) as [[l w] h].
  - by rewrite Hset2.
  - by rewrite Hev2.
Qed.

Lemma swap_twice_restores_size_witness :
  let turn := λ a, normalizeAngle (a - Math_PI / 2) in
  ∃ e1 e2 c1 c2,
    swap selectedA = (e1, Ok (Some 1%positive))
    ∧ swap e1 = (e2, Ok (Some 1%positive))
    ∧ heap e1 = <[1%positive := c1]> (heap selectedA)
    ∧ heap e2 = <[1%positive := c2]> (heap selectedA)
    ∧ size c1 = (let '(l, w, h) := size cuboidA in (w, l, h))
    ∧ heading c1 = turn (heading cuboidA)
    ∧ size c2 = size cuboidA
    ∧ heading c2 = turn (turn (heading cuboidA))
    ∧ (id c1, position c1, color c1)
      = (id cuboidA, position cuboidA, color cuboidA)
    ∧ (id c2, position c2, color c2)
      = (id cuboidA, position cuboidA, color cuboidA)
    ∧ editableCuboids e2 = editableCuboids selectedA
    ∧ dispatched (log e1) = dispatched (log selectedA)
    ∧ dispatched (log e2) = dispatched (log selectedA).
Proof.
  apply (swap_twice_restores_size selectedA 1%positive cuboidA).
  - vm_compute. reflexivity.
  - vm_compute. reflexivity.
Defined.

(** *** The invariant of the editor *)

Lemma keeps_ret {A} (x : A) : keeps (ret x).
Proof. intros e He. exact He. Qed.

Lemma keeps_throw {A} (msg : string) : keeps (A := A) (throw msg).
Proof. intros e He. exact He. Qed.

Lemma keeps_bind {A B} (m : M A) (k : A → M B) :
  keeps m → (∀ x, keeps (k x)) → keeps (bind m k).
Proof.
  intros Hm Hk e He. specialize (Hm e He). unfold exec, bind in *.
  destruct (m e) as [e1 [x | msg]]; [apply (Hk x e1 Hm) | exact Hm].
Qed.

(** The same, when what follows relies on what the first step did. *)
Lemma exec_bind_keep {A B} (m : M A) (k : A → M B) (e : Editor) :
  consistent (exec m e) →
  (∀ x e', m e = (e', Ok x) → consistent e' → consistent (exec (k x) e')) →
  consistent (exec (bind m k) e).
Proof.
  intros Hm Hk. unfold exec, bind in *.
  destruct (m e) as [e1 [x | msg]]; [by apply Hk | exact Hm].
Qed.

Lemma keeps_gets_bind {A B} (f : Editor → A) (k : A → M B) (e : Editor) :
  consistent (exec (k (f e)) e) → consistent (exec (bind (gets f) k) e).
Proof. intros Hk. exact Hk. Qed.

Lemma keeps_when (b : bool) (m : M unit) : keeps m → keeps (when b m).
Proof. intros Hm. destruct b; [exact Hm | apply keeps_ret]. Qed.

Lemma keeps_modify (f : Editor → Editor) :
  (∀ e, consistent e → consistent (f e)) → keeps (modify f).
Proof. intros Hf e He. exact (Hf e He). Qed.

Lemma keeps_effect (x : Effect) : keeps (effect x).
Proof. apply keeps_modify. intros e He. by destruct e. Qed.

Lemma keeps_forEach {A} (f : A → M unit) (l : list A) :
  (∀ x, keeps (f x)) → keeps (forEach f l).
Proof.
  intros Hf. induction l as [|x l IH]; [apply keeps_ret |].
  cbn [forEach]. apply keeps_bind; [apply Hf | intros _; exact IH].
Qed.

Lemma consistent_set_log (l : list Effect) (e : Editor) :
  consistent e → consistent (set_log l e).
Proof. intros He. by destruct e. Qed.

Lemma consistent_torn_down (e : Editor) :
  consistent e → consistent (torn_down e).
Proof.
  intros (H1 & H2 & H3 & H4 & H5 & H6). unfold consistent, torn_down. cbn.
  split_and!; try done; [by left |].
  destruct (editMode e); [done | exact H2].
Qed.

Lemma keeps_setMode `{Collaborators} (m : option string) : keeps (setMode m).
Proof.
  intros e He. unfold exec. rewrite setMode_eq. cbv zeta.
  destruct (consistent_torn_down e He) as (H1 & H2 & H3 & H4 & H5 & H6).
  repeat case_bool_decide; [destruct (editTarget e) as [t|] eqn:Ht | |];
    unfold consistent; cbn; cbn in H2, H4;
    split_and!; try done; eauto.
Qed.

Lemma write_eq (f : Cuboid → Cuboid) (r : ref) (e : Editor) :
  write f r e
  = (set_log (log e ++ (if set_has r (editableCuboids e) then [Render] else []))
       (set_heap (alter f r (heap e)) e), Ok tt).
Proof.
  unfold write. unfold_monad. cbn.
  destruct (set_has r (editableCuboids e)); cbn; [reflexivity |].
  rewrite app_nil_r. by destruct e.
Qed.

Lemma keeps_write (f : Cuboid → Cuboid) (r : ref) : keeps (write f r).
Proof.
  intros e (H1 & H2 & H3 & H4 & H5 & H6). unfold exec. rewrite write_eq.
  unfold consistent. cbn. split_and!; try done.
  intros x Hx. rewrite lookup_alter. specialize (H6 x Hx).
  case_decide; [subst x; by apply fmap_is_Some | exact H6].
Qed.

Lemma keeps_rotate : keeps rotate.
Proof.
  intros e He. unfold rotate. apply keeps_gets_bind.
  destruct (editTarget e) as [r|]; [| exact He].
  apply keeps_bind; [apply keeps_write | intros _; apply keeps_ret | exact He].
Qed.

Lemma keeps_swap : keeps swap.
Proof.
  intros e He. unfold swap. apply keeps_gets_bind.
  destruct (editTarget e) as [r|]; [| exact He].
  apply keeps_bind; [apply keeps_write | | exact He].
  intros _. apply keeps_bind; [apply keeps_write | intros _; apply keeps_ret].
Qed.

Lemma keeps_drop_target : keeps (modify (set_editTarget None)).
Proof.
  apply keeps_modify. intros e (H1 & H2 & H3 & H4 & H5 & H6).
  unfold consistent. by destruct e.
Qed.

(** Making a cuboid of the set the target, then switching mode. *)
Lemma consistent_target_setMode `{Collaborators}
    (t : ref) (m : option string) (e : Editor) :
  consistent e → t ∈ editableCuboids e →
  consistent (exec (modify (set_editTarget (Some t));; setMode m) e).
Proof.
  intros (H1 & H2 & H3 & H4 & H5 & H6) Hin.
  change (consistent (exec (setMode m) (set_editTarget (Some t) e))).
  apply keeps_setMode. unfold consistent. destruct e. cbn in *.
  split_and!; try done. by intros r [= <-].
Qed.

Lemma keeps_annotations_delete `{Collaborators} (r : ref) :
  keeps (annotations_delete r).
Proof.
  intros e (H1 & H2 & H3 & H4 & H5 & H6).
  unfold annotations_delete. apply keeps_gets_bind.
  destruct (set_has r (editableCuboids e)) eqn:Hhas; [| done].
  cbv beta iota delta [when].
  change (consistent
            (exec (setMode None;; modify (set_editTarget None);; render)
                  (set_editableCuboids (set_delete r (editableCuboids e)) e))).
  unfold exec, bind at 1. rewrite setMode_eq. cbv zeta.
  rewrite !bool_decide_eq_false_2 by discriminate.
  unfold consistent. destruct e as [h s em cm ed up nav tg oc cam ev pts lg].
  cbn in *. split_and!; try done.
  - by left.
  - destruct em; [done | exact H2].
  - by apply NoDup_set_delete.
  - intros x [Hx _]%elem_of_set_delete. by apply H6.
Qed.

Lemma keeps_annotations_clear `{Collaborators} : keeps annotations_clear.
Proof.
  intros e (H1 & H2 & H3 & H4 & H5 & H6).
  unfold annotations_clear. apply keeps_gets_bind.
  case_bool_decide as Hempty; [done |].
  cbv beta iota delta [when negb].
  change (consistent
            (exec (let* em := gets editMode in
                   when (bool_decide (is_Some em)) (setMode None);;
                   modify (set_editTarget None);;
                   render)
                  (set_editableCuboids [] e))).
  apply keeps_gets_bind.
  destruct e as [h s em cm ed up nav tg oc cam ev pts lg]. cbn in *.
  destruct em as [em|].
  - rewrite bool_decide_eq_true_2 by eauto. cbv beta iota delta [when].
    unfold exec, bind at 1. rewrite setMode_eq. cbv zeta.
    rewrite !bool_decide_eq_false_2 by discriminate.
    unfold consistent. cbn. split_and!; try done; [by left | constructor |].
    by intros x ?%elem_of_nil.
  - rewrite bool_decide_eq_false_2 by (by intros [? [=]]).
    unfold consistent. cbn. split_and!; try done; [constructor |].
    by intros x ?%elem_of_nil.
Qed.

Lemma keeps_addAnnotation (annotation : Cuboid) :
  keeps (addAnnotation annotation).
Proof.
  intros e He. pose proof He as (H1 & H2 & H3 & H4 & H5 & H6).
  destruct (addAnnotation_eq annotation e H6) as [Hrun Hnew].
  unfold exec. cbv zeta in Hrun. rewrite Hrun.
  unfold consistent. destruct e as [h s em cm ed up nav tg oc cam ev pts lg].
  cbn in *. split_and!; try done.
  - intros r Hr. apply elem_of_app. left. by apply H4.
  - apply NoDup_app. split_and!; [done | | apply NoDup_singleton].
    intros x Hx ->%list_elem_of_singleton. done.
  - intros x [Hx | ->%list_elem_of_singleton]%elem_of_app.
    + destruct (decide (x = fresh (dom h))) as [-> | Hne].
      * rewrite lookup_insert_eq. eauto.
      * rewrite lookup_insert_ne by done. by apply H6.
    + rewrite lookup_insert_eq. eauto.
Qed.

Lemma keeps_mouseUpListener `{Collaborators} (target : option ref) (e : Editor) :
  consistent e →
  (∀ t, target = Some t → t ∈ editableCuboids e) →
  consistent (exec (mouseUpListener target) e).
Proof.
  intros He Hin. unfold mouseUpListener.
  apply keeps_gets_bind. apply keeps_gets_bind.
  destruct (navigating e || editing e).
  { apply keeps_bind; [| intros _ |]; try exact He;
      apply keeps_modify; clear; intros e He; by destruct e. }
  apply keeps_gets_bind. apply keeps_gets_bind.
  destruct (editMode e) as [em|], target as [t|].
  - case_bool_decide.
    + apply keeps_bind; [apply keeps_effect | intros _; apply keeps_effect | done].
    + apply exec_bind_keep; [by apply keeps_setMode |].
      intros [] e1 Hrun He1. apply consistent_target_setMode; [done |].
      rewrite setMode_eq in Hrun. cbv zeta in Hrun.
      rewrite !bool_decide_eq_false_2 in Hrun by discriminate.
      injection Hrun as <-. cbn. by apply Hin.
  - apply keeps_bind;
      [apply keeps_setMode | intros _; apply keeps_drop_target | done].
  - apply consistent_target_setMode; [done | by apply Hin].
  - exact He.
Qed.

Lemma keeps_onMouseDown `{Plots} : keeps onMouseDown.
Proof.
  intros e He. unfold onMouseDown. apply keeps_gets_bind.
  destruct (createMode e) as [c|] eqn:Hcm; [| exact He].
  destruct (groundCursor c) as [cursor|]; [| exact He].
  apply keeps_gets_bind.
  match goal with
  | |- consistent (exec (modify ?f;; render) e) =>
      change (consistent (exec render (f e)))
  end.
  apply keeps_effect. destruct He as (H1 & H2 & H3 & H4 & H5 & H6).
  unfold consistent.
  destruct e as [h s em cm ed up nav tg oc cam ev pts lg]. cbn in *.
  subst cm. split_and!; eauto.
  destruct H1 as [-> | [=]]. by left.
Qed.

(** The commit of a creation: the new object is put in the set before it is
    made the target. *)
Lemma keeps_onMouseUp `{Collaborators} (rnd : string) : keeps (onMouseUp rnd).
Proof.
  intros e He. unfold onMouseUp. apply keeps_gets_bind.
  destruct (createMode e) as [c|] eqn:Hcm; [| exact He].
  destruct (state c); try exact He.
  destruct (groundRect c) as [rect|]; [| exact He].
  cbv zeta. apply keeps_gets_bind. apply keeps_gets_bind.
  unfold observable.
  set (cuboid := fresh (dom (heap e))).
  set (box := fitBoxWithAutoZ _ _ _ _).
  set (record := {| id := rnd; position := box_position box;
                    size := box_size box; heading := box_heading box;
                    color := None |}).
  destruct He as (H1 & H2 & H3 & H4 & H5 & H6).
  assert (Hnew : cuboid ∉ editableCuboids e).
  { intros Hin. destruct (H6 cuboid Hin) as [x Hx].
    apply (is_fresh (dom (heap e))). fold cuboid. apply elem_of_dom. eauto. }
  assert (Hrun : (modify (set_heap (<[cuboid := record]> (heap e)));;
                  CreateModeController_destroy;;
                  annotations_add cuboid) e
                 = (set_log (log e ++ [CreateDestroy; Render; Render])
                      (set_editableCuboids (editableCuboids e ++ [cuboid])
                         (set_createMode
                            (Some {| groundCursor := None; groundRect := None |})
                            (set_heap (<[cuboid := record]> (heap e)) e))),
                    Ok tt)).
  { unfold annotations_add, CreateModeController_destroy. unfold_monad.
    destruct e as [h s em cm ed up nav tg oc cam ev pts lg]. cbn in *.
    subst cm. cbn. unfold set_has.
    rewrite bool_decide_eq_false_2 by exact Hnew. cbn.
    rewrite set_add_new by exact Hnew. by rewrite <- !app_assoc. }
  match goal with
  | |- consistent (exec (?a;; ?b;; ?c;; ?d) e) =>
      change (consistent (exec ((a;; b;; c);; d) e))
  end.
  unfold exec, bind at 1. rewrite Hrun. unfold onCreate.
  match goal with
  | |- consistent (fst ((modify ?f;; setMode ?m;; ?k) ?e1)) =>
      change (consistent (exec ((modify f;; setMode m);; k) e1))
  end.
  apply exec_bind_keep; [| intros; by apply keeps_effect].
  apply consistent_target_setMode.
  - unfold consistent.
    destruct e as [h s em cm ed up nav tg oc cam ev pts lg]. cbn in *.
    subst cm. split_and!; eauto.
    + destruct H1 as [-> | [=]]. by left.
    + intros r Hr. apply elem_of_app. left. by apply H4.
    + apply NoDup_app. split_and!; [done | | apply NoDup_singleton].
      intros x Hx ->%list_elem_of_singleton. done.
    + intros x [Hx | ->%list_elem_of_singleton]%elem_of_app.
      * destruct (decide (x = cuboid)) as [-> | Hne]; [done |].
        rewrite lookup_insert_ne by done. by apply H6.
      * rewrite lookup_insert_eq. eauto.
  - cbn. apply elem_of_app. right. by left.
Qed.

Lemma keeps_set_editTarget `{Collaborators} (cuboid : option ref) :
  keeps (CuboidEditor_set_editTarget cuboid).
Proof.
  intros e He. unfold CuboidEditor_set_editTarget.
  destruct cuboid as [r|]; [| by apply keeps_drop_target].
  apply keeps_gets_bind. unfold set_has. case_bool_decide as Hin; [| exact He].
  by apply consistent_target_setMode.
Qed.

Lemma keeps_set_editableCuboids `{Collaborators} (value : option (list Cuboid)) :
  keeps (CuboidEditor_set_editableCuboids value).
Proof.
  apply keeps_bind; [apply keeps_annotations_clear | intros _].
  apply keeps_forEach. intros v.
  apply keeps_bind; [apply keeps_addAnnotation | intros r; apply keeps_ret].
Qed.

(** [setMode(mode)] with the mode read before [setMode(null)] does not throw:
    in edit mode there is a target, and the teardown keeps it. *)
Lemma keeps_set_cameraMode `{Collaborators} (cam : nat) :
  keeps (CuboidEditor_set_cameraMode cam).
Proof.
  intros e He. unfold CuboidEditor_set_cameraMode, CuboidEditor_set_mode.
  apply keeps_gets_bind.
  apply keeps_bind; [apply keeps_setMode | intros _ | exact He].
  apply keeps_bind; [| intros _].
  - apply keeps_modify. clear. intros e (H1 & H2 & H3 & H4 & H5 & H6).
    unfold consistent. by destruct e.
  - apply keeps_bind; [apply keeps_setMode | intros _; apply keeps_effect].
Qed.

Lemma keeps_defaultOnKeyDown `{Collaborators} (key : string) :
  keeps (defaultOnKeyDown key).
Proof.
  intros e He. unfold defaultOnKeyDown, CuboidEditor_set_mode.
  apply keeps_gets_bind.
  destruct (bool_decide (key = " "%string) && bool_decide (is_Some (editTarget e))).
  { destruct (editTarget e) as [r|]; [| exact He]. cbn [from_option].
    apply keeps_bind; [apply keeps_write | intros _; apply keeps_effect | done]. }
  case_bool_decide.
  { apply keeps_bind;
      [apply keeps_setMode | intros _; apply keeps_set_editTarget | done]. }
  destruct (bool_decide (key = "Delete"%string)
            && bool_decide (is_Some (editTarget e))).
  { destruct (editTarget e) as [r|]; [| exact He]. cbn [from_option].
    apply keeps_bind;
      [apply keeps_annotations_delete | intros _; apply keeps_effect | done]. }
  case_bool_decide; [by apply keeps_setMode | exact He].
Qed.

(** X11.  Whatever the user or the host does, the editor stays consistent:
    at most one of the edit and create controllers exists; an update is
    pending only in edit mode; the orbit controls are disabled in create
    mode; the edit target is a cuboid of the set; the set holds each object
    once, and only live ones.  This holds also when the handler throws. *)
Theorem handlers_keep_editor_consistent `{Collaborators} `{Plots}
    (a : Action) (e : Editor) :
  consistent e → possible e a → consistent (exec (perform a) e).
Proof.
  intros He Hp. destruct a; cbn [perform].
  - by apply keeps_defaultOnKeyDown.
  - by apply keeps_onMouseDown.
  - unfold domElement_mouseup.
    apply exec_bind_keep; [| intros; by apply keeps_onMouseUp].
    apply keeps_mouseUpListener; [done |]. by intros t ->.
  - apply keeps_modify; [| done]. clear. intros e He. by destruct e.
  - apply keeps_bind; [| intros _; apply keeps_effect | done].
    apply keeps_modify. clear. intros e He. by destruct e.
  - apply keeps_gets_bind. apply keeps_when; [| done].
    apply keeps_bind; [| intros _]; apply keeps_modify; clear;
      intros e (H1 & H2 & H3 & H4 & H5 & H6); unfold consistent;
      by destruct e.
  - apply keeps_gets_bind. destruct He as (H1 & H2 & H3 & H4 & H5 & H6).
    case_bool_decide as Hem; [| done].
    unfold consistent. by destruct e.
  - apply keeps_gets_bind. destruct He as (H1 & H2 & H3 & H4 & H5 & H6).
    case_bool_decide as Hem; [| done].
    unfold when, onEditStop, exec. unfold_monad.
    unfold consistent.
    destruct e as [h s em cm ed up nav tg oc cam ev pts lg]. cbn in *.
    destruct H1 as [-> | ->]; [by destruct Hem as [? [=]] |].
    destruct up; cbn; split_and!; try done; eauto.
  - by apply keeps_setMode.
  - by apply keeps_set_editTarget.
  - by apply keeps_set_editableCuboids.
  - apply keeps_bind;
      [apply keeps_addAnnotation | intros _; apply keeps_ret | done].
  - apply keeps_bind; [| intros _; apply keeps_effect | done].
    apply keeps_modify. clear. intros e He. by destruct e.
  - by apply keeps_set_cameraMode.
  - apply keeps_bind; [apply keeps_rotate | intros _; apply keeps_ret | done].
  - apply keeps_bind; [apply keeps_swap | intros _; apply keeps_ret | done].
Qed.

Lemma handlers_keep_editor_consistent_witness :
  consistent
    (exec (@perform exampleCollaborators examplePlots (MouseUp None "k"))
          drawingRect).
Proof.
  apply (@handlers_keep_editor_consistent exampleCollaborators examplePlots
           (MouseUp None "k") drawingRect); [| exact I].
  assert (Hset : editableCuboids drawingRect = [1%positive])
    by (vm_compute; reflexivity).
  unfold consistent. rewrite Hset. split_and!.
  - left. vm_compute. reflexivity.
  - intros Hup. vm_compute in Hup. discriminate.
  - intros _. vm_compute. reflexivity.
  - intros r Hr. vm_compute in Hr. discriminate.
  - apply NoDup_singleton.
  - intros r ->%list_elem_of_singleton. exists cuboidA. vm_compute. reflexivity.
Defined.

(** *** Replacing the set *)

Lemma annotations_clear_spec `{Collaborators} (e : Editor) :
  ∃ e0, annotations_clear e = (e0, Ok tt)
    ∧ editableCuboids e0 = []
    ∧ heap e0 = heap e
    ∧ (editableCuboids e ≠ [] → editTarget e0 = None ∧ editMode e0 = None)
    ∧ (editMode e = None →
       createMode e0 = createMode e ∧ dispatched (log e0) = dispatched (log e)).
Proof.
  unfold annotations_clear. unfold bind at 1. unfold gets at 1.
  case_bool_decide as Hempty.
  { exists e. split_and!; try done. }
  cbv beta iota delta [when negb].
  unfold bind at 1. unfold modify at 1. unfold bind at 1. unfold gets at 1.
  cbn [editMode set_editableCuboids].
  destruct (editMode e) as [em|] eqn:Hem.
  - rewrite bool_decide_eq_true_2 by eauto. cbv beta iota delta [when].
    unfold bind at 1. rewrite setMode_eq. cbv zeta.
    rewrite !bool_decide_eq_false_2 by discriminate.
    eexists. split; [reflexivity |]. cbn. split_and!; try done.
  - rewrite bool_decide_eq_false_2 by (by intros [? [=]]).
    cbv beta iota delta [when]. unfold_monad.
    eexists. split; [reflexivity |]. cbn. split_and!; try done.
    intros _. split; [done |].
    rewrite !dispatched_app. cbn. by rewrite !app_nil_r.
Qed.

(** The loop of the setter: one new object per record, appended in order. *)
Lemma forEach_addAnnotation (l : list Cuboid) :
  ∀ e : Editor,
    (∀ x, x ∈ editableCuboids e → is_Some (heap e !! x)) →
    NoDup (editableCuboids e) →
    ∃ e' rs,
      forEach (λ v, addAnnotation v;; ret tt) l e = (e', Ok tt)
      ∧ editableCuboids e' = editableCuboids e ++ rs
      ∧ cuboids e' rs = l
      ∧ NoDup (editableCuboids e')
      ∧ (∀ x, x ∈ editableCuboids e' → is_Some (heap e' !! x))
      ∧ (∀ x, x ∈ rs → heap e !! x = None)
      ∧ (∀ x, is_Some (heap e !! x) → heap e' !! x = heap e !! x)
      ∧ editTarget e' = editTarget e
      ∧ editMode e' = editMode e
      ∧ createMode e' = createMode e
      ∧ dispatched (log e') = dispatched (log e).
Proof.
  induction l as [|v l IH]; intros e Hlive Hnd.
  { exists e, []. cbn. rewrite app_nil_r. split_and!; try done.
    by intros x ?%elem_of_nil. }
  destruct (addAnnotation_eq v e Hlive) as [Hrun Hnew]. cbv zeta in Hrun.
  set (r := fresh (dom (heap e))) in *.
  set (e1 := set_log _ _) in Hrun.
  assert (Hfresh : heap e !! r = None).
  { apply not_elem_of_dom. apply is_fresh. }
  assert (Hlive1 : ∀ x, x ∈ editableCuboids e1 → is_Some (heap e1 !! x)).
  { subst e1. cbn. intros x [Hx | ->%list_elem_of_singleton]%elem_of_app.
    - destruct (decide (x = r)) as [-> | Hne]; [done |].
      rewrite lookup_insert_ne by done. by apply Hlive.
    - rewrite lookup_insert_eq. eauto. }
  assert (Hnd1 : NoDup (editableCuboids e1)).
  { subst e1. cbn. apply NoDup_app. split_and!; [done | | apply NoDup_singleton].
    intros x Hx ->%list_elem_of_singleton. done. }
  destruct (IH e1 Hlive1 Hnd1)
    as (e' & rs & Hloop & Hset & Hrec & Hnd' & Hlive' & Hnew' & Hold & Htg
        & Hem & Hcm & Hev).
  exists e', (r :: rs). split_and!.
  - cbn [forEach]. unfold bind at 1. unfold bind at 1. rewrite Hrun.
    unfold ret at 1. exact Hloop.
  - rewrite Hset. subst e1. cbn. by rewrite <- app_assoc.
  - unfold cuboids in *. cbn [omap list_omap].
    assert (Hr : heap e' !! r = Some v).
    { rewrite Hold; subst e1; cbn; rewrite lookup_insert_eq; eauto. }
    rewrite Hr. by rewrite Hrec.
  - exact Hnd'.
  - exact Hlive'.
  - intros x [-> | Hx]%elem_of_cons; [exact Hfresh |].
    specialize (Hnew' x Hx). subst e1. cbn in Hnew'.
    destruct (decide (x = r)) as [-> | Hne]; [exact Hfresh |].
    by rewrite lookup_insert_ne in Hnew'.
  - intros x Hx. rewrite Hold.
    + subst e1. cbn. apply lookup_insert_ne. intros <-.
      rewrite Hfresh in Hx. by destruct Hx.
    + subst e1. cbn. rewrite lookup_insert_ne; [done |]. intros <-.
      rewrite Hfresh in Hx. by destruct Hx.
  - by rewrite Htg.
  - by rewrite Hem.
  - by rewrite Hcm.
  - rewrite Hev. subst e1. cbn. by rewrite dispatched_app, app_nil_r.
Qed.

(** X12.  Assigning [editableCuboids] never fails.  Afterwards the set holds
    one new object for each record of the value, in order, and nothing
    else; a null value empties it.  The objects that existed before keep
    their records.  If the set held something, the edit mode is left and the
    target dropped; a create mode is not left, and then no event is
    dispatched. *)
Theorem editableCuboids_setter_replaces `{Collaborators}
    (value : option (list Cuboid)) (e : Editor) :
  ∃ e', CuboidEditor_set_editableCuboids value e = (e', Ok tt)
    ∧ cuboids e' (editableCuboids e') = default [] value
    ∧ NoDup (editableCuboids e')
    ∧ (∀ x, x ∈ editableCuboids e' → heap e !! x = None)
    ∧ (∀ x, is_Some (heap e !! x) → heap e' !! x = heap e !! x)
    ∧ (editableCuboids e ≠ [] → editTarget e' = None ∧ editMode e' = None)
    ∧ (editMode e = None →
       createMode e' = createMode e ∧ dispatched (log e') = dispatched (log e)).
Proof.
  destruct (annotations_clear_spec e)
    as (e0 & Hclear & Hset0 & Hheap0 & Hdrop & Hkeep).
  destruct (forEach_addAnnotation (default [] value) e0)
    as (e' & rs & Hloop & Hset & Hrec & Hnd & Hlive & Hnew & Hold & Htg
        & Hem & Hcm & Hev).
  { rewrite Hset0. by intros x ?%elem_of_nil. }
  { rewrite Hset0. constructor. }
  rewrite Hset0 in Hset. cbn in Hset. rewrite Hheap0 in Hnew, Hold.
  exists e'. split_and!.
  - unfold CuboidEditor_set_editableCuboids, bind. by rewrite Hclear.
  - by rewrite Hset.
  - exact Hnd.
  - intros x Hx. apply Hnew. by rewrite <- Hset.
  - exact Hold.
  - intros Hne. rewrite Htg, Hem. by apply Hdrop.
  - intros Hno. rewrite Hcm, Hev. by apply Hkeep.
Qed.

(** *** The camera mode *)

(** X13.  Assigning [cameraMode] leaves and re-enters the current mode: the
    mode and the target are the same afterwards, the orbit controls follow
    the new camera, and a ground rectangle being drawn is lost for a new
    ground cursor.  The exception is an edit mode whose target was set to
    null meanwhile: the setter then throws and leaves the editor idle. *)
Theorem cameraMode_setter_reenters_mode `{Collaborators}
    (cam : nat) (e : Editor) :
  ∃ e' r, CuboidEditor_set_cameraMode cam e = (e', r)
    ∧ camera e' = cam
    ∧ object (orbitControls e') = cam
    ∧ editTarget e' = editTarget e
    ∧ heap e' = heap e
    ∧ editableCuboids e' = editableCuboids e
    ∧ match editMode e, editTarget e with
      | Some _, None =>
          r = Throw "cannot go into edit mode without a target"%string
          ∧ mode e' = None
      | Some _, Some t =>
          r = Ok tt ∧ mode e' = Some "edit"%string
          ∧ dispatched (log e')
            = dispatched (log e) ++ dispatched (teardown_effects e)
              ++ [Selection [t]]
      | None, _ =>
          r = Ok tt ∧ mode e' = mode e
          ∧ dispatched (log e') = dispatched (log e)
          ∧ (is_Some (createMode e) →
             createMode e'
             = Some (new_CreateModeController cam (lastMouseMouseEvt e))
             ∧ enabled (orbitControls e') = false)
      end.
Proof.
  unfold CuboidEditor_set_cameraMode, CuboidEditor_set_mode.
  unfold bind at 1. unfold gets at 1.
  unfold bind at 1. rewrite setMode_eq. cbv zeta.
  rewrite !bool_decide_eq_false_2 by discriminate.
  unfold bind at 1. unfold modify at 1.
  unfold bind at 1. rewrite setMode_eq. cbv zeta.
  unfold mode at 1 2.
  destruct e as [h s em cm ed up nav tg oc cam0 ev pts lg].
  cbn [editMode createMode editTarget camera lastMouseMouseEvt].
  destruct em as [em|].
  - rewrite bool_decide_eq_true_2 by reflexivity.
    cbn [editTarget set_camera set_log torn_down].
    destruct tg as [t|].
    + eexists _, _. split; [reflexivity |]. cbn. split_and!; try done.
      solve_dispatched.
    + eexists _, _. split; [reflexivity |]. cbn. split_and!; done.
  - destruct cm as [c|].
    + rewrite bool_decide_eq_false_2 by discriminate.
      rewrite bool_decide_eq_true_2 by reflexivity.
      eexists _, _. split; [reflexivity |]. cbn. split_and!; try done.
      solve_dispatched.
    + rewrite !bool_decide_eq_false_2 by discriminate.
      eexists _, _. split; [reflexivity |]. cbn. split_and!; try done.
      solve_dispatched.
Qed.

(** *** Drawing a cuboid *)

(** X14.  While a ground rectangle is being drawn, a mouse-up over a cuboid
    of the set abandons the creation: the manager, whose listener runs
    first, makes that cuboid the target and enters edit mode, which destroys
    the create controller before its own listener runs.  No cuboid is
    created and no [create] event is dispatched. *)
Theorem mouse_up_over_cuboid_abandons_creation `{Collaborators}
    (t : ref) (rnd : string) (e : Editor) :
  is_Some (createMode e) →
  editMode e = None →
  navigating e = false →
  editing e = false →
  ∃ e', domElement_mouseup (Some t) rnd e = (e', Ok tt)
    ∧ heap e' = heap e
    ∧ editableCuboids e' = editableCuboids e
    ∧ createMode e' = None
    ∧ mode e' = Some "edit"%string
    ∧ editTarget e' = Some t
    ∧ dispatched (log e') = dispatched (log e) ++ [Selection [t]].
Proof.
  intros [c Hcm] Hem Hnav Hed.
  unfold domElement_mouseup, mouseUpListener.
  unfold bind at 1. unfold bind at 1. unfold gets at 1.
  unfold bind at 1. unfold gets at 1. rewrite Hnav, Hed.
  cbv beta iota delta [orb].
  unfold bind at 1. unfold gets at 1. unfold bind at 1. unfold gets at 1.
  rewrite Hem.
  unfold bind at 1. unfold modify at 1. rewrite setMode_eq. cbv zeta.
  rewrite bool_decide_eq_true_2 by reflexivity.
  cbn [editTarget set_editTarget].
  unfold onMouseUp. unfold bind at 1. unfold gets at 1.
  cbn [createMode set_log set_editMode torn_down set_editTarget].
  eexists. split; [reflexivity |]. cbn. split_and!; try done.
  unfold teardown_effects. cbn. rewrite Hem, Hcm. solve_dispatched.
Qed.

Lemma mouse_up_over_cuboid_abandons_creation_witness :
  ∃ e', domElement_mouseup (H := exampleCollaborators) (Some 1%positive) "k"
          drawingRect = (e', Ok tt)
    ∧ heap e' = heap drawingRect
    ∧ editableCuboids e' = editableCuboids drawingRect
    ∧ createMode e' = None
    ∧ mode e' = Some "edit"%string
    ∧ editTarget e' = Some 1%positive
    ∧ dispatched (log e')
      = dispatched (log drawingRect) ++ [Selection [1%positive]].
Proof.
  apply (mouse_up_over_cuboid_abandons_creation (H := exampleCollaborators)
           1%positive "k" drawingRect).
  - vm_compute. eauto.
  - vm_compute. reflexivity.
  - vm_compute. reflexivity.
  - vm_compute. reflexivity.
Defined.

(** X15.  From any state, the key [c], a mouse-down and a mouse-up over
    empty space create a cuboid: the box fitted to the ground rectangle the
    mouse-down placed at the ground cursor is put in a new object with the
    drawn id, appended to the set, made the target and edited; the host
    receives the events of the teardown, then [selection] with the new
    cuboid and [create] with it. *)
Theorem click_in_create_mode_creates `{Collaborators} `{Plots}
    (rnd : string) (e : Editor) :
  (∀ x, x ∈ editableCuboids e → is_Some (heap e !! x)) →
  let r := fresh (dom (heap e)) in
  let rect :=
    let p := default (0, 0, 0) (raycastGround (camera e) (lastMouseMouseEvt e)) in
    newGroundRectangle p p (rotation_z (camera e) - Math_PI) in
  let box :=
    fitBoxWithAutoZ (pcl e) (rect_position rect)
      (Qabs (snd (rect_scale rect)), Qabs (fst (rect_scale rect)))
      (rect_rotation_z rect - Math_PI / 2) in
  ∃ e',
    (defaultOnKeyDown "c";; onMouseDown;; domElement_mouseup None rnd) e
    = (e', Ok tt)
    ∧ (r ∉ editableCuboids e)
    ∧ editableCuboids e' = editableCuboids e ++ [r]
    ∧ heap e' = <[r := {| id := rnd; position := box_position box;
                          size := box_size box; heading := box_heading box;
                          color := None |}]> (heap e)
    ∧ editTarget e' = Some r
    ∧ mode e' = Some "edit"%string
    ∧ createMode e' = None
    ∧ dispatched (log e')
      = dispatched (log e) ++ dispatched (teardown_effects e)
        ++ [Selection [r]; Create r].
Proof.
  intros Hlive r rect box.
  assert (Hnew : r ∉ editableCuboids e).
  { intros Hin. destruct (Hlive r Hin) as [x Hx].
    apply (is_fresh (dom (heap e))). fold r. apply elem_of_dom. eauto. }
  unfold bind at 1. rewrite key_c_eq.
  unfold bind at 1. unfold onMouseDown. unfold bind at 1. unfold gets at 1.
  cbn [createMode set_log set_createMode new_CreateModeController groundCursor].
  unfold bind at 1. unfold gets at 1.
  cbn [camera set_log set_createMode set_orbitControls torn_down disc_position].
  fold rect.
  unfold bind at 1. unfold modify at 1. unfold render at 1, effect at 1.
  unfold modify at 1.
  unfold domElement_mouseup, mouseUpListener.
  unfold bind at 1. unfold bind at 1. unfold gets at 1.
  unfold bind at 1. unfold gets at 1.
  cbn [navigating editing set_log set_createMode set_orbitControls torn_down orb].
  unfold bind at 1. unfold gets at 1. unfold bind at 1. unfold gets at 1.
  cbn [editMode set_log set_createMode set_orbitControls torn_down].
  unfold ret at 1.
  unfold onMouseUp. unfold bind at 1. unfold gets at 1.
  cbn [createMode set_log set_createMode state groundCursor groundRect].
  unfold bind at 1. unfold gets at 1.
  cbn [pcl set_log set_createMode set_orbitControls torn_down].
  fold box.
  unfold bind at 1. unfold gets at 1.
  cbn [heap set_log set_createMode set_orbitControls torn_down].
  unfold observable. fold r.
  set (record := {| id := rnd; position := box_position box |}).
  unfold bind at 1. unfold modify at 1.
  unfold bind at 1. unfold CreateModeController_destroy.
  unfold bind at 1. unfold modify at 1. unfold bind at 1.
  unfold effect at 1. unfold modify at 1. unfold render at 1, effect at 1.
  unfold modify at 1.
  unfold bind at 1. unfold annotations_add. unfold bind at 1. unfold gets at 1.
  cbn [editableCuboids set_log set_createMode set_orbitControls torn_down
       set_heap].
  unfold set_has. rewrite bool_decide_eq_false_2 by exact Hnew.
  cbv beta iota delta [when negb].
  unfold bind at 1. unfold modify at 1. unfold render at 1, effect at 1.
  unfold modify at 1.
  cbn [editableCuboids set_log set_createMode set_orbitControls torn_down
       set_heap set_editableCuboids].
  rewrite set_add_new by exact Hnew.
  unfold onCreate. unfold bind at 1. unfold modify at 1.
  unfold bind at 1. rewrite setMode_eq. cbv zeta.
  rewrite bool_decide_eq_true_2 by reflexivity.
  cbn [editTarget set_editTarget].
  unfold dispatchEvent, effect, modify.
  eexists. split; [reflexivity |]. cbn. split_and!; try done.
  solve_dispatched.
Qed.

Lemma click_in_create_mode_creates_witness :
  let r := fresh (dom (heap selectedA)) in
  let rect :=
    let p := default (0, 0, 0)
               (raycastGround (Collaborators := exampleCollaborators)
                  (camera selectedA) (lastMouseMouseEvt selectedA)) in
    newGroundRectangle (Plots := examplePlots) p p
      (rotation_z (Plots := examplePlots) (camera selectedA) - Math_PI) in
  let box :=
    fitBoxWithAutoZ (Collaborators := exampleCollaborators)
      (pcl selectedA) (rect_position rect)
      (Qabs (snd (rect_scale rect)), Qabs (fst (rect_scale rect)))
      (rect_rotation_z rect - Math_PI / 2) in
  ∃ e',
    (defaultOnKeyDown (H := exampleCollaborators) "c";;
     onMouseDown (H := examplePlots);;
     domElement_mouseup (H := exampleCollaborators) None "k") selectedA
    = (e', Ok tt)
    ∧ (r ∉ editableCuboids selectedA)
    ∧ editableCuboids e' = editableCuboids selectedA ++ [r]
    ∧ heap e' = <[r := {| id := "k"; position := box_position box;
                          size := box_size box; heading := box_heading box;
                          color := None |}]> (heap selectedA)
    ∧ editTarget e' = Some r
    ∧ mode e' = Some "edit"%string
    ∧ createMode e' = None
    ∧ dispatched (log e')
      = dispatched (log selectedA) ++ dispatched (teardown_effects selectedA)
        ++ [Selection [r]; Create r].
Proof.
  apply (@click_in_create_mode_creates exampleCollaborators examplePlots
           "k" selectedA).
  intros x Hx.
  assert (x = 1%positive) as ->.
  { assert (Hset : editableCuboids selectedA = [1%positive])
      by (vm_compute; reflexivity).
    rewrite Hset in Hx. by apply list_elem_of_singleton in Hx. }
  exists cuboidA. vm_compute. reflexivity.
Defined.

End Cuboid3DMore.

(** ** More facts about the 2D polygon editor *)

Module Polygon2DMore.
Import Polygon2D JSFacts Polygon2DFacts.

(** *** Drawing *)

Lemma clamp_in_frame (v : Q) : 0 <= Qmax (Qmin v 1) 0 ∧ Qmax (Qmin v 1) 0 <= 1.
Proof.
  split; [apply Q.le_max_r |].
  apply Q.max_lub; [apply Q.le_min_r | discriminate].
Qed.

Lemma in_frame_take (n : nat) (vs : list Q) : in_frame vs → in_frame (take n vs).
Proof. apply Forall_take. Qed.

Lemma Even_sub_2 (n : nat) : (4 ≤ n)%nat → Nat.Even n → Nat.Even (n - 2).
Proof.
  intros Hn [k ->]. exists (k - 1)%nat. lia.
Qed.

Lemma Even_add_2 (n : nat) : Nat.Even n → Nat.Even (n + 2).
Proof. intros [k ->]. exists (k + 1)%nat. lia. Qed.

(** [createPolygon] on a polygon under construction: the last vertex goes;
    a valid polygon enters the set under the drawn id, an invalid one is
    dropped. *)
Lemma createPolygon_eq `{Base} (rnd : string) (s : State)
    (shape : PolygonShape) (d : ShapeData) :
  tmpShape s = Some shape →
  heap s !! data shape = Some d →
  let vs := take (length (vertices (geometry d)) - 2) (vertices (geometry d)) in
  createPolygon rnd s
  = (set_log (log s ++ [RemoveChild (data shape); Destroy (data shape)])
       (set_tmpShape None
          (if isValid vs then
             set_shapes (set_add (data shape) (shapes s))
               (set_heap (<[data shape := with_id rnd (with_vertices vs d)]>
                            (heap s)) s)
           else set_heap (<[data shape := with_vertices vs d]> (heap s)) s)),
     Ok tt).
Proof.
  intros Htmp Hd vs. subst vs.
  destruct s as [h sh tg md tmp ch cr up nt mt db idx mx my w ht tm nx lg].
  cbn in Htmp, Hd. subst tmp.
  unfold createPolygon, popNode, deref. run.
  rewrite lookup_alter_eq, Hd. run.
  rewrite (alter_Some _ _ h d Hd).
  destruct (isValid (take (length (vertices (geometry d)) - 2)
                          (vertices (geometry d)))); run.
  - erewrite alter_Some by apply lookup_insert_eq.
    rewrite insert_insert_eq. by rewrite <- !app_assoc.
  - by rewrite <- !app_assoc.
Qed.

Lemma drawing_ok_leaves (f : State → State) (s : State) :
  leaves_drawing f → drawing_ok s → drawing_ok (f s).
Proof.
  intros Hf Hok. destruct (Hf s) as (H1 & H2 & H3 & H4 & H5 & H6 & H7 & H8).
  unfold drawing_ok. rewrite H1, H2, H3, H4, H5, H6, H7, H8. exact Hok.
Qed.

Lemma ok_createPolygon `{Base} (rnd : string) (s : State) :
  drawing_ok s → drawing_ok (exec (createPolygon rnd) s).
Proof.
  intros Hok. pose proof Hok as (Hnx & Htm & [Hw Hh] & Hlive & Htmp).
  destruct (tmpShape s) as [shape|] eqn:Hshape.
  - destruct (Htmp shape eq_refl) as (Hnew & d & Hd & Hfr & Hlen & Hev).
    unfold exec. rewrite (createPolygon_eq rnd s shape d Hshape Hd). cbv zeta.
    destruct s as [h sh tg md tmp ch cr up nt mt db idx mx my w ht tm nx lg].
    cbn in *.
    destruct (isValid _); unfold drawing_ok; cbn;
      (split_and!; [done | done | done | done | | done]).
    + intros r Hr. rewrite set_add_new in Hr by done.
      apply elem_of_app in Hr as [Hr | ->%list_elem_of_singleton].
      * destruct (decide (r = data shape)) as [-> | Hne];
          [by rewrite lookup_insert_eq |].
        rewrite lookup_insert_ne by done. by apply Hlive.
      * by rewrite lookup_insert_eq.
    + intros r Hr. destruct (decide (r = data shape)) as [-> | Hne]; [done |].
      rewrite lookup_insert_ne by done. by apply Hlive.
  - unfold exec, createPolygon. unfold bind at 1. unfold gets at 1.
    rewrite Hshape. exact Hok.
Qed.

Lemma ok_flags (s s' : State) :
  heap s' = heap s → shapes s' = shapes s → tmpShape s' = tmpShape s →
  timers s' = timers s → isDbClick s' = isDbClick s →
  nextTimer s' = nextTimer s → imageWidth s' = imageWidth s →
  imageHeight s' = imageHeight s →
  drawing_ok s → drawing_ok s'.
Proof.
  intros H1 H2 H3 H4 H5 H6 H7 H8 Hok.
  unfold drawing_ok. rewrite H1, H2, H3, H4, H5, H6, H7, H8. exact Hok.
Qed.

Lemma ok_onRootDown `{Base} (evt : PointerEvent) (rnd : string) (s : State) :
  leaves_drawing (super_onRootDown evt) →
  drawing_ok s → drawing_ok (exec (onRootDown evt rnd) s).
Proof.
  intros Hsup Hok. apply (drawing_ok_leaves _ _ Hsup) in Hok.
  unfold exec, onRootDown. unfold bind at 1. unfold modify at 1.
  set (s1 := super_onRootDown evt s) in *. clearbody s1. clear s Hsup.
  unfold bind at 1. unfold gets at 1.
  destruct (bool_decide (mode s1 = "create"%string) && negb (buttons evt =? 2)%Z);
    [| exact Hok].
  destruct s1 as [h sh tg md tmp ch cr up nt mt db idx mx my w ht tm nx lg].
  destruct Hok as (Hnx & Htm & [Hw Hh] & Hlive & Htmp). cbn in *.
  destruct tmp as [shape|].
  - destruct (Htmp shape eq_refl) as (Hnew & d & Hd & Hfr & Hlen & Hev).
    unfold pushNode, setTimeout, clearTimeout. run.
    destruct (isDoubleClick db evt shape); run.
    + match goal with
      | |- drawing_ok (fst (createPolygon rnd ?st)) =>
          change (drawing_ok (exec (createPolygon rnd) st))
      end.
      apply ok_createPolygon. unfold drawing_ok. cbn.
      split_and!; [done | done | done | done | done |].
      intros shape' [= <-]. eauto 10.
    + cbn [fst]. unfold drawing_ok. cbn.
      split_and!; [lia | | done | done | |].
      * right. split; [lia |].
        destruct Htm as [[-> ->] | [Hdb ->]]; cbn; [done |].
        rewrite decide_False; [done |]. cbn. intros Hne. by apply Hne.
      * intros r Hr. rewrite lookup_alter. case_decide; [| by apply Hlive].
        subst r. rewrite Hd. eauto.
      * intros shape' [= <-]. cbn. split; [done |].
        rewrite lookup_alter_eq, Hd. cbn. eexists. split; [reflexivity |].
        cbn. split_and!.
        -- apply Forall_app. split; [done |].
           repeat constructor; apply clamp_in_frame.
        -- rewrite length_app. cbn. lia.
        -- rewrite length_app. cbn. by apply Even_add_2.
  - unfold new_observable, observable. run. cbn [fst].
    set (r := fresh (dom h)).
    assert (Hfresh : h !! r = None).
    { apply not_elem_of_dom. apply is_fresh. }
    unfold drawing_ok. cbn.
    split_and!; [done | done | done | done | |].
    + intros x Hx. destruct (decide (x = r)) as [-> | Hne];
        [by rewrite lookup_insert_eq |].
      rewrite lookup_insert_ne by done. by apply Hlive.
    + intros shape' [= <-]. cbn. split.
      * intros Hin. destruct (Hlive r Hin) as [? Hr]. congruence.
      * rewrite lookup_insert_eq. eexists. split; [reflexivity |]. cbn.
        split_and!; [| lia | by exists 2%nat].
        repeat constructor; apply clamp_in_frame.
Qed.

Lemma ok_discard (s : State) (l : list Effect) (cr up : bool) :
  drawing_ok s →
  drawing_ok (set_tmpShape None
                (set_log l (set_updated up (set_isCreating cr s)))).
Proof.
  intros (Hnx & Htm & [Hw Hh] & Hlive & Htmp).
  destruct s as [h sh tg md tmp ch cr0 up0 nt mt db idx mx my w ht tm nx lg].
  unfold drawing_ok. cbn in *. split_and!; done.
Qed.

Lemma ok_onKeyDownCreate `{Base} (key rnd : string) (s : State) :
  drawing_ok s → drawing_ok (exec (onKeyDownCreate key rnd) s).
Proof.
  intros Hok. unfold exec, onKeyDownCreate.
  case_bool_decide as HEnter.
  { unfold bind at 1. unfold modify at 1. unfold bind at 1. unfold gets at 1.
    assert (Hok1 : drawing_ok (set_isCreating false s))
      by (apply (ok_flags s); by destruct s).
    destruct (updated (set_isCreating false s)); [| exact Hok1].
    cbv beta iota delta [when]. unfold bind at 1. unfold modify at 1.
    apply ok_createPolygon. apply (ok_flags s); by destruct s. }
  case_bool_decide as HEscape.
  { unfold bind at 1. unfold modify at 1. unfold bind at 1. unfold gets at 1.
    unfold bind at 1. unfold gets at 1.
    assert (Hok1 : drawing_ok (set_isCreating false s))
      by (apply (ok_flags s); by destruct s).
    destruct (tmpShape (set_isCreating false s)) as [shape|]; [| exact Hok1].
    destruct (updated (set_isCreating false s)); [| exact Hok1].
    cbv beta iota delta [when]. unfold effect. unfold_monad. cbn [fst].
    match goal with
    | |- drawing_ok ?st =>
        replace st with
          (set_tmpShape None
             (set_log (log s ++ [RemoveChild (data shape); Destroy (data shape)])
                (set_updated false (set_isCreating false s))))
    end; [by apply ok_discard |].
    destruct s. cbn. by rewrite <- app_assoc. }
  case_bool_decide as HBack; [| exact Hok].
  unfold bind at 1. unfold gets at 1.
  destruct (tmpShape s) as [obj|] eqn:Hobj; [| exact Hok].
  destruct Hok as (Hnx & Htm & [Hw Hh] & Hlive & Htmp).
  destruct (Htmp obj Hobj) as (Hnew & d & Hd & Hfr & Hlen & Hev).
  unfold bind at 1. unfold deref at 1. rewrite Hd.
  case_bool_decide as Hmore; cbv beta iota delta [when].
  - unfold popNode. unfold_monad. cbn [fst].
    destruct s as [h sh tg md tmp ch cr up nt mt db idx mx my w ht tm nx lg].
    cbn in *. subst tmp. unfold drawing_ok. cbn.
    split_and!; [done | done | done | done | |].
    + intros r Hr. rewrite lookup_alter. case_decide; [| by apply Hlive].
      subst r. rewrite Hd. eauto.
    + intros shape' [= <-]. split; [done |].
      rewrite lookup_alter_eq, Hd. cbn. eexists. split; [reflexivity |]. cbn.
      split_and!.
      * by apply in_frame_take.
      * rewrite length_take. lia.
      * rewrite length_take, Nat.min_l by lia. apply Even_sub_2; [lia | done].
  - unfold ret. cbn [fst]. unfold drawing_ok. split_and!; try done.
Qed.

Lemma ok_timeout (t : Z) (s : State) :
  drawing_ok s → drawing_ok (exec (timeout t) s).
Proof.
  intros Hok. unfold exec, timeout. unfold bind at 1. unfold gets at 1.
  case_bool_decide as Hin; [| exact Hok].
  cbv beta iota delta [when]. unfold clearTimeout. unfold_monad. cbn [fst].
  destruct Hok as (Hnx & Htm & [Hw Hh] & Hlive & Htmp).
  destruct s as [h sh tg md tmp ch cr up nt mt db idx mx my w ht tm nx lg].
  cbn in *. unfold drawing_ok. cbn.
  split_and!; [done | | done | done | done | done].
  left. split; [done |].
  destruct Htm as [[-> ->] | [Hdb ->]]; [done |].
  cbn in Hin. apply list_elem_of_singleton in Hin as ->.
  cbn. rewrite decide_False; [done |]. cbn. intros Hne. by apply Hne.
Qed.

Lemma ok_setMode `{BaseMode} (m : string) (s : State) :
  leaves_drawing (super_setMode m) →
  drawing_ok s → drawing_ok (exec (setMode m) s).
Proof.
  intros Hsup Hok. apply (drawing_ok_leaves _ _ Hsup) in Hok.
  unfold exec, setMode. unfold bind at 1. unfold modify at 1.
  set (s1 := super_setMode m s) in *. clearbody s1. clear s Hsup.
  case_bool_decide; [exact Hok |].
  unfold bind at 1. unfold gets at 1.
  destruct (tmpShape s1) as [shape|]; [| exact Hok].
  unfold effect. unfold_monad. cbn [fst].
  match goal with
  | |- drawing_ok ?st =>
      replace st with
        (set_tmpShape None
           (set_log (log s1 ++ [RemoveChild (data shape); Destroy (data shape)])
              (set_updated (updated s1) (set_isCreating (isCreating s1) s1))))
  end; [by apply ok_discard |].
  destruct s1. cbn. by rewrite <- app_assoc.
Qed.

(** X16.  While a polygon is drawn by pointer-downs, keys, timer expiry and
    mode changes, provided the handlers of the base class leave the drawing
    alone: [isDbClick] is -1 unless its timer, the only one, is pending; the
    polygon under construction is not in the set and has at least two
    vertices, all within the image; the set holds live objects.  This holds
    also when a handler throws. *)
Theorem drawing_handlers_keep_invariant `{Base} `{BaseMode}
    (a : Action) (s : State) :
  (∀ evt, leaves_drawing (super_onRootDown evt)) →
  (∀ m, leaves_drawing (super_setMode m)) →
  drawing_ok s →
  drawing_ok (exec (perform a) s).
Proof.
  intros Hdown Hmode Hok. destruct a as [evt rnd | key rnd | t | m]; cbn [perform].
  - by apply ok_onRootDown.
  - by apply ok_onKeyDownCreate.
  - by apply ok_timeout.
  - by apply ok_setMode.
Qed.

(** The scenario [drawing] meets the assumptions. *)
Ltac scenario_drawing_ok :=
  let Htmp := fresh "Htmp" in
  let Hsh := fresh "Hsh" in
  assert (Htmp : tmpShape drawing
                 = Some {| data := 1%positive; scaleX := 200; scaleY := 100;
                           lastX := 150 / 200 * 200; lastY := 90 / 100 * 100 |})
    by (vm_compute; reflexivity);
  assert (Hsh : shapes drawing = []) by (vm_compute; reflexivity);
  unfold drawing_ok; rewrite Htmp, Hsh; split_and!;
  [ vm_compute; reflexivity
  | right; split; vm_compute; reflexivity
  | vm_compute; discriminate
  | vm_compute; discriminate
  | let r := fresh "r" in let Hr := fresh "Hr" in
    intros r Hr; exfalso; exact (not_elem_of_nil r Hr)
  | let shape := fresh "shape" in let Hs := fresh "Hs" in
    intros shape Hs; apply (inj Some) in Hs; subst shape;
    split; [apply not_elem_of_nil |];
    eexists; split; [vm_compute; reflexivity |]; cbn; split_and!;
    [ repeat constructor; vm_compute; discriminate
    | lia
    | exists 5%nat; reflexivity ] ].

Lemma drawing_handlers_keep_invariant_witness :
  drawing_ok
    (exec (@perform exampleBase exampleBaseMode (RootDown (click 151 90 1) "r5"))
          drawing).
Proof.
  apply (@drawing_handlers_keep_invariant exampleBase exampleBaseMode
           (RootDown (click 151 90 1) "r5") drawing).
  - intros evt s. split_and!; reflexivity.
  - intros m s. destruct s. split_and!; reflexivity.
  - scenario_drawing_ok.
Defined.

(** *** What drawing adds to the set *)

Lemma adds_nothing `{Base} (rnd : option string) (s s' : State) :
  shapes s' = shapes s →
  (∀ r, r ∈ shapes s → heap s' !! r = heap s !! r) →
  adds_finished rnd s s'.
Proof.
  intros Hsh Hheap. split.
  - intros r Hr. rewrite Hsh. split; [done | by apply Hheap].
  - intros r Hr Hnot. rewrite Hsh in Hr. by destruct Hnot.
Qed.

Lemma adds_transfer `{Base} (rnd : option string) (s s1 s' : State) :
  heap s1 = heap s → shapes s1 = shapes s → tmpShape s1 = tmpShape s →
  adds_finished rnd s1 s' → adds_finished rnd s s'.
Proof.
  intros H1 H2 H3. unfold adds_finished. by rewrite H1, H2, H3.
Qed.

Lemma adds_createPolygon `{Base} (rnd : string) (s : State) :
  drawing_ok s → adds_finished (Some rnd) s (exec (createPolygon rnd) s).
Proof.
  intros (Hnx & Htm & [Hw Hh] & Hlive & Htmp).
  destruct (tmpShape s) as [shape|] eqn:Hshape.
  - destruct (Htmp shape eq_refl) as (Hnew & d & Hd & Hfr & Hlen & Hev).
    unfold exec. rewrite (createPolygon_eq rnd s shape d Hshape Hd). cbv zeta.
    destruct (isValid _) eqn:Hvalid.
    + split.
      * intros r Hr. destruct s. cbn in *. rewrite set_add_new by done.
        split; [apply elem_of_app; by left |].
        apply lookup_insert_ne. by intros <-.
      * intros r Hr Hnot. destruct s. cbn in *.
        rewrite set_add_new in Hr by done.
        apply elem_of_app in Hr as [Hr | ->%list_elem_of_singleton]; [done |].
        split; [done |]. split; [eauto |].
        rewrite lookup_insert_eq. eexists. split; [reflexivity |]. cbn.
        split_and!; [done | done |]. by apply in_frame_take.
    + apply adds_nothing.
      * by destruct s.
      * intros r Hr. destruct s. cbn in *.
        apply lookup_insert_ne. by intros <-.
  - unfold exec, createPolygon. unfold bind at 1. unfold gets at 1.
    rewrite Hshape. by apply adds_nothing.
Qed.

Lemma adds_onRootDown `{Base} (evt : PointerEvent) (rnd : string) (s : State) :
  leaves_drawing (super_onRootDown evt) →
  drawing_ok s → adds_finished (Some rnd) s (exec (onRootDown evt rnd) s).
Proof.
  intros Hsup Hok. pose proof (Hsup s) as (E1 & E2 & E3 & _).
  apply (drawing_ok_leaves _ _ Hsup) in Hok.
  unfold exec, onRootDown. unfold bind at 1. unfold modify at 1.
  apply (adds_transfer _ s (super_onRootDown evt s)); [done | done | done |].
  set (s1 := super_onRootDown evt s) in *. clearbody s1. clear s Hsup E1 E2 E3.
  unfold bind at 1. unfold gets at 1.
  destruct (bool_decide (mode s1 = "create"%string) && negb (buttons evt =? 2)%Z);
    [| by apply adds_nothing].
  destruct s1 as [h sh tg md tmp ch cr up nt mt db idx mx my w ht tm nx lg].
  pose proof Hok as (Hnx & Htm & [Hw Hh] & Hlive & Htmp). cbn in *.
  destruct tmp as [shape|].
  - destruct (Htmp shape eq_refl) as (Hnew & d & Hd & Hfr & Hlen & Hev).
    unfold pushNode, setTimeout, clearTimeout. run.
    destruct (isDoubleClick db evt shape); run.
    + match goal with
      | |- adds_finished _ ?s0 (fst (createPolygon rnd ?st)) =>
          apply (adds_transfer _ s0 st); [done | done | done |];
          change (adds_finished (Some rnd) st (exec (createPolygon rnd) st))
      end.
      apply adds_createPolygon. revert Hok. apply ok_flags; done.
    + cbn [fst]. apply adds_nothing; [done |]. cbn. intros r Hr.
      apply lookup_alter_ne. by intros <-.
  - unfold new_observable, observable. run. cbn [fst].
    apply adds_nothing; [done |]. cbn. intros r Hr.
    apply lookup_insert_ne. intros <-.
    destruct (Hlive _ Hr) as [x Hx].
    apply (is_fresh (dom h)). apply elem_of_dom. eauto.
Qed.

Lemma adds_onKeyDownCreate `{Base} (key rnd : string) (s : State) :
  drawing_ok s → adds_finished (Some rnd) s (exec (onKeyDownCreate key rnd) s).
Proof.
  intros Hok. unfold exec, onKeyDownCreate.
  case_bool_decide as HEnter.
  { unfold bind at 1. unfold modify at 1. unfold bind at 1. unfold gets at 1.
    destruct (updated (set_isCreating false s));
      [| apply adds_nothing; by destruct s].
    cbv beta iota delta [when]. unfold bind at 1. unfold modify at 1.
    match goal with
    | |- adds_finished _ _ (fst (createPolygon rnd ?st)) =>
        apply (adds_transfer _ s st); [by destruct s ..|];
        change (adds_finished (Some rnd) st (exec (createPolygon rnd) st))
    end.
    apply adds_createPolygon. apply (ok_flags s); by destruct s. }
  case_bool_decide as HEscape.
  { unfold effect. unfold_monad. apply adds_nothing.
    - destruct s as [h sh tg md [shape|] ch cr [|] nt mt db idx mx my w ht tm nx lg];
        reflexivity.
    - intros r _.
      destruct s as [h sh tg md [shape|] ch cr [|] nt mt db idx mx my w ht tm nx lg];
        reflexivity. }
  case_bool_decide as HBack; [| by apply adds_nothing].
  unfold bind at 1. unfold gets at 1.
  destruct (tmpShape s) as [obj|] eqn:Hobj; [| by apply adds_nothing].
  destruct Hok as (Hnx & Htm & [Hw Hh] & Hlive & Htmp).
  destruct (Htmp obj Hobj) as (Hnew & d & Hd & Hfr & Hlen & Hev).
  unfold bind at 1. unfold deref at 1. rewrite Hd.
  case_bool_decide as Hmore; cbv beta iota delta [when];
    [| by apply adds_nothing].
  unfold popNode. unfold_monad. cbn [fst]. apply adds_nothing.
  - by destruct s.
  - intros r Hr. destruct s. cbn in *. apply lookup_alter_ne. by intros <-.
Qed.

(** X17.  While drawing, the annotation set changes in one way only: the
    polygon under construction is added to it when it is closed, by a
    double click or the Enter key, and then it is valid, lies within the
    image and carries the id drawn for it.  What is in the set stays in it,
    with its record; timer expiry and mode changes add nothing. *)
Theorem drawing_adds_only_finished_polygons `{Base} `{BaseMode}
    (a : Action) (s : State) :
  (∀ evt, leaves_drawing (super_onRootDown evt)) →
  (∀ m, leaves_drawing (super_setMode m)) →
  drawing_ok s →
  adds_finished (drawn_id a) s (exec (perform a) s).
Proof.
  intros Hdown Hmode Hok.
  destruct a as [evt rnd | key rnd | t | m]; cbn [perform drawn_id].
  - by apply adds_onRootDown.
  - by apply adds_onKeyDownCreate.
  - apply adds_nothing.
    + unfold exec, timeout, clearTimeout. unfold_monad.
      case_bool_decide; by destruct s.
    + intros r _. unfold exec, timeout, clearTimeout. unfold_monad.
      case_bool_decide; by destruct s.
  - destruct (Hmode m s) as (E1 & E2 & E3 & _).
    apply (adds_transfer _ s (super_setMode m s)); [done | done | done |].
    unfold exec, setMode. unfold bind at 1. unfold modify at 1.
    apply adds_nothing.
    + case_bool_decide; [done |]. unfold effect. unfold_monad.
      destruct (super_setMode m s)
        as [h sh tg md [shape|] ch cr up nt mt db idx mx my w ht tm nx lg];
        reflexivity.
    + intros r _. case_bool_decide; [done |]. unfold effect. unfold_monad.
      destruct (super_setMode m s)
        as [h sh tg md [shape|] ch cr up nt mt db idx mx my w ht tm nx lg];
        reflexivity.
Qed.

Lemma drawing_adds_only_finished_polygons_witness :
  adds_finished (H := exampleBase)
    (drawn_id (RootDown (click 151 90 1) "r5")) drawing
    (exec (@perform exampleBase exampleBaseMode (RootDown (click 151 90 1) "r5"))
          drawing).
Proof.
  apply (@drawing_adds_only_finished_polygons exampleBase exampleBaseMode
           (RootDown (click 151 90 1) "r5") drawing).
  - intros evt s. split_and!; reflexivity.
  - intros m s. destruct s. split_and!; reflexivity.
  - scenario_drawing_ok.
Defined.

(** *** Merge followed by split *)

(** The run of [merge] on a well-formed selection of at least two shapes. *)
Lemma merge_run (s : State) :
  wf s = true →
  (2 ≤ length (targetShapes s))%nat →
  let sel := records s (targetShapes s) in
  let r := fresh (dom (heap s)) in
  ∃ first,
    head sel = Some first
    ∧ (r ∉ shapes s)
    ∧ merge s
      = (set_shapes
           (foldl (λ acc x, set_delete x acc) (shapes s ++ [r]) (targetShapes s))
           (set_heap
              (<[r := {| id := id first +:+ concat_ids sel;
                         geometry :=
                           {| vertices := [];
                              mvertices := Some (concat (rings <$> sel));
                              type := "multi_polygon" |};
                         color := color first |}]> (heap s)) s),
         Ok tt).
Proof.
  intros Hwf Hk sel r.
  destruct (wf_elim s Hwf) as (Hnd & Hndt & Hsub & Hlive).
  assert (Hlive' : ∀ x, x ∈ targetShapes s → is_Some (heap s !! x)).
  { intros x Hx. destruct (Hlive x (Hsub x Hx)) as (d & -> & _). by eexists. }
  destruct (mapM_deref s (targetShapes s) Hlive') as [Hmap Hlen].
  fold sel in Hmap, Hlen.
  assert (Hflat : Forall (λ d, getFlattenVertices (geometry d) = Ok (rings d)) sel).
  { apply Forall_forall. intros d Hd. apply getFlattenVertices_rings.
    unfold sel, records in Hd. apply list_elem_of_omap in Hd as (x & Hx & Hxd).
    destruct (Hlive x (Hsub x Hx)) as (d' & Hd' & Hm).
    rewrite Hxd in Hd'. injection Hd' as <-. exact Hm. }
  assert (Hfresh : r ∉ shapes s).
  { intros Hin. destruct (Hlive r Hin) as (d & Hd & _).
    apply (is_fresh (dom (heap s))). fold r. apply elem_of_dom. by eexists. }
  destruct sel as [|first sel'] eqn:Hsel; [cbn in Hlen; lia |].
  exists first. split; [done |]. split; [done |].
  unfold merge. unfold bind at 1. unfold gets at 1.
  rewrite bool_decide_eq_true_2 by lia.
  unfold bind at 1. rewrite Hmap.
  rewrite (reduce_mergeStep _ Hflat (mergeInit first) []) by reflexivity.
  unfold new_observable, observable. fold r.
  unfold bind at 1. unfold bind at 1. unfold gets at 1.
  unfold bind at 1. unfold modify at 1. unfold ret at 1.
  unfold bind at 1. unfold shapes_add at 1. unfold modify at 1.
  rewrite forEach_shapes_delete. cbn. by rewrite set_add_new.
Qed.

(** X18.  Merging at least two selected shapes and splitting the result
    gives one polygon per ring of the selection, in order: the vertices are
    those of the selected shapes, the colour is that of the first one, and
    the ids are the merged id followed by the position.  The merged record
    and the selected ones have left the set, whose other members are
    untouched; the records of the selected shapes still exist. *)
Theorem merge_then_split_restores_rings (s : State) :
  wf s = true →
  (2 ≤ length (targetShapes s))%nat →
  let sel := records s (targetShapes s) in
  let r := fresh (dom (heap s)) in
  ∃ first s1 s2 news,
    head sel = Some first
    ∧ merge s = (s1, Ok tt)
    ∧ split (set_targetShapes [r] s1) = (s2, Ok tt)
    ∧ length news = length (concat (rings <$> sel))
    ∧ (Forall (λ d, type (geometry d) ≠ "multi_polygon"%string) sel →
       concat (rings <$> sel) = (λ d, vertices (geometry d)) <$> sel)
    ∧ (∀ i v, concat (rings <$> sel) !! i = Some v →
         ∃ n, news !! i = Some n
           ∧ heap s2 !! n
             = Some {| id := (id first +:+ concat_ids sel) +:+ pretty i;
                       geometry := {| vertices := v; mvertices := Some [];
                                      type := "polygon" |};
                       color := color first |})
    ∧ (∀ x, x ∈ shapes s2 ↔
            x ∈ news ∨ (x ∈ shapes s ∧ x ∉ targetShapes s))
    ∧ (∀ x, is_Some (heap s !! x) → heap s2 !! x = heap s !! x).
Proof.
  intros Hwf Hk sel r.
  destruct (wf_elim s Hwf) as (Hnd & Hndt & Hsub & Hlive).
  destruct (merge_run s Hwf Hk) as (first & Hhead & Hfresh & Hmerge).
  fold sel r in Hhead, Hfresh, Hmerge.
  set (merged := {| id := id first +:+ concat_ids sel |}) in Hmerge.
  set (s1 := set_shapes _ _) in Hmerge.
  assert (Hr : heap s !! r = None).
  { apply not_elem_of_dom. apply is_fresh. }
  assert (Hlive1 : ∀ x, x ∈ shapes (set_targetShapes [r] s1) →
                        is_Some (heap (set_targetShapes [r] s1) !! x)).
  { intros x Hx. subst s1. destruct s. cbn in *.
    apply foldl_set_delete_elem in Hx as [Hx _].
    apply elem_of_app in Hx as [Hx | ->%list_elem_of_singleton].
    - destruct (Hlive x Hx) as (d & Hd & _).
      rewrite lookup_insert_ne; [eauto | congruence].
    - rewrite lookup_insert_eq. eauto. }
  destruct (split_loop merged (concat (rings <$> sel)) 0
              (set_targetShapes [r] s1) Hlive1)
    as (st' & news & Hrun & Hlen & Hndn & Hfr & Hsh & Hold & Hrec).
  assert (Hheap1 : heap (set_targetShapes [r] s1) = <[r := merged]> (heap s))
    by (subst s1; by destruct s).
  assert (Hshapes1 : shapes (set_targetShapes [r] s1)
                     = foldl (λ acc x, set_delete x acc) (shapes s ++ [r])
                             (targetShapes s))
    by (subst s1; by destruct s).
  exists first, s1, (set_shapes (set_delete r (shapes st')) st'), news.
  split_and!.
  - exact Hhead.
  - exact Hmerge.
  - unfold split. unfold bind at 1. unfold gets at 1.
    replace (targetShapes (set_targetShapes [r] s1)) with [r]
      by (by destruct s1).
    rewrite bool_decide_eq_true_2 by done.
    unfold bind at 1. unfold deref at 1.
    rewrite Hheap1, lookup_insert_eq.
    rewrite bool_decide_eq_true_2 by done. cbn [mvertices geometry merged].
    unfold bind. rewrite Hrun. reflexivity.
  - exact Hlen.
  - intros Hplain. clear -Hplain. induction Hplain as [|d l Hd _ IH]; [done |].
    cbn. rewrite IH. unfold rings at 1. by rewrite bool_decide_eq_false_2.
  - intros i v Hi. destruct (Hrec i v Hi) as (n & Hn & Hhn).
    exists n. split; [done |]. cbn. rewrite Hhn. reflexivity.
  - intros x. cbn. rewrite elem_of_set_delete, Hsh, elem_of_app, Hshapes1.
    rewrite foldl_set_delete_elem, elem_of_app, list_elem_of_singleton.
    split.
    + intros [[[[Hx | ->] Hnt] | Hx] Hne]; [by right | done | by left].
    + intros [Hx | [Hx Hnt]].
      * split; [by right |]. intros ->. apply Hfr in Hx.
        by rewrite Hheap1, lookup_insert_eq in Hx.
      * split; [left; split; [by left | done] |]. by intros ->.
  - intros x Hx. cbn. rewrite Hold.
    + rewrite Hheap1. apply lookup_insert_ne. intros <-.
      rewrite Hr in Hx. by destruct Hx.
    + rewrite Hheap1. rewrite lookup_insert_ne; [done |]. intros <-.
      rewrite Hr in Hx. by destruct Hx.
Qed.

Lemma merge_then_split_restores_rings_witness :
  let sel := records bothSelected (targetShapes bothSelected) in
  let r := fresh (dom (heap bothSelected)) in
  ∃ first s1 s2 news,
    head sel = Some first
    ∧ merge bothSelected = (s1, Ok tt)
    ∧ split (set_targetShapes [r] s1) = (s2, Ok tt)
    ∧ length news = length (concat (rings <$> sel))
    ∧ (Forall (λ d, type (geometry d) ≠ "multi_polygon"%string) sel →
       concat (rings <$> sel) = (λ d, vertices (geometry d)) <$> sel)
    ∧ (∀ i v, concat (rings <$> sel) !! i = Some v →
         ∃ n, news !! i = Some n
           ∧ heap s2 !! n
             = Some {| id := (id first +:+ concat_ids sel) +:+ pretty i;
                       geometry := {| vertices := v; mvertices := Some [];
                                      type := "polygon" |};
                       color := color first |})
    ∧ (∀ x, x ∈ shapes s2 ↔
            x ∈ news ∨ (x ∈ shapes bothSelected ∧ x ∉ targetShapes bothSelected))
    ∧ (∀ x, is_Some (heap bothSelected !! x) →
            heap s2 !! x = heap bothSelected !! x).
Proof.
  apply (merge_then_split_restores_rings bothSelected).
  - vm_compute. reflexivity.
  - vm_compute. lia.
Defined.

(** *** The ids [split] gives *)

(** X19.  The polygons [split()] makes of a multi-polygon have pairwise
    distinct ids, and all the colour of the multi-polygon. *)
Theorem split_gives_distinct_ids (s : State) (shape : ref) (d : ShapeData)
    (rs : list (list Q)) :
  wf s = true →
  targetShapes s = [shape] →
  heap s !! shape = Some d →
  type (geometry d) = "multi_polygon"%string →
  mvertices (geometry d) = Some rs →
  ∃ s' news,
    split s = (s', Ok tt)
    ∧ length news = length rs
    ∧ (∀ n, n ∈ news → n ∈ shapes s')
    ∧ (∀ i j ni nj di dj,
         news !! i = Some ni → news !! j = Some nj →
         heap s' !! ni = Some di → heap s' !! nj = Some dj →
         id di = id dj → i = j)
    ∧ (∀ i n dn, news !! i = Some n → heap s' !! n = Some dn →
         color dn = color d ∧ type (geometry dn) = "polygon"%string).
Proof.
  intros Hwf Hsel Hd Hty Hrs.
  destruct (wf_elim s Hwf) as (Hnd & _ & Hsub & Hlive).
  destruct (split_loop d rs 0 s)
    as (st' & news & Hrun & Hlen & Hndn & Hfr & Hsh & Hold & Hrec).
  { intros x Hx. destruct (Hlive x Hx) as (y & -> & _). by eexists. }
  assert (Hnot : shape ∉ news).
  { intros Hn. apply Hfr in Hn. congruence. }
  assert (Hrecord : ∀ i n dn, news !! i = Some n → heap st' !! n = Some dn →
                      ∃ v, dn = ringRecord d i v).
  { intros i n dn Hn Hdn.
    destruct (lookup_lt_is_Some_2 rs i) as [v Hv].
    { rewrite <- Hlen. by apply lookup_lt_Some in Hn. }
    destruct (Hrec i v Hv) as (n' & Hn' & Hhn).
    rewrite Hn in Hn'. injection Hn' as <-.
    rewrite Hdn in Hhn. injection Hhn as ->. by exists v. }
  exists (set_shapes (set_delete shape (shapes st')) st'), news.
  split_and!.
  - unfold split. unfold bind at 1. unfold gets at 1. rewrite Hsel.
    rewrite bool_decide_eq_true_2 by done.
    unfold bind at 1. unfold deref at 1. rewrite Hd.
    rewrite bool_decide_eq_true_2 by done. rewrite Hrs.
    unfold bind. rewrite Hrun. reflexivity.
  - exact Hlen.
  - intros n Hn. cbn. apply elem_of_set_delete. split.
    + rewrite Hsh. apply elem_of_app. by right.
    + by intros ->.
  - intros i j ni nj di dj Hi Hj Hdi Hdj Hid. cbn in Hdi, Hdj.
    destruct (Hrecord i ni di Hi Hdi) as [vi ->].
    destruct (Hrecord j nj dj Hj Hdj) as [vj ->].
    cbn in Hid. apply (inj (String.app (id d))) in Hid.
    by apply (inj pretty) in Hid.
  - intros i n dn Hn Hdn. cbn in Hdn.
    by destruct (Hrecord i n dn Hn Hdn) as [v ->].
Qed.

Lemma split_gives_distinct_ids_witness :
  ∃ s' news,
    split mergedSelected = (s', Ok tt)
    ∧ length news = 2%nat
    ∧ (∀ n, n ∈ news → n ∈ shapes s')
    ∧ (∀ i j ni nj di dj,
         news !! i = Some ni → news !! j = Some nj →
         heap s' !! ni = Some di → heap s' !! nj = Some dj →
         id di = id dj → i = j)
    ∧ (∀ i n dn, news !! i = Some n → heap s' !! n = Some dn →
         color dn = "blue"%string ∧ type (geometry dn) = "polygon"%string).
Proof.
  refine (split_gives_distinct_ids mergedSelected 3%positive
            {| id := "tts";
               geometry := {| vertices := [];
                              mvertices := Some [vertices (geometry triangle);
                                                 vertices (geometry square)];
                              type := "multi_polygon" |};
               color := "blue" |}
            [vertices (geometry triangle); vertices (geometry square)]
            _ _ _ _ _).
  - vm_compute. reflexivity.
  - vm_compute. reflexivity.
  - vm_compute. reflexivity.
  - reflexivity.
  - reflexivity.
Defined.

(** *** Nodes *)

(** X20.  A press on a node with a button other than the secondary one
    followed by its release, without a move in between, changes no record
    and emits nothing, even if a change was still flagged before the press:
    the press clears the flag.  The node is the active one afterwards. *)
Theorem node_click_changes_nothing `{Base}
    (evt : PointerEvent) (s : State) (r : ref) (d : ShapeData) :
  head (targetShapes s) = Some r →
  heap s !! r = Some d →
  (buttons evt ≠ 2)%Z →
  (0 ≤ nodeIdx evt)%Z →
  (2 * nodeIdx evt < Z.of_nat (length (vertices (geometry d))))%Z →
  ∃ s', (onNodeDown evt;; onNodeUp) s = (s', Ok tt)
    ∧ heap s' = heap s
    ∧ shapes s' = shapes s
    ∧ emitted (log s') = emitted (log s)
    ∧ warnings (log s') = warnings (log s)
    ∧ updated s' = false
    ∧ isNodeTranslating s' = false
    ∧ activeNodeIdx s' = nodeIdx evt.
Proof.
  intros Hhd Hd Hb Hidx0 Hidx1.
  unfold onNodeDown, onNodeUp, deref. unfold_monad.
  destruct s as [h sh tg md tmp ch cr up nt mt db idx mx my w ht tm nx lg].
  cbn in *. rewrite Hhd. cbn.
  rewrite (proj2 (Z.eqb_neq _ _) Hb). cbn. rewrite Hd. cbn.
  rewrite (proj2 (Z.leb_le _ _) Hidx0), (proj2 (Z.ltb_lt _ _) Hidx1). cbn.
  rewrite Hhd. cbn. rewrite Hd. cbn.
  rewrite (proj2 (Z.leb_le _ _) Hidx0), (proj2 (Z.ltb_lt _ _) Hidx1). cbn.
  eexists. split; [reflexivity |]. cbn.
  rewrite !emitted_app, !warnings_app. cbn. rewrite !app_nil_r.
  split_and!; reflexivity.
Qed.

Lemma node_click_changes_nothing_witness :
  ∃ s', (onNodeDown {| local_x := 100; local_y := 90; buttons := 1;
                       nodeIdx := 2 |};;
         onNodeUp (H := exampleBase)) nodeDragged = (s', Ok tt)
    ∧ heap s' = heap nodeDragged
    ∧ shapes s' = shapes nodeDragged
    ∧ emitted (log s') = emitted (log nodeDragged)
    ∧ warnings (log s') = warnings (log nodeDragged)
    ∧ updated s' = false
    ∧ isNodeTranslating s' = false
    ∧ activeNodeIdx s' = 2%Z.
Proof.
  apply (node_click_changes_nothing (H := exampleBase)
           {| local_x := 100; local_y := 90; buttons := 1; nodeIdx := 2 |}
           nodeDragged 1%positive
           (with_vertices [1 # 10; 1 # 10; 9 # 10; 1 # 10; 1 # 2; 1 # 10] triangle)).
  - vm_compute. reflexivity.
  - vm_compute. reflexivity.
  - vm_compute. discriminate.
  - vm_compute. discriminate.
  - vm_compute. reflexivity.
Defined.

(** X21.  A press on a node with the secondary button removes that vertex
    and emits one [update] with the id of the record, but only from a
    polygon of more than three vertices: a polygon of three vertices is left
    as it is and nothing is emitted.  A polygon of at least three vertices
    has at least three afterwards. *)
Theorem node_removal_keeps_three_vertices
    (evt : PointerEvent) (s : State) (r : ref) (d : ShapeData) :
  head (targetShapes s) = Some r →
  heap s !! r = Some d →
  buttons evt = 2%Z →
  (0 ≤ nodeIdx evt)%Z →
  (2 * nodeIdx evt < Z.of_nat (length (vertices (geometry d))))%Z →
  (6 ≤ length (vertices (geometry d)))%nat →
  Nat.Even (length (vertices (geometry d))) →
  ∃ s' d', onNodeDown evt s = (s', Ok tt)
    ∧ heap s' = <[r := d']> (heap s)
    ∧ shapes s' = shapes s
    ∧ (6 ≤ length (vertices (geometry d')))%nat
    ∧ Nat.Even (length (vertices (geometry d')))
    ∧ (id d', color d', type (geometry d')) = (id d, color d, type (geometry d))
    ∧ if bool_decide (6 < length (vertices (geometry d)))%nat then
        vertices (geometry d')
        = take (2 * Z.to_nat (nodeIdx evt)) (vertices (geometry d))
          ++ drop (2 * Z.to_nat (nodeIdx evt) + 2) (vertices (geometry d))
        ∧ (length (vertices (geometry d')) + 2
           = length (vertices (geometry d)))%nat
        ∧ emitted (log s') = emitted (log s) ++ [("update"%string, [id d])]
      else d' = d ∧ s' = s.
Proof.
  intros Hhd Hd Hb Hidx0 Hidx1 Hlen Hev.
  unfold onNodeDown, removeNode, deref. unfold_monad.
  destruct s as [h sh tg md tmp ch cr up nt mt db idx mx my w ht tm nx lg].
  cbn in *. rewrite Hhd. cbn. rewrite Hb. cbn. rewrite Hd. cbn.
  case_bool_decide as Hmore; cbn.
  - rewrite (alter_Some _ _ h d Hd).
    rewrite (proj2 (Z.leb_le _ _) Hidx0).
    destruct Hev as [k Hk].
    eexists _, _. split; [reflexivity |]. cbn.
    split; [reflexivity |]. cbn.
    rewrite length_app, length_take, length_drop.
    fold (emitted (lg ++ [Emit "update" [id d]])). fold (emitted lg).
    rewrite emitted_app.
    split_and!; try done; [lia | exists (k - 1)%nat; lia | lia].
  - exists (Build_State h sh tg md tmp ch cr up nt mt db idx mx my w ht tm nx lg), d.
    split; [reflexivity |]. cbn. split_and!; try done.
    symmetry. by apply insert_id.
Qed.

Lemma node_removal_keeps_three_vertices_witness :
  ∃ s' d', onNodeDown {| local_x := 100; local_y := 90; buttons := 2;
                         nodeIdx := 1 |} triangleSelected = (s', Ok tt)
    ∧ heap s' = <[1%positive := d']> (heap triangleSelected)
    ∧ shapes s' = shapes triangleSelected
    ∧ (6 ≤ length (vertices (geometry d')))%nat
    ∧ Nat.Even (length (vertices (geometry d')))
    ∧ (id d', color d', type (geometry d'))
      = (id triangle, color triangle, type (geometry triangle))
    ∧ if bool_decide (6 < length (vertices (geometry triangle)))%nat then
        vertices (geometry d')
        = take (2 * Z.to_nat 1) (vertices (geometry triangle))
          ++ drop (2 * Z.to_nat 1 + 2) (vertices (geometry triangle))
        ∧ (length (vertices (geometry d')) + 2
           = length (vertices (geometry triangle)))%nat
        ∧ emitted (log s')
          = emitted (log triangleSelected) ++ [("update"%string, [id triangle])]
      else d' = triangle ∧ s' = triangleSelected.
Proof.
  apply (node_removal_keeps_three_vertices
           {| local_x := 100; local_y := 90; buttons := 2; nodeIdx := 1 |}
           triangleSelected 1%positive triangle).
  - vm_compute. reflexivity.
  - vm_compute. reflexivity.
  - reflexivity.
  - vm_compute. discriminate.
  - vm_compute. reflexivity.
  - vm_compute. lia.
  - exists 3%nat. reflexivity.
Defined.

End Polygon2DMore.
